(** * nea-sg-map: the chat orchestration pipeline of [app.py]

    A shallow embedding of the registry-driven part of [app.py]: the layer
    registry, the two context builders, the rule-based intent extractor,
    the parsing of tool calls, the reply fallback chain of [chat_api] and
    [welcome_message], followed by the properties proved about them.
    The data endpoints with their fetch helpers, the health endpoint and
    the [.env] file of [get_onemap_token.py] come after them.

    Python [str] is modelled as [string], a text by its bytes: one byte
    for a character of the ASCII range, the bytes of its UTF-8 encoding
    for any other.  The character classes ([str.lower], [str.strip],
    [str.splitlines], and [\s], [\d], [\w], [\b] of the [re] module)
    are those of Python on the ASCII range; a byte above 127 is carried
    unchanged and belongs to no class.  Python's own classes go further:
    [\w] and [\b] know the letters and digits of every script, [strip]
    and [\s] the blanks U+0085, U+00A0 and the like, [splitlines] the
    boundaries U+0085, U+2028 and U+2029.  A statement that is read off
    the text of a message or of a name, and whose truth depends on the
    class of such a character, restricts its texts in its hypotheses
    ([whole_word], [one_line]).

    The record [upstream] holds one answer of OneMap for each layer.  The
    source asks OneMap again at every call of a context builder, so the
    statements follow flows in which each layer is fetched once for the
    reply, or say which call they are about. *)

From Stdlib Require Import List Ascii String ZArith Lia Bool Arith.
Import ListNotations.
Open Scope string_scope.

(** ** Python string primitives *)

Module Py.

Definition code (c : ascii) : nat := nat_of_ascii c.

Definition between (lo hi : nat) (c : ascii) : bool :=
  (lo <=? code c)%nat && (code c <=? hi)%nat.

(** [str.isspace] on ASCII: TAB LF VT FF CR, FS GS RS US and the space.
    (Python also takes U+0085, U+00A0 and the other Unicode blanks.) *)
Definition is_space (c : ascii) : bool :=
  between 9 13 c || between 28 32 c.

Definition is_digit (c : ascii) : bool := between 48 57 c.
Definition is_upper (c : ascii) : bool := between 65 90 c.
Definition is_lower (c : ascii) : bool := between 97 122 c.
Definition is_alpha (c : ascii) : bool := is_upper c || is_lower c.

(** [\w] on ASCII: alphanumeric or underscore.  (On a [str] Python also
    takes the letters and digits outside ASCII.) *)
Definition is_word (c : ascii) : bool :=
  is_alpha c || is_digit c || (code c =? 95)%nat.

(** Line boundaries of [str.splitlines] on ASCII: LF VT FF CR FS GS RS.
    (Python also splits on U+0085, U+2028 and U+2029; see [one_line].) *)
Definition is_linebreak (c : ascii) : bool :=
  between 10 13 c || between 28 30 c.

Definition lower_char (c : ascii) : ascii :=
  if is_upper c then ascii_of_nat (code c + 32) else c.

Definition upper_char (c : ascii) : ascii :=
  if is_lower c then ascii_of_nat (code c - 32) else c.

(** [s.lower()] *)
Fixpoint lower (s : string) : string :=
  match s with
  | EmptyString => EmptyString
  | String c r => String (lower_char c) (lower r)
  end.

(** [s.title()]: the first letter of every run of letters in upper case,
    the others in lower case. *)
Fixpoint title_from (in_word : bool) (s : string) : string :=
  match s with
  | EmptyString => EmptyString
  | String c r =>
      if is_alpha c
      then String (if in_word then lower_char c else upper_char c) (title_from true r)
      else String c (title_from false r)
  end.

Definition title (s : string) : string := title_from false s.

Fixpoint lstrip (s : string) : string :=
  match s with
  | EmptyString => EmptyString
  | String c r => if is_space c then lstrip r else s
  end.

Fixpoint rstrip (s : string) : string :=
  match s with
  | EmptyString => EmptyString
  | String c r =>
      match rstrip r with
      | EmptyString => if is_space c then EmptyString else String c EmptyString
      | r' => String c r'
      end
  end.

(** [s.strip()] *)
Definition strip (s : string) : string := rstrip (lstrip s).

(** [t.startswith(p)] *)
Fixpoint startswith (p t : string) : bool :=
  match p, t with
  | EmptyString, _ => true
  | String a p', String b t' => Ascii.eqb a b && startswith p' t'
  | String _ _, EmptyString => false
  end.

(** [p in t] for strings *)
Fixpoint contains (p t : string) : bool :=
  startswith p t ||
  match t with
  | EmptyString => false
  | String _ t' => contains p t'
  end.

(** [s[n:]] for [0 <= n] *)
Fixpoint drop (n : nat) (s : string) : string :=
  match n, s with
  | O, _ => s
  | S _, EmptyString => EmptyString
  | S n', String _ r => drop n' r
  end.

(** [s[:n]] for [0 <= n] *)
Fixpoint take (n : nat) (s : string) : string :=
  match n, s with
  | O, _ => EmptyString
  | S _, EmptyString => EmptyString
  | S n', String c r => String c (take n' r)
  end.

(** [sep.join(parts)] *)
Definition join (sep : string) (parts : list string) : string :=
  String.concat sep parts.

(** [s.splitlines()]: [cur] is the line being read.  The boundary is not
    kept, and an empty last line is not reported. *)
Fixpoint splitlines_from (cur : string) (s : string) : list string :=
  match s with
  | EmptyString =>
      match cur with
      | EmptyString => []
      | _ => [cur]
      end
  | String c r =>
      if (code c =? 13)%nat then
        (* CR LF is one boundary *)
        match r with
        | String d r' =>
            if (code d =? 10)%nat
            then cur :: splitlines_from EmptyString r'
            else cur :: splitlines_from EmptyString r
        | EmptyString => [cur]
        end
      else if is_linebreak c
      then cur :: splitlines_from EmptyString r
      else splitlines_from (cur ++ String c EmptyString) r
  end.

Definition splitlines (s : string) : list string :=
  splitlines_from EmptyString s.

(** Truthiness of a string: [bool(s)] *)
Definition nonempty (s : string) : bool :=
  match s with EmptyString => false | _ => true end.

(** [str(n)] for a natural number: decimal digits, most significant
    first.  [fuel] bounds the number of digits. *)
Definition digit_char (d : nat) : ascii := ascii_of_nat (48 + d).

Fixpoint digits_of (fuel n : nat) (acc : string) : string :=
  match fuel with
  | O => acc
  | S f =>
      let acc' := String (digit_char (n mod 10)) acc in
      if (n <? 10)%nat then acc' else digits_of f (n / 10) acc'
  end.

Definition str_of_nat (n : nat) : string := digits_of (S n) n EmptyString.

Definition str_of_Z (z : Z) : string :=
  if (z <? 0)%Z then String "-" (str_of_nat (Z.to_nat (- z)))
  else str_of_nat (Z.to_nat z).

(** [int(s)] for a string of ASCII digits. *)
Fixpoint int_from (acc : nat) (s : string) : nat :=
  match s with
  | EmptyString => acc
  | String c r => int_from (10 * acc + (code c - 48)) r
  end.

Definition int_of (s : string) : nat := int_from 0 s.

(** [xs[:k]] for a list and any integer [k]: a negative bound counts from
    the end. *)
Definition slice_to {A : Type} (k : Z) (xs : list A) : list A :=
  if (k <? 0)%Z
  then firstn (List.length xs - Z.to_nat (- k)) xs
  else firstn (Z.to_nat k) xs.


End Py.

(** ** The fragment of the [re] module the program uses

    Patterns are kept as syntax trees; [Star] and [Plus] apply to a
    character class, which is all the program's patterns need.  Matching
    is by backtracking with a continuation, alternatives and greedy
    repetitions tried in Python's order.  The continuation receives the
    character before the current position (for [\b]), the rest of the
    subject and the text of group 1. *)

Module Re.

Inductive char_class := Space | Digit.

Definition in_class (p : char_class) (c : ascii) : bool :=
  match p with
  | Space => Py.is_space c
  | Digit => Py.is_digit c
  end.

Inductive regex :=
| Lit (s : string)          (* literal text *)
| Star (p : char_class)     (* p*  *)
| Plus (p : char_class)     (* p+  *)
| Seq (r1 r2 : regex)       (* r1 r2 *)
| Alt (r1 r2 : regex)       (* r1 | r2 *)
| Boundary                  (* \b *)
| Group (r : regex).        (* ( r ), group 1 *)

Section Matching.

Context {A : Type}.

Definition cont := option ascii -> string -> option string -> option A.

Fixpoint lit (l : string) (prev : option ascii) (s : string)
    (g : option string) (k : cont) : option A :=
  match l with
  | EmptyString => k prev s g
  | String a l' =>
      match s with
      | String b s' => if Ascii.eqb a b then lit l' (Some b) s' g k else None
      | EmptyString => None
      end
  end.

(** Greedy repetition: take one more character when possible, give it
    back when the rest of the pattern fails. *)
Fixpoint star (p : char_class) (prev : option ascii) (s : string)
    (g : option string) (k : cont) : option A :=
  match s with
  | String c s' =>
      if in_class p c then
        match star p (Some c) s' g k with
        | Some x => Some x
        | None => k prev s g
        end
      else k prev s g
  | EmptyString => k prev s g
  end.

Definition is_word_opt (c : option ascii) : bool :=
  match c with
  | Some c => Py.is_word c
  | None => false
  end.

Definition next_char (s : string) : option ascii :=
  match s with
  | String c _ => Some c
  | EmptyString => None
  end.

Definition at_boundary (prev : option ascii) (s : string) : bool :=
  xorb (is_word_opt prev) (is_word_opt (next_char s)).

(** The text consumed between two positions of the same subject. *)
Definition consumed (s s' : string) : string :=
  Py.take (String.length s - String.length s') s.

Fixpoint run (r : regex) (prev : option ascii) (s : string)
    (g : option string) (k : cont) : option A :=
  match r with
  | Lit l => lit l prev s g k
  | Star p => star p prev s g k
  | Plus p =>
      match s with
      | String c s' => if in_class p c then star p (Some c) s' g k else None
      | EmptyString => None
      end
  | Seq r1 r2 => run r1 prev s g (fun prev' s' g' => run r2 prev' s' g' k)
  | Alt r1 r2 =>
      match run r1 prev s g k with
      | Some x => Some x
      | None => run r2 prev s g k
      end
  | Boundary => if at_boundary prev s then k prev s g else None
  | Group r1 => run r1 prev s g (fun prev' s' _ => k prev' s' (Some (consumed s s')))
  end.

End Matching.

(** A match object: only group 1 is ever read. *)
Record match_object := { group1 : option string }.

Definition match_at (r : regex) (prev : option ascii) (s : string) : option match_object :=
  run r prev s None (fun _ _ g => Some {| group1 := g |}).

(** [re.search(r, s)]: the leftmost position where [r] matches. *)
Fixpoint search_from (r : regex) (prev : option ascii) (s : string) : option match_object :=
  match match_at r prev s with
  | Some m => Some m
  | None =>
      match s with
      | String c s' => search_from r (Some c) s'
      | EmptyString => None
      end
  end.

Definition search (r : regex) (s : string) : option match_object :=
  search_from r None s.

Definition matches (r : regex) (s : string) : bool :=
  match search r s with Some _ => true | None => false end.

End Re.

(** ** JSON values, as the program reads them

    The program only tests values for truth, renders them with [str],
    compares them with strings and asks whether they are booleans.
    Floats, arrays and objects are kept as [JOther] with their truth
    value and their [str] rendering. *)

Inductive json :=
| JNull
| JBool (b : bool)
| JInt (z : Z)
| JStr (s : string)
| JOther (truth : bool) (shown : string).

Definition truthy (v : json) : bool :=
  match v with
  | JNull => false
  | JBool b => b
  | JInt z => negb (z =? 0)%Z
  | JStr s => Py.nonempty s
  | JOther t _ => t
  end.

(** [str(v)] *)
Definition py_str (v : json) : string :=
  match v with
  | JNull => "None"
  | JBool true => "True"
  | JBool false => "False"
  | JInt z => Py.str_of_Z z
  | JStr s => s
  | JOther _ s => s
  end.

(** [a or b] *)
Definition py_or (a b : json) : json := if truthy a then a else b.

(** A JSON object; [dict_get d k] is [d.get(k)], [None] when [k] is
    missing. *)
Definition dict := list (string * json).

Fixpoint dict_get (d : dict) (k : string) : json :=
  match d with
  | [] => JNull
  | (k', v) :: d' => if String.eqb k' k then v else dict_get d' k
  end.

(** Truthiness of a [str] or [None]. *)
Definition truthy_opt (r : option string) : bool :=
  match r with
  | Some s => Py.nonempty s
  | None => false
  end.

Definition LF : string := String "010"%char EmptyString.

(** ** Upstream data

    The features returned by the two fetch helpers, which absorb every
    upstream failure into the empty list.  The record is one snapshot of
    the upstream data: what a fetch helper returns when it is called.
    The source calls the helpers anew in every builder call of a request,
    and two such calls may see different data. *)

Record feature := { properties : dict }.

Record upstream := {
  _get_dengue_features : list feature;
  _get_planning_features : option string -> list feature
}.

(** ** Context builders *)

(** The de-duplication loop shared by both builders: [seen] is the set of
    names met so far, [unique] the result list, appended to. *)
Fixpoint dedup_loop (names seen unique : list string) : list string :=
  match names with
  | [] => unique
  | n :: rest =>
      if existsb (String.eqb n) seen
      then dedup_loop rest seen unique
      else dedup_loop rest (n :: seen) (unique ++ [n])%list
  end.

Definition dedup (names : list string) : list string :=
  dedup_loop names [] [].

Definition dengue_names (feats : list feature) : list string :=
  flat_map (fun f =>
    let p := properties f in
    let name :=
      py_or (py_or (py_or (dict_get p "DESCRIPTION") (dict_get p "NAME"))
                   (dict_get p "Description"))
            (dict_get p "Name") in
    if truthy name then [py_str name] else []) feats.

Definition planning_names (feats : list feature) : list string :=
  flat_map (fun f =>
    let p := properties f in
    let name := dict_get p "name" in
    if truthy name then [py_str name] else []) feats.

Definition bullet (n : string) : string := "- " ++ n.

Definition _build_dengue_context (u : upstream) (max_items : Z) : string :=
  let feats := _get_dengue_features u in
  let names := dengue_names feats in
  let unique := dedup names in
  let total := List.length unique in
  let sample := Py.slice_to max_items unique in
  let lines := Py.join LF (map bullet sample) in
  "Latest dengue clusters: " ++ Py.str_of_nat total ++ " unique clusters." ++ LF
  ++ "List (first " ++ Py.str_of_nat (List.length sample) ++ "):" ++ LF ++ lines.

(** [f"{year}"] for [year: Optional[str]] *)
Definition format_year (year : option string) : string :=
  match year with
  | Some y => y
  | None => "None"
  end.

Definition _build_planning_context (u : upstream) (max_items : Z)
    (year : option string) : string :=
  let feats := _get_planning_features u year in
  let names := planning_names feats in
  let unique := dedup names in
  let total := List.length unique in
  let sample := Py.slice_to max_items unique in
  let lines := Py.join LF (map bullet sample) in
  "Planning areas (year=" ++ format_year year ++ "): " ++ Py.str_of_nat total
  ++ " total." ++ LF
  ++ "List (first " ++ Py.str_of_nat (List.length sample) ++ "):" ++ LF ++ lines.

Definition _planning_context_builder (u : upstream) (max_items : Z) : string :=
  _build_planning_context u max_items (Some "2019").

(** ** Layer registry *)

Record layer_meta := {
  title : string;
  synonyms : list string;
  context_builder : upstream -> Z -> string;
  total_regex : Re.regex
}.

(** [r":\s*(\d+)\s*" + word] *)
Definition total_pattern (word : string) : Re.regex :=
  Re.Seq (Re.Lit ":")
    (Re.Seq (Re.Star Re.Space)
      (Re.Seq (Re.Group (Re.Plus Re.Digit))
        (Re.Seq (Re.Star Re.Space) (Re.Lit word)))).

(** The registry is an insertion-ordered dictionary: its entries are
    visited in the order written. *)
Definition get_layer_registry : list (string * layer_meta) :=
  [ ("dengue",
     {| title := "Dengue Hotspots";
        synonyms := ["dengue"; "hotspot"; "cluster"; "clusters"];
        context_builder := fun u max_items => _build_dengue_context u max_items;
        total_regex := total_pattern "unique" |});
    ("planning",
     {| title := "Planning Areas (2019)";
        synonyms := ["planning area"; "planning"; "boundary"; "boundaries"];
        context_builder := fun u max_items => _planning_context_builder u max_items;
        total_regex := total_pattern "total" |}) ].

Definition registry_keys (registry : list (string * layer_meta)) : list string :=
  map fst registry.

Fixpoint registry_get (registry : list (string * layer_meta)) (key : string)
    : option layer_meta :=
  match registry with
  | [] => None
  | (k, meta) :: rest => if String.eqb k key then Some meta else registry_get rest key
  end.

(** [str(meta.get("title") or key.title())] *)
Definition title_of (key : string) (meta : layer_meta) : string :=
  if Py.nonempty (title meta) then title meta else Py.title key.

(** ** Intents *)

Inductive intent :=
| show_layer (layer : string) (fit : option bool)
| hide_layer (layer : string)
| clear_all.

(** [r"\b(clear|reset|remove\s+all)\b"] *)
Definition clear_pattern : Re.regex :=
  Re.Seq Re.Boundary
    (Re.Seq
      (Re.Group
        (Re.Alt (Re.Lit "clear")
          (Re.Alt (Re.Lit "reset")
            (Re.Seq (Re.Lit "remove") (Re.Seq (Re.Plus Re.Space) (Re.Lit "all"))))))
      Re.Boundary).

Definition hide_words : list string := ["hide"; "off"; "remove"; "turn off"; "disable"].
Definition show_words : list string := ["show"; "on"; "display"; "enable"; "where"; "see"].

(** [any(s in text for s in words)] *)
Definition any_in (words : list string) (text : string) : bool :=
  existsb (fun w => Py.contains w text) words.

Definition mentions (text : string) (entry : string * layer_meta) : bool :=
  let syns := fst entry :: synonyms (snd entry) in
  any_in syns text.

Definition _classify_intents (message : string) : list intent :=
  let text := Py.strip (Py.lower message) in
  let intents := if Re.matches clear_pattern text then [clear_all] else [] in
  let wants_hide := any_in hide_words text in
  let registry := get_layer_registry in
  (intents ++
   flat_map (fun entry =>
     if mentions text entry
     then [if wants_hide then hide_layer (fst entry) else show_layer (fst entry) None]
     else []) registry)%list.

(** [wants_show] is computed by the source and never read. *)
Definition wants_show (text : string) : bool :=
  any_in show_words text || negb (any_in hide_words text).

(** ** The model backend

    What the two HTTP calls return is outside the program.  [configured]
    says whether the three [AZURE_OPENAI_*] variables are set; the two
    functions give, for a request body, what comes back. *)

(** Outcome of [json.loads] on the arguments of a call. *)
Inductive json_loads :=
| LoadsError                 (* not JSON: the source continues with {} *)
| LoadsObject (d : dict)     (* a JSON object *)
| LoadsOther.                (* JSON, but not an object *)

Record fn_call := {
  name : option string;
  arguments : json_loads
}.

Record message := {
  content : option string;
  tool_calls : list fn_call;
  function_call : option fn_call
}.

Inductive completion :=
| CallFailed                 (* transport error, bad status, bad payload *)
| NoChoices
| FirstChoice (m : message).

Record backend := {
  configured : bool;
  post_with_tools : string -> completion;
  (** content of the first choice of a plain completion, when there is one *)
  post_plain : string -> option string
}.

Definition _azure_openai_reply (b : backend) (user_message : string) : option string :=
  if negb (configured b) then None
  else
    match post_plain b user_message with
    | Some c => if Py.nonempty c then Some (Py.strip c) else None
    | None => None
    end.

Record tool_out := {
  out_reply : option string;
  out_intents : list intent
}.

(** [args.get(k)]; [None] when [args] has no [get] (the call raises). *)
Definition args_get (args : json_loads) (k : string) : option json :=
  match args with
  | LoadsError => Some JNull
  | LoadsObject d => Some (dict_get d k)
  | LoadsOther => None
  end.

(** [layer in layer_names]: the layer as a string when it is one of the
    names. *)
Definition known_layer (layer_names : list string) (layer : json) : option string :=
  match layer with
  | JStr s => if existsb (String.eqb s) layer_names then Some s else None
  | _ => None
  end.

Definition is_name (n : option string) (s : string) : bool :=
  match n with
  | Some n => String.eqb n s
  | None => false
  end.

(** One iteration of the loop over [tool_calls]: the intents with what
    this call adds, or [None] when the iteration raises. *)
Definition tool_call_step (layer_names : list string) (call : fn_call)
    (intents : list intent) : option (list intent) :=
  let args := arguments call in
  if is_name (name call) "show_layer" then
    match args_get args "layer" with
    | None => None
    | Some layer =>
        match known_layer layer_names layer with
        | Some l =>
            match args_get args "fit" with
            | Some (JBool f) => Some (intents ++ [show_layer l (Some f)])%list
            | _ => Some (intents ++ [show_layer l None])%list
            end
        | None => Some intents
        end
    end
  else if is_name (name call) "hide_layer" then
    match args_get args "layer" with
    | None => None
    | Some layer =>
        match known_layer layer_names layer with
        | Some l => Some (intents ++ [hide_layer l])%list
        | None => Some intents
        end
    end
  else if is_name (name call) "clear_all" then Some (intents ++ [clear_all])%list
  else Some intents.

Fixpoint tool_calls_loop (layer_names : list string) (calls : list fn_call)
    (intents : list intent) : option (list intent) :=
  match calls with
  | [] => Some intents
  | call :: rest =>
      match tool_call_step layer_names call intents with
      | Some intents' => tool_calls_loop layer_names rest intents'
      | None => None
      end
  end.

(** The older single [function_call] shape.  [legacy_test] is the
    condition [name == tool and args.get("layer") in layer_names]:
    [None] when evaluating it raises, [Some (Some l)] when it holds. *)
Definition legacy_test (layer_names : list string) (fn : fn_call) (tool : string)
    : option (option string) :=
  if is_name (name fn) tool then
    match args_get (arguments fn) "layer" with
    | None => None
    | Some layer => Some (known_layer layer_names layer)
    end
  else Some None.

Definition legacy_call (layer_names : list string) (fn : fn_call)
    : option (list intent) :=
  match legacy_test layer_names fn "show_layer" with
  | None => None
  | Some (Some l) => Some [show_layer l None]
  | Some None =>
      match legacy_test layer_names fn "hide_layer" with
      | None => None
      | Some (Some l) => Some [hide_layer l]
      | Some None =>
          if is_name (name fn) "clear_all" then Some [clear_all] else Some []
      end
  end.

(** What the source does with the first choice's message. *)
Definition parse_message (layer_names : list string) (m : message) : option tool_out :=
  let reply_text :=
    let c := Py.strip (match content m with Some c => c | None => "" end) in
    if Py.nonempty c then Some c else None in
  match tool_calls_loop layer_names (tool_calls m) [] with
  | None => None
  | Some intents =>
      match intents, function_call m with
      | [], Some fn =>
          match legacy_call layer_names fn with
          | Some intents' => Some {| out_reply := reply_text; out_intents := intents' |}
          | None => None
          end
      | _, _ => Some {| out_reply := reply_text; out_intents := intents |}
      end
  end.

Definition _azure_openai_chat_with_tools (b : backend) (user_message : string)
    : option tool_out :=
  if negb (configured b) then None
  else
    let layer_names := registry_keys get_layer_registry in
    match post_with_tools b user_message with
    | CallFailed => None
    | NoChoices => Some {| out_reply := None; out_intents := [] |}
    | FirstChoice m => parse_message layer_names m
    end.

(** ** The chat endpoint *)

Record chat_result := {
  reply : string;
  intents : list intent
}.

(** [r"\b(list|show)\b"] and [r"\b(summarize|summary)\b"] *)
Definition list_pattern : Re.regex :=
  Re.Seq Re.Boundary
    (Re.Seq (Re.Group (Re.Alt (Re.Lit "list") (Re.Lit "show"))) Re.Boundary).

Definition summarize_pattern : Re.regex :=
  Re.Seq Re.Boundary
    (Re.Seq (Re.Group (Re.Alt (Re.Lit "summarize") (Re.Lit "summary"))) Re.Boundary).

(** [_detect_layers]: the keys of the layers the text mentions, every key
    when it mentions none. *)
Definition _detect_layers (registry : list (string * layer_meta)) (txt : string)
    : list string :=
  match map fst (filter (mentions txt) registry) with
  | [] => registry_keys registry
  | keys => keys
  end.

(** [[ln for ln in ctx.splitlines() if ln.startswith("- ")]] *)
Definition bullet_lines (ctx : string) : list string :=
  filter (Py.startswith "- ") (Py.splitlines ctx).

(** The list flow: one titled block per target layer that has lines. *)
Definition list_bucket (u : upstream) (registry : list (string * layer_meta))
    (targets : list string) : list string :=
  flat_map (fun key =>
    match registry_get registry key with
    | None => []
    | Some meta =>
        let ctx := context_builder meta u 300 in
        let lines := bullet_lines ctx in
        match lines with
        | [] => []
        | _ => [title_of key meta ++ ":" ++ LF ++ Py.join LF (firstn 100 lines)]
        end
    end) targets.

(** [total = 0; m = re.search(total_rx, ctx); if m: total = int(m.group(1))].
    Group 1 of the registry's patterns is a non-empty run of digits
    ([search_total_group] below), so [int] is always defined. *)
Definition extract_total (total_rx : Re.regex) (ctx : string) : nat :=
  match Re.search total_rx ctx with
  | Some m =>
      match Re.group1 m with
      | Some g => Py.int_of g
      | None => 0
      end
  | None => 0
  end.

(** The summarize flow: one sentence per target layer whose total is not
    zero. *)
Definition summary_piece (u : upstream) (key : string) (meta : layer_meta)
    : list string :=
  let ctx := context_builder meta u 50 in
  let total := extract_total (total_regex meta) ctx in
  let examples := firstn 5 (map (Py.drop 2) (bullet_lines ctx)) in
  let title := title_of key meta in
  if (total =? 0)%nat then []
  else
    [title ++ ": " ++ Py.str_of_nat total ++ " items."
     ++ match examples with
        | [] => ""
        | _ => " Examples: " ++ Py.join ", " examples ++ "."
        end].

Definition summary_pieces (u : upstream) (registry : list (string * layer_meta))
    (targets : list string) : list string :=
  flat_map (fun key =>
    match registry_get registry key with
    | None => []
    | Some meta => summary_piece u key meta
    end) targets.

(** The fixed phrase of an intent, when it has one. *)
Definition phrase_of (it : intent) : list string :=
  match it with
  | show_layer l _ =>
      if String.eqb l "dengue" then ["Showing dengue hotspots on the map."]
      else if String.eqb l "planning" then ["Showing planning area boundaries."]
      else []
  | hide_layer l =>
      if String.eqb l "dengue" then ["Hiding dengue hotspots."]
      else if String.eqb l "planning" then ["Hiding planning area boundaries."]
      else []
  | clear_all => ["Clearing map overlays."]
  end.

Definition enrich (u : upstream) (message : string) : string :=
  let registry := get_layer_registry in
  let context_sections := map (fun entry => context_builder (snd entry) u 100) registry in
  let context_blob :=
    "Context from live API data (use for answers):" ++ LF
    ++ Py.join (LF ++ LF) context_sections
    ++ LF ++ LF
    ++ "Instructions: Answer strictly using the context lists above for available layers. "
    ++ "When asked to list items, provide a concise bullet or numbered list from the context. "
    ++ "If a layer has no context, say that data is currently unavailable. Keep answers short." in
  context_blob ++ LF ++ LF ++ "User: " ++ message.

(** The deterministic fallbacks of the tool-calling branch, entered when
    the model gave no reply: the list flow, then the summarize flow when
    there is still no reply. *)
Definition tool_branch_fallback (u : upstream) (message : string) : option string :=
  let low := Py.lower message in
  let registry := get_layer_registry in
  let target_layers := _detect_layers registry low in
  let reply :=
    if Re.matches list_pattern low then
      match list_bucket u registry target_layers with
      | [] => None
      | bucket => Some (Py.join (LF ++ LF) bucket)
      end
    else None in
  if negb (truthy_opt reply) && Re.matches summarize_pattern low then
    match summary_pieces u registry target_layers with
    | [] => reply
    | pieces => Some (Py.join " " pieces)
    end
  else reply.

(** The deterministic answers of the rule-based branch: the list flow,
    else the summarize flow. *)
Definition rule_branch_answer (u : upstream) (message : string) : option string :=
  let low := Py.lower message in
  let registry := get_layer_registry in
  let targets := _detect_layers registry low in
  if Re.matches list_pattern low then
    match list_bucket u registry targets with
    | [] => None
    | bucket => Some (Py.join (LF ++ LF) bucket)
    end
  else if Re.matches summarize_pattern low then
    match summary_pieces u registry targets with
    | [] => None
    | pieces => Some (Py.join " " pieces)
    end
  else None.

Definition chat_api (u : upstream) (b : backend) (message : string) : chat_result :=
  if negb (Py.nonempty message)
  then {| reply := "Please type a question."; intents := [] |}
  else
    let enriched_message := enrich u message in
    match _azure_openai_chat_with_tools b enriched_message with
    | Some tool_out =>
        let intents :=
          match out_intents tool_out with
          | [] => _classify_intents message
          | its => its
          end in
        let reply := out_reply tool_out in
        let reply :=
          if negb (truthy_opt reply) then
            let second := _azure_openai_reply b enriched_message in
            if truthy_opt second then second else reply
          else reply in
        let reply :=
          if negb (truthy_opt reply) then tool_branch_fallback u message
          else reply in
        {| reply := match reply with
                    | Some r => if Py.nonempty r then r else ""
                    | None => ""
                    end;
           intents := intents |}
    | None =>
        let intents := _classify_intents message in
        let reply := rule_branch_answer u message in
        let reply :=
          if negb (truthy_opt reply) && negb (Nat.eqb (List.length intents) 0) then
            match flat_map phrase_of intents with
            | [] => reply
            | phrases => Some (Py.join " " phrases)
            end
          else reply in
        let azure_reply := _azure_openai_reply b enriched_message in
        let reply :=
          if truthy_opt azure_reply && negb (truthy_opt reply) then azure_reply
          else reply in
        let reply :=
          if negb (truthy_opt reply)
          then "Here to help with dengue hotspots and planning areas."
          else match reply with Some r => r | None => "" end in
        {| reply := reply; intents := intents |}
    end.

(** ** The welcome endpoint *)

Definition welcome_intro : string :=
  "Welcome. Explore the map to see available layers, "
  ++ "and ask the assistant for quick summaries or lists.".

(** The items of the no-model welcome: one per layer whose pattern
    matches its context. *)
Definition welcome_bits (u : upstream) (registry : list (string * layer_meta))
    : list string :=
  flat_map (fun entry =>
    let key := fst entry in
    let meta := snd entry in
    let c := context_builder meta u 30 in
    match Re.search (total_regex meta) c with
    | Some m =>
        let total := match Re.group1 m with Some g => Py.int_of g | None => 0 end in
        let title := title_of key meta in
        [Py.str_of_nat total ++ " " ++ Py.lower title]
    | None => []
    end) registry.

Definition welcome_fallback (u : upstream) (registry : list (string * layer_meta))
    : string :=
  let bits := welcome_bits u registry in
  let intro := welcome_intro in
  match bits with
  | [] => intro
  | _ => intro ++ " For context, currently tracked: " ++ Py.join ", " bits ++ "."
  end.

Definition welcome_prompt (u : upstream) : string :=
  let registry := get_layer_registry in
  let contexts := map (fun entry => context_builder (snd entry) u 60) registry in
  let ctx := Py.join (LF ++ LF) contexts in
  Py.strip
    ("Using the live context below about Singapore dengue clusters and planning areas, write a brief 1-2 sentence welcome. "
     ++ "Summarize the current hotspot situation and invite the user to toggle layers or ask questions."
     ++ LF ++ LF ++ "Context:" ++ LF ++ ctx).

Definition welcome_message (u : upstream) (b : backend) : string :=
  let reply := _azure_openai_reply b (welcome_prompt u) in
  if negb (truthy_opt reply)
  then welcome_fallback u get_layer_registry
  else match reply with Some r => r | None => "" end.

(** ** The data endpoints and the fetch helpers

    [planning_areas] and [_get_planning_features], [dengue_clusters] and
    [_get_dengue_features] run the same loop over what OneMap returns; the
    routes answer with an error where the helpers return the empty list.
    JSON is kept as a tree; of a number only its truth value and its
    rendering are kept, since the program never computes with one.  The
    JSON parser is a parameter of the loops. *)

#[warnings="-register-all"]
Inductive jv :=
| VNull
| VBool (b : bool)
| VNum (truth : bool) (shown : string)
| VStr (s : string)
| VArr (items : list jv)
| VObj (fields : list (string * jv)).

(** [bool(v)] *)
Definition jv_truthy (v : jv) : bool :=
  match v with
  | VNull => false
  | VBool b => b
  | VNum t _ => t
  | VStr s => Py.nonempty s
  | VArr items => negb (Nat.eqb (List.length items) 0)
  | VObj fields => negb (Nat.eqb (List.length fields) 0)
  end.

(** [d.get(k)], [None] when [k] is missing; [k in d]. *)
Fixpoint obj_get (d : list (string * jv)) (k : string) : jv :=
  match d with
  | [] => VNull
  | (k', v) :: d' => if String.eqb k' k then v else obj_get d' k
  end.

Definition obj_has (d : list (string * jv)) (k : string) : bool :=
  existsb (fun kv => String.eqb (fst kv) k) d.

(** [d[k] = v]: the value changes in place; a new key goes last. *)
Fixpoint obj_set (d : list (string * jv)) (k : string) (v : jv) : list (string * jv) :=
  match d with
  | [] => [(k, v)]
  | (k', v') :: d' =>
      if String.eqb k' k then (k', v) :: d' else (k', v') :: obj_set d' k v
  end.

(** What one pass of a loop does with an item. *)
Inductive step (A : Type) :=
| Skip            (* continue *)
| Emit (a : A)    (* features.append(...) *)
| Raise.          (* an exception leaves the loop *)

Arguments Skip {A}.
Arguments Emit {A} a.
Arguments Raise {A}.

(** The features a loop collects; [None] when a pass raises. *)
Fixpoint collect {I A : Type} (pass : I -> step A) (items : list I)
    : option (list A) :=
  match items with
  | [] => Some []
  | item :: rest =>
      match pass item with
      | Raise => None
      | Skip => collect pass rest
      | Emit a =>
          match collect pass rest with
          | Some features => Some (a :: features)
          | None => None
          end
      end
  end.

(** What a request to OneMap gives: a [requests.RequestException], or the
    list under the results key of the JSON body. *)
Inductive fetched (I : Type) :=
| RequestFailed (error : string)
| Results (items : list I).

Arguments RequestFailed {I} error.
Arguments Results {I} items.

(** What a route answers. *)
Inductive response (A : Type) :=
| FeatureCollection (features : list A)   (* 200 *)
| MissingToken                            (* 400 *)
| BadGateway (error : string)             (* 502 *)
| Uncaught.                               (* an exception leaves the view *)

Arguments FeatureCollection {A} features.
Arguments MissingToken {A}.
Arguments BadGateway {A} error.
Arguments Uncaught {A}.

(** [_get_token]: the token, [None] when the variable is unset or empty. *)
Definition _get_token (ONEMAP_TOKEN : option string) : option string :=
  match ONEMAP_TOKEN with
  | Some token => if Py.nonempty token then Some token else None
  | None => None
  end.

Section Fetch.

(** [json.loads] on a string; [None] when it raises. *)
Variable loads : string -> option jv.

(** *** Planning areas *)

Record planning_item := {
  pln_area_n : json;    (* item.get('pln_area_n') *)
  geojson : jv          (* item.get('geojson') *)
}.

Record planning_feature := {
  planning_name : json;
  planning_geometry : jv
}.

Definition planning_pass (item : planning_item) : step planning_feature :=
  let name := pln_area_n item in
  let geojson_str := geojson item in
  if negb (jv_truthy geojson_str) then Skip
  else
    match geojson_str with
    | VStr s =>
        match loads s with
        | Some geom => Emit {| planning_name := name; planning_geometry := geom |}
        | None => Skip
        end
    | _ => Skip   (* json.loads raises TypeError, which the loop absorbs *)
    end.

(** The year sent with the request: none for a falsy year. *)
Definition year_param (year : option string) : option string :=
  match year with
  | Some y => if Py.nonempty y then Some y else None
  | None => None
  end.

Definition planning_areas (ONEMAP_TOKEN : option string)
    (get : option string -> fetched planning_item) (year : option string)
    : response planning_feature :=
  match _get_token ONEMAP_TOKEN with
  | None => MissingToken
  | Some _ =>
      match get (year_param year) with
      | RequestFailed e => BadGateway e
      | Results items =>
          match collect planning_pass items with
          | Some features => FeatureCollection features
          | None => Uncaught
          end
      end
  end.

(** [_get_planning_features]: every failure gives the empty list. *)
Definition get_planning_features (ONEMAP_TOKEN : option string)
    (get : option string -> fetched planning_item) (year : option string)
    : list planning_feature :=
  match _get_token ONEMAP_TOKEN with
  | None => []
  | Some _ =>
      match get (year_param year) with
      | RequestFailed _ => []
      | Results items =>
          match collect planning_pass items with
          | Some features => features
          | None => []
          end
      end
  end.

(** *** Dengue clusters *)

(** [coords[0][0]]; [None] when it raises. *)
Definition first_of_first (coords : list jv) : option jv :=
  match coords with
  | [] => None
  | VArr (x :: _) :: _ => Some x
  | VStr (String c _) :: _ => Some (VStr (String c EmptyString))
  | _ => None
  end.

(** [isinstance(v, (int, float))]: booleans are integers. *)
Definition is_number (v : jv) : bool :=
  match v with
  | VNum _ _ => true
  | VBool _ => true
  | _ => false
  end.

Record dengue_feature := {
  dengue_properties : list (string * jv);
  dengue_geometry : list (string * jv)
}.

Definition dengue_pass (item : list (string * jv)) : step dengue_feature :=
  if obj_has item "GeoJSON" then
    let gj := obj_get item "GeoJSON" in
    let geom := match gj with VObj d => obj_get d "geometry" | _ => VNull end in
    if negb (jv_truthy geom) then Skip
    else
      match geom with
      | VObj g =>
          let coords := obj_get g "coordinates" in
          (* a string is parsed and put back *)
          let parsed :=
            match coords with
            | VStr s =>
                match loads s with
                | Some c => Some (c, obj_set g "coordinates" c)
                | None => None
                end
            | _ => Some (coords, g)
            end in
          match parsed with
          | None => Skip
          | Some (coords, g) =>
              let properties :=
                filter (fun kv => negb (String.eqb (fst kv) "GeoJSON")) item in
              let emit g' :=
                Emit {| dengue_properties := properties; dengue_geometry := g' |} in
              match obj_get g "type", coords with
              | VStr t, VArr (c :: cs) =>
                  if String.eqb t "Polygon" then
                    match first_of_first (c :: cs) with
                    | None => Raise
                    | Some x =>
                        if is_number x
                        then emit (obj_set g "coordinates" (VArr [VArr (c :: cs)]))
                        else emit g
                    end
                  else emit g
              | _, _ => emit g
              end
          end
      | _ => Raise   (* geom.get: the geometry is not an object *)
      end
  else Skip.

Definition dengue_clusters (ONEMAP_TOKEN : option string)
    (get : fetched (list (string * jv))) : response dengue_feature :=
  match _get_token ONEMAP_TOKEN with
  | None => MissingToken
  | Some _ =>
      match get with
      | RequestFailed e => BadGateway e
      | Results items =>
          match collect dengue_pass items with
          | Some features => FeatureCollection features
          | None => Uncaught
          end
      end
  end.

(** [_get_dengue_features]: every failure gives the empty list. *)
Definition get_dengue_features (ONEMAP_TOKEN : option string)
    (get : fetched (list (string * jv))) : list dengue_feature :=
  match _get_token ONEMAP_TOKEN with
  | None => []
  | Some _ =>
      match get with
      | RequestFailed _ => []
      | Results items =>
          match collect dengue_pass items with
          | Some features => features
          | None => []
          end
      end
  end.

End Fetch.

(** ** The health endpoint *)

Record health := {
  is_configured : bool;      (* "configured" *)
  tool_calling_ok : bool;
  tool_detail : string;
  basic_chat_ok : bool;
  basic_detail : string
}.

Definition azure_health (b : backend) : health :=
  if configured b then
    let out := _azure_openai_chat_with_tools b "show dengue layer and hide planning" in
    let tool_ok :=
      match out with
      | Some t =>
          negb (Nat.eqb (List.length (out_intents t)) 0) || truthy_opt (out_reply t)
      | None => false
      end in
    let txt := _azure_openai_reply b "Say in one short sentence" in
    let basic_ok := truthy_opt txt in
    {| is_configured := true;
       tool_calling_ok := tool_ok;
       tool_detail :=
         if tool_ok then "" else "No response or empty output from tool-calling";
       basic_chat_ok := basic_ok;
       basic_detail := if basic_ok then "" else "Empty reply" |}
  else
    {| is_configured := false;
       tool_calling_ok := false;
       tool_detail := "Missing AZURE_OPENAI_* env vars";
       basic_chat_ok := false;
       basic_detail := "Missing AZURE_OPENAI_* env vars" |}.

(** ** The token fetcher ([get_onemap_token.py]): the [.env] file

    The script reads [KEY=VALUE] lines from [.env] into a dictionary, sets
    [ONEMAP_TOKEN] in it and writes the dictionary back. *)

(** A dictionary of strings in insertion order; [d[k] = v]. *)
Fixpoint env_set (d : list (string * string)) (k v : string) : list (string * string) :=
  match d with
  | [] => [(k, v)]
  | (k', v') :: d' =>
      if String.eqb k' k then (k', v) :: d' else (k', v') :: env_set d' k v
  end.


(** [line.split("=", 1)] when ["=" in line]; [None] when there is no
    equals sign. *)
Fixpoint split_eq (line : string) : option (string * string) :=
  match line with
  | EmptyString => None
  | String c r =>
      if Ascii.eqb c "=" then Some (EmptyString, r)
      else
        match split_eq r with
        | Some (k, v) => Some (String c k, v)
        | None => None
        end
  end.

(** The loop over the lines of the file. *)
Fixpoint read_lines (lines : list string) (env_vals : list (string * string))
    : list (string * string) :=
  match lines with
  | [] => env_vals
  | line :: rest =>
      if negb (Py.nonempty (Py.strip line)) || Py.startswith "#" (Py.strip line)
      then read_lines rest env_vals
      else
        match split_eq line with
        | Some (k, v) => read_lines rest (env_set env_vals (Py.strip k) (Py.strip v))
        | None => read_lines rest env_vals
        end
  end.

Definition read_env (text : string) : list (string * string) :=
  read_lines (Py.splitlines text) [].

(** ["\n".join([f"{k}={v}" for k, v in existing.items()]) + "\n"] *)
Definition env_line (kv : string * string) : string := fst kv ++ "=" ++ snd kv.

Definition env_text (existing : list (string * string)) : string :=
  Py.join LF (map env_line existing) ++ LF.


(** * Vocabulary of the statements *)

(** ** Vocabulary: names *)

(** [n in seen] *)
Definition mem (n : string) (seen : list string) : bool :=
  existsb (String.eqb n) seen.

(** [y != x], as a filter that removes the copies of [x]. *)
Definition differs (x y : string) : bool := negb (String.eqb y x).

(** ** Vocabulary: text around a word, runs of a class, lines *)

(** The first, and the last, character is not blank. *)
Definition starts_nonspace (s : string) : bool :=
  match s with
  | String c _ => negb (Py.is_space c)
  | EmptyString => false
  end.

Fixpoint ends_nonspace (s : string) : bool :=
  match s with
  | EmptyString => false
  | String c EmptyString => negb (Py.is_space c)
  | String _ r => ends_nonspace r
  end.

Fixpoint last_char (s : string) : option ascii :=
  match s with
  | EmptyString => None
  | String c EmptyString => Some c
  | String _ r => last_char r
  end.

(** The character before the position reached after reading [pre]. *)
Definition prev_after (prev : option ascii) (pre : string) : option ascii :=
  match last_char pre with
  | Some c => Some c
  | None => prev
  end.

(** A run of characters of a class, and a text that ends such a run. *)
Fixpoint all_in (p : Re.char_class) (s : string) : bool :=
  match s with
  | EmptyString => true
  | String c r => Re.in_class p c && all_in p r
  end.

Definition stops (p : Re.char_class) (s : string) : bool :=
  match s with
  | EmptyString => true
  | String c _ => negb (Re.in_class p c)
  end.

(** No line boundary, and no colon, in a text. *)
Fixpoint no_break (s : string) : bool :=
  match s with
  | EmptyString => true
  | String c r => negb (Py.is_linebreak c) && no_break r
  end.

(** The line boundaries of [str.splitlines] outside ASCII, in UTF-8:
    U+0085 is C2 85, U+2028 is E2 80 A8, U+2029 is E2 80 A9. *)
Definition NEXT_LINE_BYTE : string := String (ascii_of_nat 133) EmptyString.

Definition LINE_SEPARATOR : string :=
  String (ascii_of_nat 226) (String (ascii_of_nat 128)
    (String (ascii_of_nat 168) EmptyString)).

Definition PARAGRAPH_SEPARATOR : string :=
  String (ascii_of_nat 226) (String (ascii_of_nat 128)
    (String (ascii_of_nat 169) EmptyString)).

(** A text that [str.splitlines] keeps on one line: it holds no ASCII line
    boundary and none of U+0085, U+2028 and U+2029.  For U+0085 no byte
    85 (hex) at all is allowed, which is more than needed and holds of a
    text read as Latin-1 too. *)
Definition one_line (s : string) : bool :=
  no_break s
  && negb (Py.contains NEXT_LINE_BYTE s)
  && negb (Py.contains LINE_SEPARATOR s)
  && negb (Py.contains PARAGRAPH_SEPARATOR s).

Fixpoint no_colon (s : string) : bool :=
  match s with
  | EmptyString => true
  | String c r => negb (Ascii.eqb ":" c) && no_colon r
  end.

(** ** Vocabulary: the extractor *)

(** The intents the loop over the registry adds for a text. *)
Definition layer_intents (text : string) : list intent :=
  flat_map (fun entry =>
    if mentions text entry
    then [if any_in hide_words text
          then hide_layer (fst entry) else show_layer (fst entry) None]
    else []) get_layer_registry.

(** The clear vocabulary. *)
Definition clear_words : list string := ["clear"; "reset"; "remove all"].

(** What delimits a word for certain: the end of the text, or an ASCII
    character that is no letter, no digit and no underscore.  Next to a
    character outside ASCII, whether [\b] sees a boundary depends on the
    Unicode class of that character. *)
Definition delimits (c : option ascii) : bool :=
  match c with
  | None => true
  | Some c => (Py.code c <? 128)%nat && negb (Py.is_word c)
  end.

(** [w] stands in [t] as a whole word: the characters next to it, when
    there are any, delimit it. *)
Definition whole_word (w t : string) : Prop :=
  exists pre post,
    t = pre ++ w ++ post /\
    delimits (last_char pre) = true /\
    delimits (Re.next_char post) = true.

(** ** Vocabulary: contexts *)

(** Both builders render [pre: total w tail], a [List (first k):] line and
    the bulleted sample. *)
Definition render (pre w tail : string) (unique : list string) (max_items : Z)
    : string :=
  let sample := Py.slice_to max_items unique in
  (pre ++ ": " ++ Py.str_of_nat (List.length unique) ++ " " ++ w ++ tail) ++ LF
  ++ ("List (first " ++ Py.str_of_nat (List.length sample) ++ "):") ++ LF
  ++ Py.join LF (map bullet sample).

(** The distinct names each registered builder works on. *)
Definition dengue_unique (u : upstream) : list string :=
  dedup (dengue_names (_get_dengue_features u)).

Definition planning_unique (u : upstream) : list string :=
  dedup (planning_names (_get_planning_features u (Some "2019"))).

(** ** Vocabulary: the summarize rule *)

(** The distinct names of a layer, by its key. *)
Definition layer_unique (u : upstream) (key : string) : list string :=
  if String.eqb key "dengue" then dengue_unique u
  else if String.eqb key "planning" then planning_unique u
  else [].

(** The context and the title of a layer, by its key. *)
Definition layer_context (u : upstream) (key : string) (max_items : Z) : string :=
  match registry_get get_layer_registry key with
  | Some meta => context_builder meta u max_items
  | None => ""
  end.

Definition layer_title (key : string) : string :=
  match registry_get get_layer_registry key with
  | Some meta => title_of key meta
  | None => ""
  end.

(** The example names of a sentence: the text of the first five bulleted
    lines of the layer's context of 50 items. *)
Definition layer_examples (u : upstream) (key : string) : list string :=
  firstn 5 (map (Py.drop 2) (bullet_lines (layer_context u key 50))).

(** The sentence of a layer: none when the layer has no name. *)
Definition summary_sentence (u : upstream) (key : string) : list string :=
  let total := List.length (layer_unique u key) in
  if (total =? 0)%nat then []
  else [layer_title key ++ ": " ++ Py.str_of_nat total ++ " items."
        ++ " Examples: " ++ Py.join ", " (layer_examples u key) ++ "."].


(** ** Vocabulary: the welcome message *)

(** The layer's pattern matches its context of 30 items. *)
Definition pattern_matches (u : upstream) (entry : string * layer_meta) : bool :=
  Re.matches (total_regex (snd entry)) (context_builder (snd entry) u 30).

(** The item of a layer: its total and its title in lower case. *)
Definition welcome_item (u : upstream) (entry : string * layer_meta) : string :=
  Py.str_of_nat
    (extract_total (total_regex (snd entry)) (context_builder (snd entry) u 30))
  ++ " " ++ Py.lower (title_of (fst entry) (snd entry)).

(** ** Vocabulary: tool calls *)

(** A [show_layer] or [hide_layer] invocation whose arguments are read as
    an object and whose [layer] is not one of the names. *)
Definition names_unknown_layer (layer_names : list string) (call : fn_call) : bool :=
  (is_name (name call) "show_layer" || is_name (name call) "hide_layer")
  && match args_get (arguments call) "layer" with
     | Some layer =>
         match known_layer layer_names layer with
         | Some _ => false
         | None => true
         end
     | None => false
     end.

(** The response without those invocations. *)
Definition drop_unknown (layer_names : list string) (m : message) : message :=
  {| content := content m;
     tool_calls := filter (fun c => negb (names_unknown_layer layer_names c)) (tool_calls m);
     function_call :=
       match function_call m with
       | Some fn => if names_unknown_layer layer_names fn then None else Some fn
       | None => None
       end |}.

(** The layer of an intent, when it has one, is one of the names. *)
Definition layer_known (layer_names : list string) (it : intent) : Prop :=
  match it with
  | show_layer l _ => In l layer_names
  | hide_layer l => In l layer_names
  | clear_all => True
  end.

(** The arguments decode to a JSON object, or do not decode at all. *)
Definition object_arguments (call : fn_call) : bool :=
  match arguments call with
  | LoadsOther => false
  | _ => true
  end.

(** The free text of a response: its content, stripped, when that is
    not empty. *)
Definition reply_text (m : message) : option string :=
  let c := Py.strip (match content m with Some c => c | None => "" end) in
  if Py.nonempty c then Some c else None.

(** ** Sample worlds *)

(** A feature with one named property. *)
Definition named (key s : string) : feature := {| properties := [(key, JStr s)] |}.

(** Every fetch failed, or no token is set. *)
Definition no_data : upstream :=
  {| _get_dengue_features := [];
     _get_planning_features := fun _ => [] |}.

(** Four dengue entries with three distinct names, three planning areas. *)
Definition some_data : upstream :=
  {| _get_dengue_features :=
       [named "DESCRIPTION" "A"; named "NAME" "B";
        named "Description" "A"; named "Name" "C"];
     _get_planning_features := fun _ =>
       [named "name" "Bedok"; named "name" "Tampines"; named "name" "Woodlands"] |}.

(** 120 dengue entries with 100 distinct names. *)
Definition many_clusters : upstream :=
  {| _get_dengue_features :=
       map (fun i => named "DESCRIPTION" ("Cluster " ++ Py.str_of_nat (i mod 100)))
           (seq 0 120);
     _get_planning_features := fun _ => [] |}.

(** One dengue entry whose name runs over two lines. *)
Definition two_line_name : upstream :=
  {| _get_dengue_features := [named "DESCRIPTION" ("Blk 1" ++ LF ++ "- Blk 2")];
     _get_planning_features := fun _ => [] |}.

(** Planning areas only. *)
Definition planning_only : upstream :=
  {| _get_dengue_features := [];
     _get_planning_features := fun _ => [named "name" "Bedok"] |}.

(** No model backend. *)
Definition unconfigured : backend :=
  {| configured := false;
     post_with_tools := fun _ => CallFailed;
     post_plain := fun _ => None |}.

(** A model that answers with one tool call and no text, and whose plain
    completion fails. *)
Definition tool_call_only : backend :=
  {| configured := true;
     post_with_tools := fun _ =>
       FirstChoice
         {| content := None;
            tool_calls :=
              [{| name := Some "show_layer";
                  arguments := LoadsObject [("layer", JStr "dengue")] |}];
            function_call := None |};
     post_plain := fun _ => None |}.

(** A model that names a layer outside the registry among valid calls. *)
Definition names_mars : backend :=
  {| configured := true;
     post_with_tools := fun _ =>
       FirstChoice
         {| content := Some " Here you go. ";
            tool_calls :=
              [{| name := Some "show_layer";
                  arguments := LoadsObject [("layer", JStr "mars")] |};
               {| name := Some "hide_layer";
                  arguments := LoadsObject [("layer", JStr "planning")] |};
               {| name := Some "show_layer";
                  arguments := LoadsObject [("layer", JStr "dengue"); ("fit", JBool true)] |}];
            function_call := None |};
     post_plain := fun _ => None |}.

(** ** Vocabulary: fetched data *)

(** The geometry of a planning item: its [geojson] text, parsed; none when
    the field is missing, empty, not a string or not JSON. *)
Definition parsed_geometry (loads : string -> option jv) (item : planning_item)
    : option jv :=
  match geojson item with
  | VStr s => if Py.nonempty s then loads s else None
  | _ => None
  end.

(** A JSON value as the context builders read it; [repr] renders arrays
    and objects. *)
Definition as_json (repr : jv -> string) (v : jv) : json :=
  match v with
  | VNull => JNull
  | VBool b => JBool b
  | VNum t s => JOther t s
  | VStr s => JStr s
  | VArr _ => JOther (jv_truthy v) (repr v)
  | VObj _ => JOther (jv_truthy v) (repr v)
  end.

Definition planning_as_feature (f : planning_feature) : feature :=
  {| properties := [("name", planning_name f)] |}.

Definition dengue_as_feature (repr : jv -> string) (f : dengue_feature) : feature :=
  {| properties := map (fun kv => (fst kv, as_json repr (snd kv))) (dengue_properties f) |}.

(** The upstream data of a request, from what OneMap returns. *)
Definition live_upstream (loads : string -> option jv) (repr : jv -> string)
    (ONEMAP_TOKEN : option string)
    (get_planning : option string -> fetched planning_item)
    (get_dengue : fetched (list (string * jv))) : upstream :=
  {| _get_dengue_features :=
       map (dengue_as_feature repr) (get_dengue_features loads ONEMAP_TOKEN get_dengue);
     _get_planning_features := fun year =>
       map planning_as_feature
           (get_planning_features loads ONEMAP_TOKEN get_planning year) |}.

(** The context of a layer with no name. *)
Definition no_dengue_context : string :=
  "Latest dengue clusters: 0 unique clusters." ++ LF ++ "List (first 0):" ++ LF.

Definition no_planning_context : string :=
  "Planning areas (year=2019): 0 total." ++ LF ++ "List (first 0):" ++ LF.

(** The names of the planning items that have a geometry. *)
Definition planning_item_names (loads : string -> option jv)
    (items : list planning_item) : list string :=
  flat_map (fun item =>
    match parsed_geometry loads item with
    | Some _ => if truthy (pln_area_n item) then [py_str (pln_area_n item)] else []
    | None => []
    end) items.

(** A parser that knows one text. *)
Definition loads_ring (s : string) : option jv :=
  if String.eqb s "[[103.8, 1.3], [103.9, 1.3], [103.9, 1.4], [103.8, 1.3]]"
  then Some (VArr [VArr [VNum true "103.8"; VNum true "1.3"];
                   VArr [VNum true "103.9"; VNum true "1.3"];
                   VArr [VNum true "103.9"; VNum true "1.4"];
                   VArr [VNum true "103.8"; VNum true "1.3"]])
  else if String.eqb s "{}" then Some (VObj [])
  else None.

Definition no_repr (v : jv) : string := "".

(** The geometry a pass of the dengue loop reads in an item. *)
Definition geometry_of (item : list (string * jv)) : jv :=
  match obj_get item "GeoJSON" with
  | VObj d => obj_get d "geometry"
  | _ => VNull
  end.

Definition is_text (v : jv) : bool :=
  match v with
  | VStr _ => true
  | _ => false
  end.

(** A feature put back in the shape of an item. *)
Definition as_item (f : dengue_feature) : list (string * jv) :=
  ("GeoJSON", VObj [("geometry", VObj (dengue_geometry f))]) :: dengue_properties f.

(** The last stage of a pass, on a geometry whose coordinates are read. *)
Definition polygon_rule (g : list (string * jv)) : option (list (string * jv)) :=
  match obj_get g "type", obj_get g "coordinates" with
  | VStr t, VArr (c :: cs) =>
      if String.eqb t "Polygon" then
        match first_of_first (c :: cs) with
        | None => None
        | Some x =>
            if is_number x
            then Some (obj_set g "coordinates" (VArr [VArr (c :: cs)]))
            else Some g
        end
      else Some g
  | _, _ => Some g
  end.

(** ** Vocabulary: the [.env] file *)

Definition keys (d : list (string * string)) : list string := map fst d.

(** [s.strip() == s] *)
Definition trimmed (s : string) : bool := String.eqb (Py.strip s) s.

Fixpoint no_equals (s : string) : bool :=
  match s with
  | EmptyString => true
  | String c r => negb (Ascii.eqb c "=") && no_equals r
  end.

(** A key and a value that a line [key=value] gives back when it is read:
    no blank at either end and no line boundary; a key moreover has no
    equals sign and does not start a comment. *)
Definition clean_value (v : string) : bool := trimmed v && no_break v.

Definition clean_key (k : string) : bool :=
  trimmed k && no_break k && no_equals k && negb (Py.startswith "#" k).

Definition clean_entry (kv : string * string) : bool :=
  clean_key (fst kv) && clean_value (snd kv).


(** ** Vocabulary: replies, tool calls and sample inputs *)

(** The block of the list flow for one key. *)
Definition list_block (u : upstream) (key : string) : list string :=
  match registry_get get_layer_registry key with
  | None => []
  | Some meta =>
      let lines := bullet_lines (context_builder meta u 300) in
      match lines with
      | [] => []
      | _ => [title_of key meta ++ ":" ++ LF ++ Py.join LF (firstn 100 lines)]
      end
  end.

(** The section of a layer in a list reply: its title and its first
    hundred distinct names, bulleted; none when the layer has no name. *)
Definition list_section (u : upstream) (key : string) : list string :=
  match layer_unique u key with
  | [] => []
  | _ =>
      [layer_title key ++ ":" ++ LF
       ++ Py.join LF (map bullet (firstn 100 (layer_unique u key)))]
  end.

Definition list_reply (u : upstream) (msg : string) : option string :=
  match flat_map (list_section u)
          (_detect_layers get_layer_registry (Py.lower msg)) with
  | [] => None
  | sections => Some (Py.join (LF ++ LF) sections)
  end.

(** The last reply of the rule-based branch. *)
Definition static_reply : string :=
  "Here to help with dengue hotspots and planning areas.".

(** A [show_layer] or [hide_layer] invocation whose arguments decode to
    JSON that is not an object. *)
Definition raises (call : fn_call) : bool :=
  (is_name (name call) "show_layer" || is_name (name call) "hide_layer")
  && match arguments call with
     | LoadsOther => true
     | _ => false
     end.

(** A response with text, a valid call, and a call whose arguments are a
    JSON list; and a model that gives it. *)
Definition list_arguments_message : message :=
  {| content := Some "Here is the planning layer.";
     tool_calls :=
       [{| name := Some "show_layer";
           arguments := LoadsObject [("layer", JStr "planning")] |};
        {| name := Some "hide_layer"; arguments := LoadsOther |}];
     function_call := None |}.

Definition list_arguments : backend :=
  {| configured := true;
     post_with_tools := fun _ => FirstChoice list_arguments_message;
     post_plain := fun _ => None |}.

(** A response whose tool call gives an intent and whose [function_call]
    could not be read. *)
Definition legacy_unread_message : message :=
  {| content := None;
     tool_calls := [{| name := Some "clear_all"; arguments := LoadsOther |}];
     function_call := Some {| name := Some "show_layer"; arguments := LoadsOther |} |}.

(** A backend that is configured and always fails. *)
Definition always_failing : backend :=
  {| configured := true;
     post_with_tools := fun _ => CallFailed;
     post_plain := fun _ => None |}.

(** A model that answers with text only. *)
Definition text_only : backend :=
  {| configured := true;
     post_with_tools := fun _ =>
       FirstChoice
         {| content := Some "  There are 3 clusters.  ";
            tool_calls := [];
            function_call := None |};
     post_plain := fun _ => None |}.

(** Three planning items: one with a geometry, one whose [geojson] is not
    JSON, one without the field. *)
Definition three_areas : list planning_item :=
  [{| pln_area_n := JStr "BEDOK"; geojson := VStr "{}" |};
   {| pln_area_n := JStr "TAMPINES"; geojson := VStr "not json" |};
   {| pln_area_n := JStr "WOODLANDS"; geojson := VNull |}].

(** A named cluster with a triangle, and an item whose polygon has an
    empty ring. *)
Definition good_cluster : list (string * jv) :=
  [("DESCRIPTION", VStr "Bedok North Ave 1");
   ("GeoJSON",
    VObj [("geometry",
           VObj [("type", VStr "Polygon");
                 ("coordinates",
                  VStr "[[103.8, 1.3], [103.9, 1.3], [103.9, 1.4], [103.8, 1.3]]")])])].

Definition empty_ring : list (string * jv) :=
  [("DESCRIPTION", VStr "Tampines St 11");
   ("GeoJSON",
    VObj [("geometry",
           VObj [("type", VStr "Polygon"); ("coordinates", VArr [VArr []])])])].

Definition not_geojson (kv : string * jv) : bool :=
  negb (String.eqb (fst kv) "GeoJSON").

(** * Properties *)

(** ** Strings *)

Section StringFacts.

Lemma app_nil_r (s : string) : s ++ "" = s.
Proof. induction s as [|c s IH]; simpl; [reflexivity | now rewrite IH]. Qed.

Lemma app_assoc (a b c : string) : (a ++ b) ++ c = a ++ (b ++ c).
Proof. induction a as [|x a IH]; simpl; [reflexivity | now rewrite IH]. Qed.

Lemma length_app (a b : string) :
  String.length (a ++ b) = String.length a + String.length b.
Proof. induction a as [|x a IH]; simpl; [reflexivity | now rewrite IH]. Qed.

Lemma app_eq_nil (a b : string) : a ++ b = "" -> a = "" /\ b = "".
Proof. destruct a; simpl; [tauto | discriminate]. Qed.

Lemma lower_app (a b : string) : Py.lower (a ++ b) = Py.lower a ++ Py.lower b.
Proof. induction a as [|x a IH]; simpl; [reflexivity | now rewrite IH]. Qed.

Lemma startswith_app (p t : string) : Py.startswith p (p ++ t) = true.
Proof.
  induction p as [|c p IH]; simpl; [reflexivity|].
  now rewrite Ascii.eqb_refl, IH.
Qed.

Lemma startswith_inv (p t : string) :
  Py.startswith p t = true -> exists post, t = p ++ post.
Proof.
  revert t; induction p as [|c p IH]; intros t H.
  - now exists t.
  - destruct t as [|d t]; simpl in H; [discriminate|].
    apply andb_true_iff in H as [Hc Hp].
    apply Ascii.eqb_eq in Hc; subst d.
    destruct (IH _ Hp) as [post ->]. now exists post.
Qed.

(** [p in t] holds exactly when [t] splits around a copy of [p]. *)
Lemma contains_here (p t : string) :
  Py.startswith p t = true -> Py.contains p t = true.
Proof. intro H. destruct t; simpl; now rewrite H. Qed.

Lemma contains_intro (p pre post : string) :
  Py.contains p (pre ++ p ++ post) = true.
Proof.
  induction pre as [|c pre IH].
  - cbn [append]. apply contains_here, startswith_app.
  - simpl. rewrite IH. apply orb_true_r.
Qed.

Lemma contains_inv (p t : string) :
  Py.contains p t = true -> exists pre post, t = pre ++ p ++ post.
Proof.
  induction t as [|c t IH]; simpl; intro H.
  - rewrite orb_false_r in H.
    destruct (startswith_inv _ _ H) as [post E]. now exists "", post.
  - apply orb_true_iff in H as [H|H].
    + destruct (startswith_inv _ _ H) as [post E]. now exists "", post.
    + destruct (IH H) as (pre & post & ->). now exists (String c pre), post.
Qed.

End StringFacts.

(** ** De-duplication *)

Section Dedup.

Lemma mem_In (n : string) (seen : list string) : mem n seen = true <-> In n seen.
Proof.
  unfold mem. rewrite existsb_exists. split.
  - intros (x & Hx & E). apply String.eqb_eq in E. now subst.
  - intro H. exists n. split; [assumption | apply String.eqb_refl].
Qed.

(** The accumulator only grows at its end. *)
Lemma dedup_loop_acc (names seen unique : list string) :
  dedup_loop names seen unique = (unique ++ dedup_loop names seen [])%list.
Proof.
  revert seen unique.
  induction names as [|n names IH]; intros seen unique; simpl.
  - now rewrite List.app_nil_r.
  - destruct (existsb (String.eqb n) seen).
    + apply IH.
    + rewrite (IH (n :: seen) (unique ++ [n])%list), (IH (n :: seen) [n]).
      now rewrite <- List.app_assoc.
Qed.

(** Only membership in [seen] matters. *)
Lemma dedup_loop_seen_ext (names s1 s2 unique : list string) :
  (forall y, mem y s1 = mem y s2) ->
  dedup_loop names s1 unique = dedup_loop names s2 unique.
Proof.
  revert s1 s2 unique.
  induction names as [|n names IH]; intros s1 s2 unique E; simpl; [reflexivity|].
  fold (mem n s1) (mem n s2). rewrite (E n).
  destruct (mem n s2); [now apply IH|].
  apply IH. intro y. unfold mem in *. simpl. now rewrite (E y).
Qed.

(** Nothing already seen is produced. *)
Lemma dedup_loop_fresh (names seen : list string) (y : string) :
  In y (dedup_loop names seen []) -> mem y seen = false.
Proof.
  revert seen.
  induction names as [|n names IH]; intros seen H; simpl in H; [contradiction|].
  fold (mem n seen) in H.
  destruct (mem n seen) eqn:E; [now apply IH|].
  rewrite dedup_loop_acc in H. simpl in H. destruct H as [<-|H]; [assumption|].
  apply IH in H. unfold mem in *. simpl in H.
  now apply orb_false_iff in H as [_ H].
Qed.

(** Seeing [x] beforehand removes [x] from the result and nothing else. *)
Lemma dedup_loop_seen_cons (names seen : list string) (x : string) :
  dedup_loop names (x :: seen) [] = filter (differs x) (dedup_loop names seen []).
Proof.
  revert seen.
  induction names as [|n names IH]; intro seen; [reflexivity|].
  cbn [dedup_loop existsb app].
  fold (mem n seen).
  destruct (String.eqb n x) eqn:Enx; cbn [orb].
  - apply String.eqb_eq in Enx; subst n.
    destruct (mem x seen) eqn:Es; [apply IH|].
    rewrite (dedup_loop_acc names (x :: seen) [x]). cbn [app filter].
    unfold differs at 1. rewrite String.eqb_refl. cbn [negb].
    rewrite <- IH.
    apply dedup_loop_seen_ext. intro y. unfold mem. cbn [existsb].
    now destruct (String.eqb y x).
  - destruct (mem n seen) eqn:Es; [apply IH|].
    rewrite (dedup_loop_acc names (n :: x :: seen) [n]).
    rewrite (dedup_loop_acc names (n :: seen) [n]). cbn [app filter].
    unfold differs at 1. rewrite Enx. cbn [negb]. f_equal.
    rewrite <- IH.
    apply dedup_loop_seen_ext. intro y. unfold mem. cbn [existsb].
    destruct (String.eqb y n), (String.eqb y x); reflexivity.
Qed.

(** The first name is kept in front; its later copies are the ones that
    go. *)
Lemma dedup_cons (n : string) (names : list string) :
  dedup (n :: names) = n :: filter (differs n) (dedup names).
Proof.
  unfold dedup. cbn [dedup_loop existsb app].
  rewrite dedup_loop_acc. cbn [app]. f_equal. apply dedup_loop_seen_cons.
Qed.

Lemma differs_true (x y : string) : differs x y = true <-> y <> x.
Proof.
  unfold differs. rewrite negb_true_iff. apply String.eqb_neq.
Qed.

Lemma dedup_In (names : list string) (x : string) :
  In x (dedup names) <-> In x names.
Proof.
  induction names as [|n names IH]; [reflexivity|].
  rewrite dedup_cons. cbn [In]. rewrite filter_In, differs_true, IH.
  destruct (String.eqb_spec n x) as [->|Hne]; [tauto|].
  split; [tauto|]. intros [?|?]; [tauto|]. right. split; [assumption|congruence].
Qed.

Lemma dedup_NoDup (names : list string) : NoDup (dedup names).
Proof.
  induction names as [|n names IH]; [constructor|].
  rewrite dedup_cons. constructor.
  - rewrite filter_In, differs_true. tauto.
  - now apply NoDup_filter.
Qed.

End Dedup.

(** C8.  De-duplication by exact string equality keeps first-seen order:
    the first name of the input is the first of the result and only its
    later copies are removed from the rest, so the result has no repeated
    name and exactly the names of the input; the names [A, B, A, C] give
    [A, B, C]. *)
Theorem C8_dedup_first_seen_order :
  dedup [] = [] /\
  (forall n names, dedup (n :: names) = n :: filter (differs n) (dedup names)) /\
  (forall names, NoDup (dedup names)) /\
  (forall names x, In x (dedup names) <-> In x names) /\
  (forall A B C : string, A <> B -> A <> C -> B <> C ->
     dedup [A; B; A; C] = [A; B; C]).
Proof.
  split; [reflexivity|].
  split; [exact dedup_cons|].
  split; [exact dedup_NoDup|].
  split; [exact dedup_In|].
  intros A B C HAB HAC HBC.
  unfold dedup. simpl.
  rewrite String.eqb_refl.
  apply String.eqb_neq in HAB, HAC, HBC.
  rewrite (String.eqb_sym B A), HAB. simpl.
  rewrite (String.eqb_sym C B), (String.eqb_sym C A), HBC, HAC. reflexivity.
Qed.

Lemma C8_dedup_witness :
  dedup ["Bedok"; "Tampines"; "Bedok"; "Woodlands"] = ["Bedok"; "Tampines"; "Woodlands"].
Proof.
  apply (proj2 (proj2 (proj2 (proj2 C8_dedup_first_seen_order))));
    intro H; discriminate H.
Defined.

(** ** Stripping keeps what lies between two non-blank characters *)

Section Strip.

Lemma starts_nonspace_app (x y : string) :
  starts_nonspace x = true -> starts_nonspace (x ++ y) = true.
Proof. destruct x; simpl; [discriminate | trivial]. Qed.

Lemma ends_nonspace_app (x y : string) :
  ends_nonspace y = true -> ends_nonspace (x ++ y) = true.
Proof.
  intro H. induction x as [|c x IH]; [assumption|].
  cbn [append ends_nonspace]. destruct (x ++ y) eqn:E; [|assumption].
  apply app_eq_nil in E as [_ ->]. discriminate H.
Qed.

Lemma last_char_app (x y : string) :
  y <> "" -> last_char (x ++ y) = last_char y.
Proof.
  intro H. induction x as [|c x IH]; [reflexivity|].
  cbn [append last_char]. destruct (x ++ y) eqn:E; [|assumption].
  apply app_eq_nil in E as [_ ->]. contradiction.
Qed.

Lemma lstrip_app (pre x : string) :
  starts_nonspace x = true ->
  exists sp pre', pre = sp ++ pre' /\ Py.lstrip (pre ++ x) = pre' ++ x.
Proof.
  intro Hx. induction pre as [|c pre IH].
  - exists "", "". split; [reflexivity|].
    destruct x as [|d x]; [discriminate|]. simpl in *.
    apply negb_true_iff in Hx. now rewrite Hx.
  - cbn [append Py.lstrip]. destruct (Py.is_space c) eqn:Ec.
    + destruct IH as (sp & pre' & -> & E).
      exists (String c sp), pre'. split; [reflexivity | exact E].
    + exists "", (String c pre). split; reflexivity.
Qed.

Lemma rstrip_app (x post : string) :
  ends_nonspace x = true -> Py.rstrip (x ++ post) = x ++ Py.rstrip post.
Proof.
  induction x as [|c x IH]; intro Hx; [discriminate|].
  destruct x as [|d x].
  - cbn [ends_nonspace] in Hx. apply negb_true_iff in Hx.
    cbn [append Py.rstrip]. rewrite Hx. now destruct (Py.rstrip post).
  - specialize (IH Hx). cbn [append] in IH |- *.
    cbn [Py.rstrip]. cbn [Py.rstrip] in IH. rewrite IH. reflexivity.
Qed.

(** Stripping a text around [x] only shortens what is before and after. *)
Lemma strip_around (pre x post : string) :
  starts_nonspace x = true -> ends_nonspace x = true ->
  exists sp pre', pre = sp ++ pre' /\
    Py.strip (pre ++ x ++ post) = pre' ++ x ++ Py.rstrip post.
Proof.
  intros Hs He.
  destruct (lstrip_app pre (x ++ post) (starts_nonspace_app _ _ Hs))
    as (sp & pre' & Hpre & E).
  exists sp, pre'. split; [assumption|].
  unfold Py.strip. rewrite E, <- app_assoc.
  rewrite rstrip_app by now apply ends_nonspace_app.
  apply app_assoc.
Qed.

Lemma lstrip_suffix (t : string) : exists a, t = a ++ Py.lstrip t.
Proof.
  induction t as [|c t [a IH]]; [now exists ""|].
  cbn [Py.lstrip]. destruct (Py.is_space c).
  - exists (String c a). cbn [append]. now rewrite <- IH.
  - now exists "".
Qed.

Lemma rstrip_prefix (t : string) : exists b, t = Py.rstrip t ++ b.
Proof.
  induction t as [|c t [b IH]]; [now exists ""|].
  cbn [Py.rstrip]. destruct (Py.rstrip t) eqn:E.
  - destruct (Py.is_space c).
    + now exists (String c t).
    + exists b. cbn [append] in *. now rewrite <- IH.
  - exists b. cbn [append] in *. now rewrite <- IH.
Qed.

Lemma strip_inside (t : string) : exists a b, t = a ++ Py.strip t ++ b.
Proof.
  destruct (lstrip_suffix t) as [a Ha].
  destruct (rstrip_prefix (Py.lstrip t)) as [b Hb].
  exists a, b. unfold Py.strip. now rewrite <- Hb.
Qed.

Lemma rstrip_next (post : string) :
  Py.rstrip post = "" \/ Re.next_char (Py.rstrip post) = Re.next_char post.
Proof.
  destruct post as [|c post]; [now left|].
  cbn [Py.rstrip]. destruct (Py.rstrip post), (Py.is_space c); auto.
Qed.

(** A word with no blank at either end survives [strip]. *)
Lemma contains_strip (p t : string) :
  starts_nonspace p = true -> ends_nonspace p = true ->
  Py.contains p t = true -> Py.contains p (Py.strip t) = true.
Proof.
  intros Hs He H.
  destruct (contains_inv _ _ H) as (pre & post & ->).
  destruct (strip_around pre p post Hs He) as (sp & pre' & _ & ->).
  apply contains_intro.
Qed.

(** [strip] adds nothing. *)
Lemma contains_unstrip (p t : string) :
  Py.contains p (Py.strip t) = true -> Py.contains p t = true.
Proof.
  intro H.
  destruct (contains_inv _ _ H) as (pre & post & E).
  destruct (strip_inside t) as (a & b & Ht).
  rewrite Ht, E.
  replace (a ++ (pre ++ p ++ post) ++ b) with ((a ++ pre) ++ p ++ (post ++ b))
    by (now rewrite !app_assoc).
  apply contains_intro.
Qed.

End Strip.

(** ** The rule-based extractor *)

Section Classify.

Lemma classify_unfold (message : string) :
  let text := Py.strip (Py.lower message) in
  _classify_intents message =
  ((if Re.matches clear_pattern text then [clear_all] else [])
   ++ layer_intents text)%list.
Proof. reflexivity. Qed.

Lemma any_in_true (words : list string) (text w : string) :
  In w words -> Py.contains w text = true -> any_in words text = true.
Proof.
  intros Hin Hc. unfold any_in. apply existsb_exists. now exists w.
Qed.

Lemma any_in_false (words : list string) (text : string) :
  (forall w, In w words -> Py.contains w text = false) ->
  any_in words text = false.
Proof.
  intro H. unfold any_in.
  destruct (existsb _ words) eqn:E; [|reflexivity].
  apply existsb_exists in E as (w & Hin & Hc). now rewrite (H w Hin) in Hc.
Qed.

Lemma layer_intent_In (text : string) (entry : string * layer_meta) :
  In entry get_layer_registry -> mentions text entry = true ->
  In (if any_in hide_words text
      then hide_layer (fst entry) else show_layer (fst entry) None)
     (layer_intents text).
Proof.
  intros Hin Hm. unfold layer_intents. apply in_flat_map.
  exists entry. split; [assumption|]. rewrite Hm. now left.
Qed.

(** Every key and synonym of the registry begins and ends with a
    non-blank character. *)
Lemma registry_words_edges (key : string) (meta : layer_meta) (s : string) :
  In (key, meta) get_layer_registry -> In s (key :: synonyms meta) ->
  starts_nonspace s = true /\ ends_nonspace s = true.
Proof.
  intros Hin Hs. simpl in Hin.
  destruct Hin as [E|[E|[]]]; inversion E; subst; clear E; simpl in Hs;
    repeat (destruct Hs as [<-|Hs]; [split; reflexivity|]); contradiction.
Qed.

Lemma mentions_stripped (low : string) (key : string) (meta : layer_meta) (s : string) :
  In (key, meta) get_layer_registry -> In s (key :: synonyms meta) ->
  Py.contains s low = true ->
  mentions (Py.strip low) (key, meta) = true.
Proof.
  intros Hin Hs Hc.
  destruct (registry_words_edges _ _ _ Hin Hs) as [H1 H2].
  unfold mentions. cbn [fst snd].
  apply any_in_true with (w := s); [assumption|].
  now apply contains_strip.
Qed.

Lemma layer_intents_polarity (text : string) (it : intent) :
  In it (layer_intents text) ->
  if any_in hide_words text
  then exists k, it = hide_layer k
  else exists k, it = show_layer k None.
Proof.
  unfold layer_intents. intro H.
  apply in_flat_map in H as (entry & _ & H).
  destruct (mentions text entry); [|contradiction].
  destruct H as [<-|[]].
  destruct (any_in hide_words text); now exists (fst entry).
Qed.

End Classify.

(** C6.  A message whose lower-cased text contains a layer's key or one
    of its synonyms, and none of the hide words, gets a [show_layer]
    intent for that layer. *)
Theorem C6_default_show (message key s : string) (meta : layer_meta) :
  In (key, meta) get_layer_registry ->
  In s (key :: synonyms meta) ->
  Py.contains s (Py.lower message) = true ->
  (forall w, In w hide_words -> Py.contains w (Py.lower message) = false) ->
  In (show_layer key None) (_classify_intents message).
Proof.
  intros Hin Hs Hc Hhide.
  rewrite classify_unfold. cbv zeta. apply in_or_app. right.
  assert (Hh : any_in hide_words (Py.strip (Py.lower message)) = false).
  { apply any_in_false. intros w Hw.
    destruct (Py.contains w (Py.strip (Py.lower message))) eqn:E; [|reflexivity].
    apply contains_unstrip in E. now rewrite (Hhide w Hw) in E. }
  pose proof (layer_intent_In _ (key, meta) Hin
                (mentions_stripped _ _ _ _ Hin Hs Hc)) as H.
  now rewrite Hh in H.
Qed.

Lemma C6_default_show_witness :
  In (show_layer "dengue" None) (_classify_intents "  Where are the Clusters? ").
Proof.
  apply (C6_default_show "  Where are the Clusters? " "dengue" "cluster"
           {| title := "Dengue Hotspots";
              synonyms := ["dengue"; "hotspot"; "cluster"; "clusters"];
              context_builder := fun u max_items => _build_dengue_context u max_items;
              total_regex := total_pattern "unique" |}).
  - simpl. left. reflexivity.
  - simpl. right. right. right. left. reflexivity.
  - vm_compute. reflexivity.
  - intros w Hw. simpl in Hw.
    repeat (destruct Hw as [<-|Hw]; [vm_compute; reflexivity|]). contradiction.
Defined.

(** C10.  The layer intents of one call share one polarity, decided once
    from the whole text: every intent of the result is [clear_all] or, when
    the text holds a hide word, a [hide_layer], else a [show_layer].  So
    the result never holds a [show_layer] for one layer and a [hide_layer]
    for another; "hide planning and show dengue" hides both layers. *)
Theorem C10_single_polarity :
  (forall message it,
     In it (_classify_intents message) ->
     it = clear_all \/
     if any_in hide_words (Py.strip (Py.lower message))
     then exists k, it = hide_layer k
     else exists k, it = show_layer k None)
  /\
  (forall message l1 fit l2,
     ~ (In (show_layer l1 fit) (_classify_intents message) /\
        In (hide_layer l2) (_classify_intents message)))
  /\
  _classify_intents "hide planning and show dengue"
  = [hide_layer "dengue"; hide_layer "planning"].
Proof.
  assert (H : forall message it,
     In it (_classify_intents message) ->
     it = clear_all \/
     if any_in hide_words (Py.strip (Py.lower message))
     then exists k, it = hide_layer k
     else exists k, it = show_layer k None).
  { intros message it Hin.
    rewrite classify_unfold in Hin. cbv zeta in Hin.
    apply in_app_or in Hin as [Hin|Hin].
    - left. destruct (Re.matches clear_pattern _); simpl in Hin;
        [destruct Hin as [E|[]]; now symmetry | contradiction].
    - right. now apply layer_intents_polarity. }
  split; [exact H|]. split; [|vm_compute; reflexivity].
  intros message l1 fit l2 [Hshow Hhide].
  apply H in Hshow, Hhide.
  destruct Hshow as [E|Hshow]; [discriminate E|].
  destruct Hhide as [E|Hhide]; [discriminate E|].
  destruct (any_in hide_words _).
  - destruct Hshow as [k E]. discriminate E.
  - destruct Hhide as [k E]. discriminate E.
Qed.

(** ** Searching *)

Section Search.

Lemma prev_after_cons (prev : option ascii) (c : ascii) (pre : string) :
  prev_after prev (String c pre) = prev_after (Some c) pre.
Proof.
  unfold prev_after. cbn [last_char].
  destruct pre as [|d pre]; [reflexivity|]. 
  destruct (last_char (String d pre)) eqn:E; [reflexivity|].
  exfalso. clear -E. revert d E.
  induction pre as [|e pre IH]; intros d E; [discriminate|].
  cbn [last_char] in E. now apply (IH e).
Qed.

(** A match at the end of [pre] makes the search over [pre ++ s] succeed
    (there or earlier). *)
Lemma search_from_app (r : Re.regex) (pre s : string) (prev : option ascii) :
  Re.match_at r (prev_after prev pre) s <> None ->
  Re.search_from r prev (pre ++ s) <> None.
Proof.
  revert prev. induction pre as [|c pre IH]; intros prev H.
  - cbn [append]. unfold prev_after in H. cbn [last_char] in H.
    destruct s; cbn [Re.search_from]; destruct (Re.match_at r prev _);
      congruence.
  - cbn [append Re.search_from].
    destruct (Re.match_at r prev (String c (pre ++ s))); [discriminate|].
    apply IH. now rewrite <- (prev_after_cons prev).
Qed.

(** Where the first character cannot start the pattern, the search moves
    on. *)
Lemma search_from_skip (r : Re.regex) (pre s : string) (prev : option ascii) :
  (forall p c t, In c (list_ascii_of_string pre) -> Re.match_at r p (String c t) = None) ->
  Re.search_from r prev (pre ++ s) = Re.search_from r (prev_after prev pre) s.
Proof.
  revert prev. induction pre as [|c pre IH]; intros prev H.
  - reflexivity.
  - cbn [append Re.search_from].
    rewrite (H prev c (pre ++ s)) by (now left).
    rewrite prev_after_cons. apply IH.
    intros p d t Hd. apply H. now right.
Qed.

(** A literal matches itself and hands over to the rest of the pattern. *)
Lemma lit_app {A : Type} (l s : string) (prev : option ascii) (g : option string)
    (k : @Re.cont A) :
  Re.lit l prev (l ++ s) g k = k (prev_after prev l) s g.
Proof.
  revert prev. induction l as [|c l IH]; intro prev; [reflexivity|].
  cbn [append Re.lit]. rewrite Ascii.eqb_refl, IH.
  now rewrite prev_after_cons.
Qed.

(** A greedy repetition takes the whole run when the rest of the pattern
    accepts what follows it. *)
Lemma star_run {A : Type} (p : Re.char_class) (ds s : string)
    (prev : option ascii) (g : option string) (k : @Re.cont A) (x : A) :
  all_in p ds = true -> stops p s = true ->
  k (prev_after prev ds) s g = Some x ->
  Re.star p prev (ds ++ s) g k = Some x.
Proof.
  revert prev. induction ds as [|c ds IH]; intros prev Hall Hstop Hk.
  - cbn [append]. unfold prev_after in Hk. cbn [last_char] in Hk.
    destruct s as [|d s]; cbn [Re.star]; [assumption|].
    cbn [stops] in Hstop. apply negb_true_iff in Hstop. now rewrite Hstop.
  - cbn [all_in] in Hall. apply andb_true_iff in Hall as [Hc Hall].
    cbn [append Re.star]. rewrite Hc.
    assert (E : Re.star p (Some c) (ds ++ s) g k = Some x).
    { apply IH; try assumption. now rewrite <- (prev_after_cons prev). }
    now rewrite E.
Qed.

End Search.

(** ** The clear vocabulary *)

Section ClearWords.

Lemma clear_match_at (w post : string) (prev : option ascii) :
  In w clear_words ->
  Re.is_word_opt prev = false ->
  Re.is_word_opt (Re.next_char post) = false ->
  Re.match_at clear_pattern prev (w ++ post) <> None.
Proof.
  intros Hw Hprev Hpost. unfold Re.match_at, clear_pattern.
  assert (B1 : forall c r, Py.is_word c = true ->
            Re.at_boundary prev (String c r) = true).
  { intros c r Hc. unfold Re.at_boundary. cbn [Re.next_char Re.is_word_opt].
    now rewrite Hprev, Hc. }
  assert (B2 : forall c, Py.is_word c = true ->
            Re.at_boundary (Some c) post = true).
  { intros c Hc. unfold Re.at_boundary. cbn [Re.is_word_opt].
    now rewrite Hpost, Hc. }
  simpl in Hw. destruct Hw as [<-|[<-|[<-|[]]]];
    cbn [Re.run append]; rewrite B1 by reflexivity.
  - cbn [Re.lit Ascii.eqb Bool.eqb]. rewrite B2 by reflexivity. discriminate.
  - cbn [Re.lit Ascii.eqb Bool.eqb]. rewrite B2 by reflexivity. discriminate.
  - cbn [Re.lit Ascii.eqb Bool.eqb Re.in_class].
    replace (Py.is_space " ") with true by reflexivity.
    cbn [Re.star Re.in_class].
    replace (Py.is_space "a") with false by reflexivity.
    cbn [Re.lit Ascii.eqb Bool.eqb]. rewrite B2 by reflexivity. discriminate.
Qed.

Lemma whole_word_strip (w t : string) :
  starts_nonspace w = true -> ends_nonspace w = true ->
  whole_word w t -> whole_word w (Py.strip t).
Proof.
  intros Hs He (pre & post & -> & Hl & Hr).
  destruct (strip_around pre w post Hs He) as (sp & pre' & Hpre & ->).
  exists pre', (Py.rstrip post). split; [reflexivity|]. split.
  - destruct pre' as [|c pre']; [reflexivity|].
    rewrite Hpre, last_char_app in Hl by discriminate. exact Hl.
  - destruct (rstrip_next post) as [->| ->]; [reflexivity | exact Hr].
Qed.

Lemma delimits_not_word (c : option ascii) :
  delimits c = true -> Re.is_word_opt c = false.
Proof.
  destruct c as [c|]; [|reflexivity]. cbn [delimits Re.is_word_opt].
  intro H. apply andb_true_iff in H as [_ H]. now apply negb_true_iff in H.
Qed.

Lemma clear_pattern_finds (w t : string) :
  In w clear_words -> whole_word w t -> Re.matches clear_pattern t = true.
Proof.
  intros Hw (pre & post & -> & Hl & Hr).
  apply delimits_not_word in Hl, Hr.
  unfold Re.matches, Re.search.
  destruct (Re.search_from clear_pattern None (pre ++ w ++ post)) eqn:E;
    [reflexivity|].
  exfalso. revert E. apply search_from_app.
  apply clear_match_at; try assumption.
  unfold prev_after. now destruct (last_char pre).
Qed.

End ClearWords.

(** C7.  A message whose lower-cased text holds a clear word ([clear],
    [reset] or [remove all]) as a whole word, between ASCII characters
    that are no word characters or at an end of the text, gets a
    [clear_all] intent, whatever layers it mentions; when it also
    contains a key or synonym of a layer, the same result holds an intent
    for that layer. *)
Theorem C7_clear_and_layer (message w : string) :
  In w clear_words ->
  whole_word w (Py.lower message) ->
  In clear_all (_classify_intents message) /\
  (forall key meta s,
     In (key, meta) get_layer_registry ->
     In s (key :: synonyms meta) ->
     Py.contains s (Py.lower message) = true ->
     In (show_layer key None) (_classify_intents message) \/
     In (hide_layer key) (_classify_intents message)).
Proof.
  intros Hw Hword. rewrite classify_unfold. cbv zeta. split.
  - apply in_or_app. left.
    assert (Hedge : starts_nonspace w = true /\ ends_nonspace w = true).
    { simpl in Hw. destruct Hw as [<-|[<-|[<-|[]]]]; split; reflexivity. }
    destruct Hedge as [Hs He].
    rewrite (clear_pattern_finds w) by
      (try assumption; now apply whole_word_strip).
    now left.
  - intros key meta s Hin Hs Hc.
    pose proof (layer_intent_In _ (key, meta) Hin
                  (mentions_stripped _ _ _ _ Hin Hs Hc)) as H.
    cbn [fst] in H.
    destruct (any_in hide_words _); [right | left]; apply in_or_app; now right.
Qed.

Lemma C7_clear_and_layer_witness :
  In clear_all (_classify_intents "Reset, then show planning") /\
  (In (show_layer "planning" None) (_classify_intents "Reset, then show planning") \/
   In (hide_layer "planning") (_classify_intents "Reset, then show planning")).
Proof.
  assert (Hw : whole_word "reset" (Py.lower "Reset, then show planning")).
  { exists "", ", then show planning". repeat split. }
  destruct (C7_clear_and_layer "Reset, then show planning" "reset"
              (or_intror (or_introl eq_refl)) Hw) as [H1 H2].
  split; [exact H1|].
  apply (H2 "planning"
           {| title := "Planning Areas (2019)";
              synonyms := ["planning area"; "planning"; "boundary"; "boundaries"];
              context_builder := fun u max_items => _planning_context_builder u max_items;
              total_regex := total_pattern "total" |} "planning").
  - simpl. right. left. reflexivity.
  - simpl. left. reflexivity.
  - vm_compute. reflexivity.
Defined.

(** ** Decimal numbers *)

Section Decimal.

Lemma digit_char_code (m : nat) : m < 10 -> Py.code (Py.digit_char m) = 48 + m.
Proof.
  intro H. unfold Py.code, Py.digit_char. apply nat_ascii_embedding. lia.
Qed.

Lemma digit_char_is_digit (m : nat) : m < 10 -> Py.is_digit (Py.digit_char m) = true.
Proof.
  intro H. unfold Py.is_digit, Py.between. rewrite digit_char_code by assumption.
  apply andb_true_iff. split; apply Nat.leb_le; lia.
Qed.

Lemma digits_of_acc (fuel n : nat) (acc : string) :
  Py.digits_of fuel n acc = Py.digits_of fuel n "" ++ acc.
Proof.
  revert n acc. induction fuel as [|f IH]; intros n acc; [reflexivity|].
  cbn [Py.digits_of]. destruct (n <? 10)%nat; [reflexivity|].
  rewrite (IH _ (String _ acc)), (IH _ (String _ "")).
  now rewrite app_assoc.
Qed.

Lemma digits_of_all_digits (fuel n : nat) (acc : string) :
  all_in Re.Digit acc = true -> all_in Re.Digit (Py.digits_of fuel n acc) = true.
Proof.
  revert n acc. induction fuel as [|f IH]; intros n acc Hacc; [assumption|].
  cbn [Py.digits_of].
  assert (H : all_in Re.Digit (String (Py.digit_char (n mod 10)) acc) = true).
  { cbn [all_in Re.in_class]. rewrite digit_char_is_digit, Hacc; [reflexivity|].
    apply Nat.mod_upper_bound. discriminate. }
  destruct (n <? 10)%nat; [assumption | now apply IH].
Qed.

Lemma digits_of_nonempty (fuel n : nat) (acc : string) :
  Py.digits_of (S fuel) n acc <> "".
Proof.
  cbn [Py.digits_of]. destruct (n <? 10)%nat; [discriminate|].
  rewrite digits_of_acc. intro E. apply app_eq_nil in E as [_ E]. discriminate E.
Qed.

Lemma int_from_app (a : nat) (s t : string) :
  Py.int_from a (s ++ t) = Py.int_from (Py.int_from a s) t.
Proof.
  revert a. induction s as [|c s IH]; intro a; [reflexivity|].
  cbn [append Py.int_from]. apply IH.
Qed.

Lemma int_from_digits (fuel n : nat) :
  n < fuel -> Py.int_from 0 (Py.digits_of fuel n "") = n.
Proof.
  revert n. induction fuel as [|f IH]; intros n H; [lia|].
  cbn [Py.digits_of]. destruct (Nat.ltb_spec n 10) as [Hlt|Hge].
  - cbn [Py.int_from]. rewrite digit_char_code by (apply Nat.mod_upper_bound; lia).
    rewrite Nat.mod_small by assumption. lia.
  - rewrite digits_of_acc, int_from_app.
    rewrite IH.
    + cbn [Py.int_from]. rewrite digit_char_code by (apply Nat.mod_upper_bound; lia).
      pose proof (Nat.div_mod_eq n 10). lia.
    + pose proof (Nat.div_lt n 10). lia.
Qed.

(** [int(str(n)) == n] *)
Lemma int_of_str_of_nat (n : nat) : Py.int_of (Py.str_of_nat n) = n.
Proof. apply int_from_digits. lia. Qed.

Lemma str_of_nat_digits (n : nat) : all_in Re.Digit (Py.str_of_nat n) = true.
Proof. now apply digits_of_all_digits. Qed.

Lemma str_of_nat_nonempty (n : nat) : Py.str_of_nat n <> "".
Proof. apply digits_of_nonempty. Qed.

End Decimal.

(** ** Lines *)

Section Lines.

Lemma not_break_not_cr (c : ascii) :
  Py.is_linebreak c = false -> (Py.code c =? 13)%nat = false.
Proof.
  unfold Py.is_linebreak, Py.between. intro H.
  apply Nat.eqb_neq. intro E. rewrite E in H. discriminate H.
Qed.

Lemma no_break_app (a b : string) :
  no_break (a ++ b) = no_break a && no_break b.
Proof.
  induction a as [|c a IH]; [reflexivity|].
  cbn [append no_break]. now rewrite IH, andb_assoc.
Qed.

Lemma one_line_no_break (names : list string) :
  Forall (fun n => one_line n = true) names ->
  Forall (fun n => no_break n = true) names.
Proof.
  apply Forall_impl. intros n H. unfold one_line in H.
  apply andb_true_iff in H as [H _]. apply andb_true_iff in H as [H _].
  now apply andb_true_iff in H as [H _].
Qed.

Lemma digits_no_break (s : string) : all_in Re.Digit s = true -> no_break s = true.
Proof.
  induction s as [|c s IH]; [reflexivity|].
  cbn [all_in no_break Re.in_class]. intro H.
  apply andb_true_iff in H as [Hc Hs]. rewrite (IH Hs), andb_true_r.
  unfold Py.is_digit, Py.is_linebreak, Py.between in *.
  apply andb_true_iff in Hc as [H1 H2].
  apply Nat.leb_le in H1, H2.
  apply negb_true_iff, orb_false_iff. split; apply andb_false_iff.
  - right. apply Nat.leb_gt. lia.
  - right. apply Nat.leb_gt. lia.
Qed.

(** A line without a boundary character, closed by a line feed. *)
Lemma splitlines_line (cur s rest : string) :
  no_break s = true ->
  Py.splitlines_from cur (s ++ LF ++ rest) = (cur ++ s) :: Py.splitlines_from "" rest.
Proof.
  revert cur. induction s as [|c s IH]; intros cur H.
  - now rewrite app_nil_r.
  - cbn [no_break] in H. apply andb_true_iff in H as [Hc Hs].
    apply negb_true_iff in Hc.
    cbn [append Py.splitlines_from].
    rewrite (not_break_not_cr _ Hc), Hc, IH by assumption.
    now rewrite app_assoc.
Qed.

(** The last line, with no boundary after it. *)
Lemma splitlines_last (cur s : string) :
  no_break s = true ->
  Py.splitlines_from cur s =
  match cur ++ s with
  | EmptyString => []
  | l => [l]
  end.
Proof.
  revert cur. induction s as [|c s IH]; intros cur H.
  - rewrite app_nil_r. now destruct cur.
  - cbn [no_break] in H. apply andb_true_iff in H as [Hc Hs].
    apply negb_true_iff in Hc.
    cbn [Py.splitlines_from].
    rewrite (not_break_not_cr _ Hc), Hc, IH by assumption.
    now rewrite app_assoc.
Qed.

(** Joining non-empty lines with line feeds and splitting again gives the
    lines back. *)
Lemma splitlines_join (lines : list string) :
  Forall (fun l => no_break l = true /\ l <> "") lines ->
  Py.splitlines_from "" (Py.join LF lines) = lines.
Proof.
  induction lines as [|l lines IH]; intro H; [reflexivity|].
  inversion H as [|? ? [Hl Hne] Hrest]; subst.
  destruct lines as [|l2 lines].
  - cbn [Py.join String.concat]. rewrite splitlines_last by assumption.
    cbn [append]. destruct l; [contradiction | reflexivity].
  - change (Py.join LF (l :: l2 :: lines))
      with (l ++ LF ++ Py.join LF (l2 :: lines)).
    rewrite splitlines_line by assumption. cbn [append].
    now rewrite IH.
Qed.

Lemma Forall_take {A : Type} (P : A -> Prop) (n : nat) (l : list A) :
  Forall P l -> Forall P (firstn n l).
Proof.
  revert n. induction l as [|x l IH]; intros n H.
  - now rewrite firstn_nil.
  - destruct n; [constructor|]. inversion H; subst.
    cbn [firstn]. constructor; [assumption | now apply IH].
Qed.

End Lines.

(** ** The shape of a context *)

Section Contexts.

Lemma dengue_context_render (u : upstream) (max_items : Z) :
  _build_dengue_context u max_items
  = render "Latest dengue clusters" "unique" " clusters." (dengue_unique u) max_items.
Proof.
  unfold _build_dengue_context, render, dengue_unique. cbv zeta.
  rewrite !app_assoc. reflexivity.
Qed.

Lemma planning_context_render (u : upstream) (max_items : Z) :
  _planning_context_builder u max_items
  = render "Planning areas (year=2019)" "total" "." (planning_unique u) max_items.
Proof.
  unfold _planning_context_builder, _build_planning_context, render, planning_unique.
  cbv zeta. rewrite !app_assoc. reflexivity.
Qed.

Variables pre w tail : string.
Variable unique : list string.
Variable max_items : Z.

Hypothesis pre_no_break : no_break pre = true.
Hypothesis w_no_break : no_break w = true.
Hypothesis tail_no_break : no_break tail = true.

Let summary : string :=
  pre ++ ": " ++ Py.str_of_nat (List.length unique) ++ " " ++ w ++ tail.

Lemma summary_no_break : no_break summary = true.
Proof.
  unfold summary. rewrite !no_break_app.
  rewrite pre_no_break, w_no_break, tail_no_break.
  now rewrite (digits_no_break _ (str_of_nat_digits _)).
Qed.

(** The first line is the summary line, whatever the names are. *)
Lemma render_first_line :
  hd_error (Py.splitlines (render pre w tail unique max_items)) = Some summary.
Proof.
  unfold render, Py.splitlines. fold summary.
  now rewrite splitlines_line by apply summary_no_break.
Qed.

Hypothesis names_no_break : Forall (fun n => no_break n = true) unique.

Lemma bullets_ok (sample : list string) :
  Forall (fun n => no_break n = true) sample ->
  Forall (fun l => no_break l = true /\ l <> "") (map bullet sample).
Proof.
  intro H. apply Forall_map. eapply Forall_impl; [|exact H].
  intros n Hn. split; [|discriminate]. unfold bullet. cbn. exact Hn.
Qed.

Lemma sample_no_break :
  Forall (fun n => no_break n = true) (Py.slice_to max_items unique).
Proof.
  unfold Py.slice_to. destruct (max_items <? 0)%Z; now apply Forall_take.
Qed.

Lemma render_lines :
  Py.splitlines (render pre w tail unique max_items)
  = summary
    :: ("List (first "
        ++ Py.str_of_nat (List.length (Py.slice_to max_items unique)) ++ "):")
    :: map bullet (Py.slice_to max_items unique).
Proof.
  unfold render, Py.splitlines. fold summary.
  rewrite splitlines_line by apply summary_no_break.
  rewrite splitlines_line.
  - cbn [append]. f_equal. f_equal.
    apply splitlines_join, bullets_ok, sample_no_break.
  - rewrite !no_break_app.
    now rewrite (digits_no_break _ (str_of_nat_digits _)).
Qed.

Lemma filter_bullets (sample : list string) :
  filter (Py.startswith "- ") (map bullet sample) = map bullet sample.
Proof.
  induction sample as [|n sample IH]; [reflexivity|].
  cbn [map filter].
  replace (Py.startswith "- " (bullet n)) with true by reflexivity.
  now rewrite IH.
Qed.

Hypothesis pre_not_bullet : forall x, Py.startswith "- " (pre ++ x) = false.

(** The bulleted lines are the sample, in order. *)
Lemma render_bullet_lines :
  bullet_lines (render pre w tail unique max_items)
  = map bullet (Py.slice_to max_items unique).
Proof.
  unfold bullet_lines. rewrite render_lines. cbn [filter].
  unfold summary at 1. rewrite pre_not_bullet.
  replace (Py.startswith "- " ("List (first " ++ _)) with false by reflexivity.
  apply filter_bullets.
Qed.

End Contexts.

(** ** Reading the total back *)

Section Totals.

Lemma take_app (a b : string) : Py.take (String.length a) (a ++ b) = a.
Proof. induction a as [|c a IH]; cbn; [now destruct b | now rewrite IH]. Qed.

Lemma consumed_app (a b : string) : Re.consumed (a ++ b) b = a.
Proof.
  unfold Re.consumed. rewrite length_app.
  replace (String.length a + String.length b - String.length b) with (String.length a) by lia.
  apply take_app.
Qed.

Lemma digit_not_space (c : ascii) : Py.is_digit c = true -> Py.is_space c = false.
Proof.
  unfold Py.is_digit, Py.is_space, Py.between. intro H.
  apply andb_true_iff in H as [H1 H2]. apply Nat.leb_le in H1, H2.
  apply orb_false_iff. split; apply andb_false_iff; right; apply Nat.leb_gt; lia.
Qed.

Lemma total_pattern_match_at (w rest : string) (n : nat) (prev : option ascii) :
  starts_nonspace w = true ->
  Re.match_at (total_pattern w) prev (": " ++ Py.str_of_nat n ++ " " ++ w ++ rest)
  = Some {| Re.group1 := Some (Py.str_of_nat n) |}.
Proof.
  intro Hw.
  pose proof (str_of_nat_digits n) as Hd.
  pose proof (str_of_nat_nonempty n) as Hne.
  destruct (Py.str_of_nat n) as [|d ds]; [contradiction|]. clear Hne.
  cbn [all_in Re.in_class] in Hd. apply andb_true_iff in Hd as [Hd Hds].
  unfold Re.match_at, total_pattern. cbn [Re.run append Re.lit].
  rewrite Ascii.eqb_refl.
  apply (star_run Re.Space " " (String d (ds ++ " " ++ w ++ rest))).
  - reflexivity.
  - cbn [stops Re.in_class]. now rewrite (digit_not_space _ Hd).
  - cbn [Re.in_class]. rewrite Hd.
    apply (star_run Re.Digit ds (" " ++ w ++ rest)).
    + exact Hds.
    + reflexivity.
    + apply (star_run Re.Space " " (w ++ rest)).
      * reflexivity.
      * destruct w; [discriminate|]. exact Hw.
      * rewrite lit_app. f_equal. f_equal. f_equal.
        apply (consumed_app (String d ds)).
Qed.

Lemma no_colon_In (s : string) (c : ascii) :
  no_colon s = true -> In c (list_ascii_of_string s) -> Ascii.eqb ":" c = false.
Proof.
  induction s as [|d s IH]; [contradiction|].
  cbn [no_colon list_ascii_of_string In]. intros H [<-|Hc].
  - apply andb_true_iff in H as [H _]. now apply negb_true_iff.
  - apply andb_true_iff in H as [_ H]. now apply IH.
Qed.

Lemma total_pattern_skip (w t : string) (c : ascii) (prev : option ascii) :
  Ascii.eqb ":" c = false -> Re.match_at (total_pattern w) prev (String c t) = None.
Proof.
  intro H. unfold Re.match_at, total_pattern. cbn [Re.run Re.lit]. now rewrite H.
Qed.

Lemma search_from_here (r : Re.regex) (s : string) (prev : option ascii)
    (m : Re.match_object) :
  Re.match_at r prev s = Some m -> Re.search_from r prev s = Some m.
Proof. intro H. destruct s; cbn [Re.search_from]; now rewrite H. Qed.

(** The layer's pattern finds the total of the summary line and nothing
    before it. *)
Lemma search_render (pre w tail : string) (unique : list string) (max_items : Z) :
  no_colon pre = true -> starts_nonspace w = true ->
  Re.search (total_pattern w) (render pre w tail unique max_items)
  = Some {| Re.group1 := Some (Py.str_of_nat (List.length unique)) |}.
Proof.
  intros Hpre Hw. unfold render, Re.search. cbv zeta.
  rewrite !app_assoc.
  rewrite search_from_skip
    by (intros p c t Hc; apply total_pattern_skip; now apply (no_colon_In pre)).
  apply search_from_here.
  change (String ":" (String " " ?x)) with (": " ++ x).
  now apply total_pattern_match_at.
Qed.

Lemma extract_total_render (pre w tail : string) (unique : list string) (max_items : Z) :
  no_colon pre = true -> starts_nonspace w = true ->
  extract_total (total_pattern w) (render pre w tail unique max_items)
  = List.length unique.
Proof.
  intros Hpre Hw. unfold extract_total.
  rewrite search_render by assumption. cbn [Re.group1].
  apply int_of_str_of_nat.
Qed.

End Totals.

(** ** What a match of a total pattern captures *)

Section Captured.

Lemma lit_inv {A : Type} (l s : string) (prev : option ascii) (g : option string)
    (k : @Re.cont A) (x : A) :
  Re.lit l prev s g k = Some x ->
  exists s', s = l ++ s' /\ k (prev_after prev l) s' g = Some x.
Proof.
  revert prev s. induction l as [|c l IH]; intros prev s H.
  - now exists s.
  - cbn [Re.lit] in H. destruct s as [|d s]; [discriminate|].
    destruct (Ascii.eqb_spec c d) as [<-|]; [|discriminate].
    destruct (IH _ _ H) as (s' & -> & Hk).
    exists s'. split; [reflexivity|]. now rewrite prev_after_cons.
Qed.

Lemma star_inv {A : Type} (p : Re.char_class) (s : string) (prev : option ascii)
    (g : option string) (k : @Re.cont A) (x : A) :
  Re.star p prev s g k = Some x ->
  exists ds s', s = ds ++ s' /\ all_in p ds = true
                /\ k (prev_after prev ds) s' g = Some x.
Proof.
  revert prev. induction s as [|c s IH]; intros prev H.
  - exists "", "". now repeat split.
  - cbn [Re.star] in H. destruct (Re.in_class p c) eqn:Ec.
    + destruct (Re.star p (Some c) s g k) as [y|] eqn:E.
      * inversion H; subst y.
        destruct (IH _ E) as (ds & s' & -> & Hall & Hk).
        exists (String c ds), s'. split; [reflexivity|]. split.
        -- cbn [all_in]. now rewrite Ec, Hall.
        -- now rewrite prev_after_cons.
      * exists "", (String c s). now repeat split.
    + exists "", (String c s). now repeat split.
Qed.

(** A match of [total_pattern w] captures a non-empty run of digits, so
    that [int(m.group(1))] is defined. *)
Lemma total_pattern_group (w s : string) (prev : option ascii) (m : Re.match_object) :
  Re.match_at (total_pattern w) prev s = Some m ->
  exists g, Re.group1 m = Some g /\ g <> "" /\ all_in Re.Digit g = true.
Proof.
  unfold Re.match_at, total_pattern. cbn [Re.run]. intro H.
  apply lit_inv in H as (s1 & _ & H).
  apply star_inv in H as (sp & s2 & _ & _ & H).
  destruct s2 as [|d s2]; [discriminate|].
  destruct (Re.in_class Re.Digit d) eqn:Ed; [|discriminate].
  apply star_inv in H as (ds & s3 & -> & Hds & H).
  apply star_inv in H as (sp2 & s4 & _ & _ & H).
  apply lit_inv in H as (s5 & _ & H).
  inversion H; subst m. cbn [Re.group1].
  exists (String d ds). split.
  - f_equal. apply (consumed_app (String d ds)).
  - split; [discriminate|]. cbn [all_in]. now rewrite Ed, Hds.
Qed.

Lemma search_from_inv (r : Re.regex) (s : string) (prev : option ascii)
    (m : Re.match_object) :
  Re.search_from r prev s = Some m ->
  exists pre s', s = pre ++ s' /\ Re.match_at r (prev_after prev pre) s' = Some m.
Proof.
  revert prev. induction s as [|c s IH]; intros prev H.
  - cbn [Re.search_from] in H. exists "", "". split; [reflexivity|].
    unfold prev_after. cbn [last_char].
    destruct (Re.match_at r prev ""); [assumption | discriminate].
  - cbn [Re.search_from] in H.
    destruct (Re.match_at r prev (String c s)) as [m'|] eqn:E.
    + exists "", (String c s). split; [reflexivity|].
      unfold prev_after. cbn [last_char]. now rewrite <- H.
    + destruct (IH _ H) as (pre & s' & -> & Hm).
      exists (String c pre), s'. split; [reflexivity|].
      now rewrite prev_after_cons.
Qed.

Lemma search_total_group (w s : string) (m : Re.match_object) :
  Re.search (total_pattern w) s = Some m ->
  exists g, Re.group1 m = Some g /\ g <> "" /\ all_in Re.Digit g = true.
Proof.
  intro H. apply search_from_inv in H as (pre & s' & _ & H).
  now apply total_pattern_group in H.
Qed.

(** Every pattern of the registry is a total pattern. *)
Lemma registry_total_patterns (key : string) (meta : layer_meta) :
  In (key, meta) get_layer_registry ->
  exists w, total_regex meta = total_pattern w.
Proof.
  intros [E|[E|[]]]; inversion E; subst; cbn [total_regex]; eauto.
Qed.

End Captured.

(** ** The context builders *)

Section Builders.

Lemma slice_to_nonneg {A : Type} (k : Z) (xs : list A) :
  (0 <= k)%Z -> Py.slice_to k xs = firstn (Z.to_nat k) xs.
Proof.
  intro H. unfold Py.slice_to.
  destruct (Z.ltb_spec k 0); [lia | reflexivity].
Qed.

Lemma dengue_first_line (u : upstream) (max_items : Z) :
  hd_error (Py.splitlines (_build_dengue_context u max_items))
  = Some ("Latest dengue clusters: "
          ++ Py.str_of_nat (List.length (dengue_unique u)) ++ " unique clusters.").
Proof.
  rewrite dengue_context_render, render_first_line by reflexivity. reflexivity.
Qed.

Lemma planning_first_line (u : upstream) (max_items : Z) :
  hd_error (Py.splitlines (_planning_context_builder u max_items))
  = Some ("Planning areas (year=2019): "
          ++ Py.str_of_nat (List.length (planning_unique u)) ++ " total.").
Proof.
  rewrite planning_context_render, render_first_line by reflexivity. reflexivity.
Qed.

Lemma dengue_total (u : upstream) (max_items : Z) :
  extract_total (total_pattern "unique") (_build_dengue_context u max_items)
  = List.length (dengue_unique u).
Proof.
  rewrite dengue_context_render. now apply extract_total_render.
Qed.

Lemma planning_total (u : upstream) (max_items : Z) :
  extract_total (total_pattern "total") (_planning_context_builder u max_items)
  = List.length (planning_unique u).
Proof.
  rewrite planning_context_render. now apply extract_total_render.
Qed.

Lemma dengue_bullet_lines (u : upstream) (max_items : Z) :
  Forall (fun n => no_break n = true) (dengue_unique u) ->
  bullet_lines (_build_dengue_context u max_items)
  = map bullet (Py.slice_to max_items (dengue_unique u)).
Proof.
  intro H. rewrite dengue_context_render. now apply render_bullet_lines.
Qed.

Lemma planning_bullet_lines (u : upstream) (max_items : Z) :
  Forall (fun n => no_break n = true) (planning_unique u) ->
  bullet_lines (_planning_context_builder u max_items)
  = map bullet (Py.slice_to max_items (planning_unique u)).
Proof.
  intro H. rewrite planning_context_render. now apply render_bullet_lines.
Qed.

End Builders.

(** C3 (amended).  For every fetched feature list and every [max_items],
    the summary line of each builder, and the total its registry pattern
    reads back, is the number of distinct resolved names, whatever
    [max_items] is.  For [0 <= max_items], and names that hold no line
    boundary of [str.splitlines] (U+0085, U+2028 and U+2029 included),
    the bulleted lines are the first [min max_items total] distinct
    names, one per line. *)
Theorem C3_total_and_listing (u : upstream) (max_items : Z) :
  (hd_error (Py.splitlines (_build_dengue_context u max_items))
   = Some ("Latest dengue clusters: "
           ++ Py.str_of_nat (List.length (dengue_unique u)) ++ " unique clusters.")
   /\ extract_total (total_pattern "unique") (_build_dengue_context u max_items)
      = List.length (dengue_unique u))
  /\
  (hd_error (Py.splitlines (_planning_context_builder u max_items))
   = Some ("Planning areas (year=2019): "
           ++ Py.str_of_nat (List.length (planning_unique u)) ++ " total.")
   /\ extract_total (total_pattern "total") (_planning_context_builder u max_items)
      = List.length (planning_unique u))
  /\
  ((0 <= max_items)%Z ->
   Forall (fun n => one_line n = true) (dengue_unique u) ->
   bullet_lines (_build_dengue_context u max_items)
   = map bullet (firstn (Z.to_nat max_items) (dengue_unique u))
   /\ List.length (bullet_lines (_build_dengue_context u max_items))
      = Nat.min (Z.to_nat max_items) (List.length (dengue_unique u)))
  /\
  ((0 <= max_items)%Z ->
   Forall (fun n => one_line n = true) (planning_unique u) ->
   bullet_lines (_planning_context_builder u max_items)
   = map bullet (firstn (Z.to_nat max_items) (planning_unique u))
   /\ List.length (bullet_lines (_planning_context_builder u max_items))
      = Nat.min (Z.to_nat max_items) (List.length (planning_unique u))).
Proof.
  split; [split; [apply dengue_first_line | apply dengue_total]|].
  split; [split; [apply planning_first_line | apply planning_total]|].
  split; intros Hk Hn; apply one_line_no_break in Hn.
  - rewrite dengue_bullet_lines, slice_to_nonneg by assumption.
    split; [reflexivity|]. now rewrite length_map, length_firstn.
  - rewrite planning_bullet_lines, slice_to_nonneg by assumption.
    split; [reflexivity|]. now rewrite length_map, length_firstn.
Qed.

Lemma C3_total_and_listing_witness :
  hd_error (Py.splitlines (_build_dengue_context many_clusters 50))
  = Some "Latest dengue clusters: 100 unique clusters."
  /\ List.length (bullet_lines (_build_dengue_context many_clusters 50)) = 50.
Proof.
  destruct (C3_total_and_listing many_clusters 50) as ((H1 & _) & _ & H3 & _).
  split.
  - rewrite H1. vm_compute. reflexivity.
  - destruct H3 as [_ H3].
    + lia.
    + apply Forall_forall. intros x Hx.
      apply (proj1 (forallb_forall (fun n => one_line n) (dengue_unique many_clusters)));
        [vm_compute; reflexivity | exact Hx].
    + rewrite H3. vm_compute. reflexivity.
Defined.

(** C3 as stated fails for a negative [max_items], which drops names from
    the end of the listing, and for a name that holds a line boundary. *)
Lemma C3_counterexample :
  Z.of_nat (List.length (bullet_lines (_build_dengue_context some_data (-1))))
  <> Z.min (-1) (Z.of_nat (List.length (dengue_unique some_data)))
  /\
  Z.of_nat (List.length (bullet_lines (_build_dengue_context two_line_name 50)))
  <> Z.min 50 (Z.of_nat (List.length (dengue_unique two_line_name))).
Proof. split; vm_compute; discriminate. Qed.

(** ** The rule-based branch of the chat endpoint *)

Section RuleBranch.

Lemma unconfigured_tools (b : backend) (m : string) :
  configured b = false -> _azure_openai_chat_with_tools b m = None.
Proof. intro H. unfold _azure_openai_chat_with_tools. now rewrite H. Qed.

Lemma unconfigured_reply (b : backend) (m : string) :
  configured b = false -> _azure_openai_reply b m = None.
Proof. intro H. unfold _azure_openai_reply. now rewrite H. Qed.

Lemma splitlines_from_head (cur s : string) :
  cur <> "" -> exists l rest, Py.splitlines_from cur s = (cur ++ l) :: rest.
Proof.
  revert cur. induction s as [|c s IH]; intros cur Hcur.
  - exists "", []. rewrite app_nil_r. cbn. now destruct cur.
  - cbn [Py.splitlines_from].
    destruct (Py.code c =? 13)%nat.
    + destruct s as [|d s].
      * exists "", []. now rewrite app_nil_r.
      * destruct (Py.code d =? 10)%nat; eexists "", _; now rewrite app_nil_r.
    + destruct (Py.is_linebreak c).
      * eexists "", _. now rewrite app_nil_r.
      * destruct (IH (cur ++ String c ""))
          as (l & rest & E).
        { intro E. apply app_eq_nil in E as [_ E]. discriminate E. }
        exists (String c l), rest. rewrite E. now rewrite app_assoc.
Qed.

(** A non-empty sample always leaves a bulleted line, whatever the names
    hold. *)
Lemma render_has_bullet (pre w tail : string) (unique : list string) (k : Z) :
  no_break pre = true -> no_break w = true -> no_break tail = true ->
  Py.slice_to k unique <> [] ->
  bullet_lines (render pre w tail unique k) <> [].
Proof.
  intros Hp Hw Ht Hs. unfold bullet_lines, render, Py.splitlines. cbv zeta.
  rewrite splitlines_line by now apply summary_no_break.
  rewrite splitlines_line
    by (rewrite !no_break_app; now rewrite (digits_no_break _ (str_of_nat_digits _))).
  cbn [append].
  destruct (Py.slice_to k unique) as [|n sample]; [contradiction|].
  assert (E : exists x, Py.join LF (map bullet (n :: sample)) = "- " ++ x).
  { cbn [map]. unfold bullet at 1. destruct (map bullet sample) as [|l ls].
    - now exists n.
    - exists (n ++ LF ++ Py.join LF (l :: ls)).
      change (Py.join LF (("- " ++ n) :: l :: ls))
        with (("- " ++ n) ++ LF ++ Py.join LF (l :: ls)).
      now rewrite app_assoc. }
  destruct E as [x ->].
  change (Py.splitlines_from "" ("- " ++ x)) with (Py.splitlines_from "- " x).
  destruct (splitlines_from_head "- " x) as (l & rest & ->); [discriminate|].
  cbn [filter].
  destruct (Py.startswith "- " _); [|destruct (Py.startswith "- " _)].
  all: try discriminate.
  all: cbn [Py.startswith Ascii.eqb Bool.eqb andb append]; discriminate.
Qed.

Lemma dedup_nil_iff (names : list string) : dedup names = [] <-> names = [].
Proof.
  split; [|now intros ->].
  destruct names as [|n names]; [reflexivity|].
  rewrite dedup_cons. discriminate.
Qed.

Lemma dengue_bullets_empty (u : upstream) (k : Z) :
  dengue_names (_get_dengue_features u) = [] ->
  bullet_lines (_build_dengue_context u k) = [].
Proof.
  intro H. unfold _build_dengue_context. rewrite H.
  unfold Py.slice_to. change (dedup []) with (@nil string).
  destruct (k <? 0)%Z; rewrite firstn_nil; reflexivity.
Qed.

Lemma dengue_bullets_nonempty (u : upstream) (k : Z) :
  (0 < k)%Z ->
  dengue_names (_get_dengue_features u) <> [] ->
  bullet_lines (_build_dengue_context u k) <> [].
Proof.
  intros Hk H. rewrite dengue_context_render.
  apply render_has_bullet; try reflexivity.
  rewrite slice_to_nonneg by lia.
  unfold dengue_unique.
  destruct (dedup _) as [|n l] eqn:E.
  - apply (proj1 (dedup_nil_iff _)) in E. contradiction.
  - destruct (Z.to_nat k) eqn:Ek; [lia | discriminate].
Qed.

Lemma rule_answer_show_clusters (u : upstream) :
  rule_branch_answer u "show clusters" =
  match bullet_lines (_build_dengue_context u 300) with
  | [] => None
  | lines => Some ("Dengue Hotspots:" ++ LF ++ Py.join LF (firstn 100 lines))
  end.
Proof.
  unfold rule_branch_answer. cbv zeta.
  replace (Py.lower "show clusters") with "show clusters" by reflexivity.
  replace (Re.matches list_pattern "show clusters") with true
    by (vm_compute; reflexivity).
  replace (_detect_layers get_layer_registry "show clusters") with ["dengue"]
    by (vm_compute; reflexivity).
  unfold list_bucket. cbn [flat_map registry_get get_layer_registry String.eqb
    Ascii.eqb Bool.eqb context_builder title_of title Py.nonempty].
  destruct (bullet_lines (_build_dengue_context u 300)); reflexivity.
Qed.

End RuleBranch.

(** C2 (amended).  With no model backend configured, the message
    "show clusters" always gives the single intent [show_layer dengue].
    The reply is the fixed phrase when the dengue feed yields no name;
    when it yields one, the list rule answers first and the reply is the
    titled listing of the dengue names. *)
Theorem C2_show_clusters (u : upstream) (b : backend) :
  configured b = false ->
  intents (chat_api u b "show clusters") = [show_layer "dengue" None]
  /\ (dengue_names (_get_dengue_features u) = [] ->
      reply (chat_api u b "show clusters") = "Showing dengue hotspots on the map.")
  /\ (dengue_names (_get_dengue_features u) <> [] ->
      reply (chat_api u b "show clusters")
      = "Dengue Hotspots:" ++ LF
        ++ Py.join LF (firstn 100 (bullet_lines (_build_dengue_context u 300)))).
Proof.
  intro Hb. unfold chat_api. cbn [Py.nonempty negb].
  rewrite unconfigured_tools, unconfigured_reply by assumption.
  cbn [intents reply truthy_opt andb].
  replace (_classify_intents "show clusters") with [show_layer "dengue" None]
    by (vm_compute; reflexivity).
  rewrite rule_answer_show_clusters.
  split; [reflexivity|]. split; intro H.
  - rewrite dengue_bullets_empty by assumption. reflexivity.
  - pose proof (dengue_bullets_nonempty u 300 eq_refl H) as Hne.
    destruct (bullet_lines (_build_dengue_context u 300)) as [|l ls];
      [contradiction|].
    reflexivity.
Qed.

Lemma C2_show_clusters_witness :
  intents (chat_api no_data unconfigured "show clusters") = [show_layer "dengue" None]
  /\ reply (chat_api no_data unconfigured "show clusters")
     = "Showing dengue hotspots on the map.".
Proof.
  destruct (C2_show_clusters no_data unconfigured eq_refl) as (H1 & H2 & _).
  split; [exact H1 | exact (H2 eq_refl)].
Defined.

(** C2 as stated fails as soon as the dengue feed has a named cluster. *)
Lemma C2_counterexample :
  reply (chat_api some_data unconfigured "show clusters")
  <> "Showing dengue hotspots on the map."
  /\ reply (chat_api some_data unconfigured "show clusters")
     = "Dengue Hotspots:" ++ LF ++ "- A" ++ LF ++ "- B" ++ LF ++ "- C".
Proof. split; vm_compute; [discriminate | reflexivity]. Qed.

(** ** Empty replies *)

Section EmptyReply.

Lemma truthy_opt_true (r : option string) :
  truthy_opt r = true -> exists x, r = Some x /\ x <> "".
Proof.
  destruct r as [[|c x]|]; cbn; try discriminate.
  intros _. eexists. split; [reflexivity | discriminate].
Qed.

(** What the tool-calling branch returns for a final [reply]. *)
Lemma final_reply_empty (r : option string) :
  match r with
  | Some x => if Py.nonempty x then x else ""
  | None => ""
  end = "" <-> truthy_opt r = false.
Proof.
  destruct r as [[|c x]|]; cbn; split; try reflexivity; discriminate.
Qed.

(** The rule-based branch always ends with a reply. *)
Lemma static_reply_nonempty (r : option string) :
  (if negb (truthy_opt r)
   then "Here to help with dengue hotspots and planning areas."
   else match r with Some x => x | None => "" end) <> "".
Proof. destruct r as [[|c x]|]; cbn; discriminate. Qed.

End EmptyReply.

(** C1 (amended).  The reply of the chat endpoint is empty exactly when
    the message is not empty, the tool-calling call returned a result
    with no text, the second model call gave no text and neither the
    list nor the summarize rule produced one; the intents play no part.
    Whenever the tool-calling call returns nothing, and so whenever no
    backend is configured, the reply is not empty, for every message,
    the empty one included. *)
Theorem C1_empty_reply (u : upstream) (b : backend) (message : string) :
  (reply (chat_api u b message) = "" <->
   message <> "" /\
   exists t,
     _azure_openai_chat_with_tools b (enrich u message) = Some t /\
     truthy_opt (out_reply t) = false /\
     truthy_opt (_azure_openai_reply b (enrich u message)) = false /\
     truthy_opt (tool_branch_fallback u message) = false)
  /\ (_azure_openai_chat_with_tools b (enrich u message) = None ->
      reply (chat_api u b message) <> "")
  /\ (configured b = false -> reply (chat_api u b message) <> "").
Proof.
  assert (Hnone : _azure_openai_chat_with_tools b (enrich u message) = None ->
                  reply (chat_api u b message) <> "").
  { intro E. unfold chat_api. destruct (Py.nonempty message); cbn [negb].
    - rewrite E. cbn [reply]. apply static_reply_nonempty.
    - cbn [reply]. discriminate. }
  split; [|split; [exact Hnone | intro Hb; now apply Hnone, unconfigured_tools]].
  destruct message as [|c message'] eqn:Em.
  { split; [discriminate|]. intros [H _]. now contradiction H. }
  rewrite <- Em in *.
  assert (Hmsg : Py.nonempty message = true) by now rewrite Em.
  destruct (_azure_openai_chat_with_tools b (enrich u message)) as [t|] eqn:Et.
  - unfold chat_api. rewrite Hmsg, Et. cbn [negb reply].
    rewrite final_reply_empty.
    destruct (truthy_opt (out_reply t)) eqn:E1; cbn [negb].
    + rewrite E1. cbn [negb]. rewrite E1. split; [discriminate|].
      intros (_ & t' & Ht' & H1 & _). inversion Ht'; subst t'. congruence.
    + destruct (truthy_opt (_azure_openai_reply b (enrich u message))) eqn:E2.
      * rewrite E2. cbn [negb]. rewrite E2. split; [discriminate|].
        intros (_ & t' & _ & _ & H2 & _). discriminate H2.
      * rewrite E1. cbn [negb]. split.
        -- intro H. split; [now rewrite Em|]. exists t. auto.
        -- intros (_ & t' & _ & _ & _ & H3). exact H3.
  - split.
    + intro H. now apply Hnone in H.
    + intros (_ & t' & Ht' & _). discriminate Ht'.
Qed.

(** C1 as stated fails: the reply can be empty while intents were
    produced. *)
Lemma C1_counterexample :
  reply (chat_api some_data tool_call_only "dengue") = ""
  /\ intents (chat_api some_data tool_call_only "dengue") = [show_layer "dengue" None].
Proof. split; vm_compute; reflexivity. Qed.

Lemma C1_empty_reply_witness :
  reply (chat_api no_data unconfigured "") <> ""
  /\ reply (chat_api some_data unconfigured "hello") <> "".
Proof.
  split.
  - exact (proj2 (proj2 (C1_empty_reply no_data unconfigured "")) eq_refl).
  - exact (proj2 (proj2 (C1_empty_reply some_data unconfigured "hello")) eq_refl).
Defined.

(** ** The summarize rule *)

Section Summarize.

Lemma planning_bullets_nonempty (u : upstream) (k : Z) :
  (0 < k)%Z -> planning_unique u <> [] ->
  bullet_lines (_planning_context_builder u k) <> [].
Proof.
  intros Hk H. rewrite planning_context_render.
  apply render_has_bullet; try reflexivity.
  rewrite slice_to_nonneg by lia.
  destruct (planning_unique u) as [|n l]; [contradiction|].
  destruct (Z.to_nat k) eqn:Ek; [lia | discriminate].
Qed.

Lemma dengue_unique_bullets_nonempty (u : upstream) (k : Z) :
  (0 < k)%Z -> dengue_unique u <> [] ->
  bullet_lines (_build_dengue_context u k) <> [].
Proof.
  intros Hk H. apply dengue_bullets_nonempty; [assumption|].
  intro E. apply H. unfold dengue_unique. now rewrite E.
Qed.

Lemma examples_nonempty (lines : list string) :
  lines <> [] -> firstn 5 (map (Py.drop 2) lines) <> [].
Proof. destruct lines; [contradiction | discriminate]. Qed.

Lemma length_zero_nil {A : Type} (l : list A) :
  (List.length l =? 0)%nat = false -> l <> [].
Proof. destruct l; [discriminate | discriminate]. Qed.

(** What the loop body of the summarize flow computes for a key. *)
Lemma summary_piece_sentence (u : upstream) (key : string) :
  match registry_get get_layer_registry key with
  | None => []
  | Some meta => summary_piece u key meta
  end = summary_sentence u key.
Proof.
  unfold summary_sentence, layer_unique, layer_title, layer_examples, layer_context.
  cbn [registry_get get_layer_registry].
  destruct (String.eqb_spec "dengue" key) as [<-|Hd].
  - cbn [String.eqb Ascii.eqb Bool.eqb].
    unfold summary_piece. cbn [context_builder total_regex]. cbv zeta.
    rewrite dengue_total.
    destruct (List.length (dengue_unique u) =? 0)%nat eqn:E; [reflexivity|].
    pose proof (examples_nonempty _
      (dengue_unique_bullets_nonempty u 50 eq_refl (length_zero_nil _ E))) as Hex.
    destruct (firstn 5 _) as [|e es]; [contradiction | reflexivity].
  - rewrite (String.eqb_sym key "dengue").
    destruct (String.eqb_spec "dengue" key) as [?|_]; [contradiction|].
    destruct (String.eqb_spec "planning" key) as [<-|Hp].
    + cbn [String.eqb Ascii.eqb Bool.eqb].
      unfold summary_piece. cbn [context_builder total_regex]. cbv zeta.
      rewrite planning_total.
      destruct (List.length (planning_unique u) =? 0)%nat eqn:E; [reflexivity|].
      pose proof (examples_nonempty _
        (planning_bullets_nonempty u 50 eq_refl (length_zero_nil _ E))) as Hex.
      destruct (firstn 5 _) as [|e es]; [contradiction | reflexivity].
    + rewrite (String.eqb_sym key "planning").
      destruct (String.eqb_spec "planning" key) as [?|_]; [contradiction|].
      reflexivity.
Qed.

Lemma summary_pieces_sentences (u : upstream) (targets : list string) :
  summary_pieces u get_layer_registry targets = flat_map (summary_sentence u) targets.
Proof.
  unfold summary_pieces. apply flat_map_ext. intro key.
  apply summary_piece_sentence.
Qed.

Lemma join_nonempty (sep x : string) (xs : list string) :
  x <> "" -> Py.join sep (x :: xs) <> "".
Proof.
  intro H. destruct xs; cbn [Py.join String.concat]; [assumption|].
  intro E. now apply app_eq_nil in E as [E _].
Qed.

Lemma summary_sentence_nonempty (u : upstream) (key x : string) :
  In x (summary_sentence u key) -> x <> "".
Proof.
  unfold summary_sentence.
  destruct (_ =? 0)%nat; [contradiction|]. intros [<-|[]].
  unfold layer_title. intro E.
  repeat (apply app_eq_nil in E as [_ E]). discriminate E.
Qed.




Lemma layer_unique_no_break (u : upstream) (key : string) :
  Forall (fun n => no_break n = true) (dengue_unique u) ->
  Forall (fun n => no_break n = true) (planning_unique u) ->
  Forall (fun n => no_break n = true) (layer_unique u key).
Proof.
  intros Hd Hp. unfold layer_unique.
  destruct (String.eqb key "dengue"); [assumption|].
  destruct (String.eqb key "planning"); [assumption | constructor].
Qed.


End Summarize.




(** ** The welcome message *)

Section Welcome.

Lemma welcome_bits_items (u : upstream) (registry : list (string * layer_meta)) :
  welcome_bits u registry
  = map (welcome_item u) (filter (pattern_matches u) registry).
Proof.
  unfold welcome_bits.
  induction registry as [|entry registry IH]; [reflexivity|].
  cbn [flat_map filter]. rewrite IH. clear IH.
  assert (E : pattern_matches u entry
              = match Re.search (total_regex (snd entry))
                        (context_builder (snd entry) u 30) with
                | Some _ => true
                | None => false
                end) by reflexivity.
  rewrite E. clear E.
  destruct (Re.search (total_regex (snd entry)) (context_builder (snd entry) u 30))
    as [m|] eqn:Es; [|reflexivity].
  cbn [map app]. f_equal.
  unfold welcome_item, extract_total. now rewrite Es.
Qed.

Lemma welcome_intro_nonempty (rest : string) : welcome_intro ++ rest <> "".
Proof. discriminate. Qed.

Lemma welcome_fallback_nonempty (u : upstream)
    (registry : list (string * layer_meta)) :
  welcome_fallback u registry <> "".
Proof.
  unfold welcome_fallback. cbv zeta.
  destruct (welcome_bits u registry).
  - apply (welcome_intro_nonempty "").
  - apply welcome_intro_nonempty.
Qed.

Lemma welcome_bits_registry (u : upstream) :
  welcome_bits u get_layer_registry
  = [Py.str_of_nat (List.length (dengue_unique u)) ++ " dengue hotspots";
     Py.str_of_nat (List.length (planning_unique u)) ++ " planning areas (2019)"].
Proof.
  unfold welcome_bits.
  cbn [flat_map get_layer_registry fst snd context_builder total_regex app].
  rewrite dengue_context_render, planning_context_render.
  rewrite !search_render by reflexivity.
  cbn [Re.group1]. rewrite !int_of_str_of_nat. reflexivity.
Qed.

End Welcome.

(** C9.  The welcome message is never empty.  When the model call gives
    no reply it is built from the registry alone: the fixed preamble,
    followed by one item per layer whose pattern matches its context, the
    item being the layer's total and its title (put in lower case); with
    no matching layer it is the preamble alone.  For the two registered
    layers the totals are the numbers of distinct names. *)
Theorem C9_welcome_never_empty (u : upstream) (b : backend) :
  welcome_message u b <> ""
  /\ (truthy_opt (_azure_openai_reply b (welcome_prompt u)) = false ->
      welcome_message u b = welcome_fallback u get_layer_registry
      /\ welcome_message u b
         = welcome_intro ++ " For context, currently tracked: "
           ++ Py.str_of_nat (List.length (dengue_unique u)) ++ " dengue hotspots, "
           ++ Py.str_of_nat (List.length (planning_unique u))
           ++ " planning areas (2019).")
  /\ (forall registry,
      let matched := filter (pattern_matches u) registry in
      welcome_fallback u registry <> ""
      /\ (matched = [] -> welcome_fallback u registry = welcome_intro)
      /\ (matched <> [] ->
          welcome_fallback u registry
          = welcome_intro ++ " For context, currently tracked: "
            ++ Py.join ", " (map (welcome_item u) matched) ++ ".")).
Proof.
  split; [|split].
  - unfold welcome_message. cbv zeta.
    destruct (_azure_openai_reply b (welcome_prompt u)) as [[|c r]|];
      cbn [truthy_opt Py.nonempty negb];
      try apply welcome_fallback_nonempty. discriminate.
  - intro H. unfold welcome_message. cbv zeta. rewrite H. cbn [negb].
    split; [reflexivity|].
    unfold welcome_fallback. cbv zeta. rewrite welcome_bits_registry.
    cbn [Py.join String.concat]. now rewrite !app_assoc.
  - intros registry matched. split; [apply welcome_fallback_nonempty|].
    unfold welcome_fallback. cbv zeta. rewrite welcome_bits_items.
    fold matched. split; intro H.
    + now rewrite H.
    + destruct matched; [contradiction | reflexivity].
Qed.

Lemma C9_welcome_never_empty_witness :
  welcome_message some_data unconfigured
  = welcome_intro
    ++ " For context, currently tracked: 3 dengue hotspots, 3 planning areas (2019)."
  /\ welcome_fallback some_data
       [("dengue",
         {| title := "Dengue Hotspots";
            synonyms := [];
            context_builder := fun _ _ => "data is currently unavailable";
            total_regex := total_pattern "unique" |})]
     = welcome_intro.
Proof.
  destruct (C9_welcome_never_empty some_data unconfigured) as (_ & H1 & H2).
  split.
  - destruct (H1 eq_refl) as [_ ->]. vm_compute. reflexivity.
  - apply H2. vm_compute. reflexivity.
Defined.

(** ** Tool calls that name an unknown layer *)

Section UnknownLayers.

Variable layer_names : list string.

Lemma known_layer_In (layer : json) (l : string) :
  known_layer layer_names layer = Some l -> In l layer_names.
Proof.
  destruct layer as [| | |s|]; cbn; try discriminate.
  destruct (existsb (String.eqb s) layer_names) eqn:E; [|discriminate].
  intro H. inversion H; subst. now apply mem_In.
Qed.

(** Such an invocation leaves the intents as they are, and does not
    raise. *)
Lemma unknown_step (call : fn_call) (intents : list intent) :
  names_unknown_layer layer_names call = true ->
  tool_call_step layer_names call intents = Some intents.
Proof.
  unfold names_unknown_layer, tool_call_step. intro H.
  apply andb_true_iff in H as [Hn Ha].
  destruct (args_get (arguments call) "layer") as [layer|]; [|discriminate].
  destruct (known_layer layer_names layer); [discriminate|].
  destruct (is_name (name call) "show_layer"); [reflexivity|].
  cbn [orb] in Hn. now rewrite Hn.
Qed.

Lemma loop_drop_unknown (calls : list fn_call) (intents : list intent) :
  tool_calls_loop layer_names calls intents
  = tool_calls_loop layer_names
      (filter (fun c => negb (names_unknown_layer layer_names c)) calls) intents.
Proof.
  revert intents. induction calls as [|call calls IH]; intro intents; [reflexivity|].
  cbn [tool_calls_loop filter].
  destruct (names_unknown_layer layer_names call) eqn:E; cbn [negb].
  - rewrite unknown_step by assumption. apply IH.
  - cbn [tool_calls_loop].
    destruct (tool_call_step layer_names call intents); [apply IH | reflexivity].
Qed.

Lemma legacy_unknown (fn : fn_call) :
  names_unknown_layer layer_names fn = true -> legacy_call layer_names fn = Some [].
Proof.
  unfold names_unknown_layer, legacy_call, legacy_test. intro H.
  apply andb_true_iff in H as [Hn Ha].
  destruct (args_get (arguments fn) "layer") as [layer|]; [|discriminate].
  destruct (known_layer layer_names layer); [discriminate|].
  destruct (name fn) as [n|]; [|discriminate]. cbn [is_name] in *.
  destruct (String.eqb n "show_layer") eqn:E1.
  - apply String.eqb_eq in E1. subst n. reflexivity.
  - cbn [orb] in Hn. rewrite Hn.
    apply String.eqb_eq in Hn. subst n. reflexivity.
Qed.

Lemma parse_drop_unknown (m : message) :
  parse_message layer_names m = parse_message layer_names (drop_unknown layer_names m).
Proof.
  unfold parse_message, drop_unknown. cbn [content tool_calls function_call].
  rewrite <- loop_drop_unknown.
  destruct (tool_calls_loop layer_names (tool_calls m) []) as [[|it its]|];
    try reflexivity.
  destruct (function_call m) as [fn|]; [|reflexivity].
  destruct (names_unknown_layer layer_names fn) eqn:E; [|reflexivity].
  now rewrite legacy_unknown.
Qed.

Lemma step_known (call : fn_call) (intents intents' : list intent) :
  Forall (layer_known layer_names) intents ->
  tool_call_step layer_names call intents = Some intents' ->
  Forall (layer_known layer_names) intents'.
Proof.
  intros Hk. unfold tool_call_step.
  destruct (is_name (name call) "show_layer").
  - destruct (args_get (arguments call) "layer") as [layer|]; [|discriminate].
    destruct (known_layer layer_names layer) as [l|] eqn:El.
    + apply known_layer_In in El.
      destruct (args_get (arguments call) "fit") as [[| f | | |]|];
        intro H; inversion H; subst; apply Forall_app; split; try assumption;
        now repeat constructor.
    + intro H. now inversion H; subst.
  - destruct (is_name (name call) "hide_layer").
    + destruct (args_get (arguments call) "layer") as [layer|]; [|discriminate].
      destruct (known_layer layer_names layer) as [l|] eqn:El.
      * apply known_layer_In in El.
        intro H; inversion H; subst; apply Forall_app; split; try assumption;
        now repeat constructor.
      * intro H. now inversion H; subst.
    + destruct (is_name (name call) "clear_all");
        intro H; inversion H; subst; try assumption.
      apply Forall_app; split; try assumption. now repeat constructor.
Qed.

Lemma loop_known (calls : list fn_call) (intents intents' : list intent) :
  Forall (layer_known layer_names) intents ->
  tool_calls_loop layer_names calls intents = Some intents' ->
  Forall (layer_known layer_names) intents'.
Proof.
  revert intents. induction calls as [|call calls IH]; intros intents Hk H.
  - cbn in H. now inversion H; subst.
  - cbn [tool_calls_loop] in H.
    destruct (tool_call_step layer_names call intents) as [step|] eqn:E;
      [|discriminate].
    eapply IH; [|exact H]. eapply step_known; eassumption.
Qed.

Lemma legacy_known (fn : fn_call) (intents : list intent) :
  legacy_call layer_names fn = Some intents -> Forall (layer_known layer_names) intents.
Proof.
  unfold legacy_call, legacy_test.
  destruct (is_name (name fn) "show_layer").
  - destruct (args_get (arguments fn) "layer") as [layer|]; [|discriminate].
    destruct (known_layer layer_names layer) as [l|] eqn:El.
    + apply known_layer_In in El. intro H. inversion H; subst.
      now repeat constructor.
    + destruct (is_name (name fn) "hide_layer").
      * destruct (is_name (name fn) "clear_all");
          intro H; inversion H; subst; now repeat constructor.
      * destruct (is_name (name fn) "clear_all");
          intro H; inversion H; subst; now repeat constructor.
  - destruct (is_name (name fn) "hide_layer").
    + destruct (args_get (arguments fn) "layer") as [layer|]; [|discriminate].
      destruct (known_layer layer_names layer) as [l|] eqn:El.
      * apply known_layer_In in El. intro H. inversion H; subst.
        now repeat constructor.
      * destruct (is_name (name fn) "clear_all");
          intro H; inversion H; subst; now repeat constructor.
    + destruct (is_name (name fn) "clear_all");
        intro H; inversion H; subst; now repeat constructor.
Qed.

Lemma parse_known (m : message) (out : tool_out) :
  parse_message layer_names m = Some out -> Forall (layer_known layer_names) (out_intents out).
Proof.
  unfold parse_message.
  destruct (tool_calls_loop layer_names (tool_calls m) []) as [its|] eqn:E;
    [|discriminate].
  pose proof (loop_known _ _ _ (Forall_nil _) E) as Hk.
  destruct its as [|it its].
  - destruct (function_call m) as [fn|].
    + destruct (legacy_call layer_names fn) as [its'|] eqn:El; [|discriminate].
      intro H. inversion H; subst. cbn [out_intents]. now apply legacy_known in El.
    + intro H. inversion H; subst. constructor.
  - intro H. inversion H; subst. exact Hk.
Qed.

End UnknownLayers.

Section WellFormedCalls.

Variable layer_names : list string.

Lemma object_args_get (call : fn_call) (k : string) :
  object_arguments call = true -> args_get (arguments call) k <> None.
Proof. unfold object_arguments. destruct (arguments call); discriminate. Qed.

Lemma step_total (call : fn_call) (intents : list intent) :
  object_arguments call = true ->
  tool_call_step layer_names call intents <> None.
Proof.
  intro H. unfold tool_call_step.
  pose proof (object_args_get call "layer" H) as Hl.
  destruct (args_get (arguments call) "layer") as [layer|]; [|contradiction].
  destruct (is_name (name call) "show_layer").
  - destruct (known_layer layer_names layer); [|discriminate].
    destruct (args_get (arguments call) "fit") as [[| | | |]|]; discriminate.
  - destruct (is_name (name call) "hide_layer").
    + destruct (known_layer layer_names layer); discriminate.
    + destruct (is_name (name call) "clear_all"); discriminate.
Qed.

Lemma loop_total (calls : list fn_call) (intents : list intent) :
  forallb object_arguments calls = true ->
  tool_calls_loop layer_names calls intents <> None.
Proof.
  revert intents. induction calls as [|call calls IH]; intros intents H.
  - discriminate.
  - cbn [forallb] in H. apply andb_true_iff in H as [Hc Hcs].
    cbn [tool_calls_loop].
    pose proof (step_total call intents Hc) as Hs.
    destruct (tool_call_step layer_names call intents); [|contradiction].
    now apply IH.
Qed.

Lemma legacy_total (fn : fn_call) :
  object_arguments fn = true -> legacy_call layer_names fn <> None.
Proof.
  intro H. unfold legacy_call, legacy_test.
  pose proof (object_args_get fn "layer" H) as Hl.
  destruct (args_get (arguments fn) "layer") as [layer|]; [|contradiction].
  destruct (is_name (name fn) "show_layer"), (is_name (name fn) "hide_layer"),
    (is_name (name fn) "clear_all"), (known_layer layer_names layer);
    discriminate.
Qed.

Lemma parse_reply (m : message) (out : tool_out) :
  parse_message layer_names m = Some out -> out_reply out = reply_text m.
Proof.
  unfold parse_message, reply_text.
  destruct (tool_calls_loop layer_names (tool_calls m) []) as [[|it its]|];
    [| |discriminate].
  - destruct (function_call m) as [fn|].
    + destruct (legacy_call layer_names fn); [|discriminate].
      intro H. now inversion H.
    + intro H. now inversion H.
  - intro H. now inversion H.
Qed.

Lemma parse_total (m : message) :
  forallb object_arguments (tool_calls m) = true ->
  match function_call m with
  | Some fn => object_arguments fn = true
  | None => True
  end ->
  parse_message layer_names m <> None.
Proof.
  intros Hc Hf. unfold parse_message.
  pose proof (loop_total (tool_calls m) [] Hc) as Hl.
  destruct (tool_calls_loop layer_names (tool_calls m) []) as [[|it its]|];
    [| discriminate | contradiction].
  destruct (function_call m) as [fn|]; [|discriminate].
  pose proof (legacy_total fn Hf) as H.
  destruct (legacy_call layer_names fn); [discriminate | contradiction].
Qed.

End WellFormedCalls.

(** C5.  When the model answers with action invocations, a [show_layer]
    or [hide_layer] invocation whose [layer] argument is not a key of the
    registry is skipped without raising: the result is the one of the
    same response without these invocations, so the other invocations
    and the reply text are what they would be without them, and every
    layer among the returned intents is a key of the registry.  A
    response all of whose arguments are objects always gives a result. *)
Theorem C5_unknown_layers_dropped (b : backend) (user_message : string) (m : message) :
  configured b = true ->
  post_with_tools b user_message = FirstChoice m ->
  let layer_names := registry_keys get_layer_registry in
  _azure_openai_chat_with_tools b user_message
  = parse_message layer_names (drop_unknown layer_names m)
  /\ (forall call intents,
        names_unknown_layer layer_names call = true ->
        tool_call_step layer_names call intents = Some intents)
  /\ (forall out,
        _azure_openai_chat_with_tools b user_message = Some out ->
        Forall (layer_known layer_names) (out_intents out)
        /\ out_reply out = reply_text m)
  /\ (forallb object_arguments (tool_calls m) = true ->
      match function_call m with
      | Some fn => object_arguments fn = true
      | None => True
      end ->
      exists out, _azure_openai_chat_with_tools b user_message = Some out).
Proof.
  intros Hb Hm layer_names.
  assert (E : _azure_openai_chat_with_tools b user_message
              = parse_message layer_names m).
  { unfold _azure_openai_chat_with_tools. now rewrite Hb, Hm. }
  rewrite E.
  split; [apply parse_drop_unknown|].
  split; [apply unknown_step|].
  split.
  - intros out Hout. split; [now apply parse_known in Hout | now apply parse_reply in Hout].
  - intros Hc Hf. pose proof (parse_total layer_names m Hc Hf) as H.
    destruct (parse_message layer_names m) as [out|]; [now exists out | contradiction].
Qed.

Lemma C5_unknown_layers_dropped_witness :
  _azure_openai_chat_with_tools names_mars "show mars, hide planning, fit dengue"
  = Some {| out_reply := Some "Here you go.";
            out_intents := [hide_layer "planning"; show_layer "dengue" (Some true)] |}.
Proof.
  destruct (C5_unknown_layers_dropped names_mars
              "show mars, hide planning, fit dengue" _ eq_refl eq_refl)
    as (H & _).
  rewrite H. vm_compute. reflexivity.
Defined.

(** * Further properties of the code *)

(** ** More on the rule-based extractor *)

Section ClassifyMore.

Lemma hide_words_edges (w : string) :
  In w hide_words -> starts_nonspace w = true /\ ends_nonspace w = true.
Proof.
  intro H. simpl in H.
  repeat (destruct H as [<-|H]; [split; reflexivity|]). contradiction.
Qed.

Lemma wants_hide_stripped (low w : string) :
  In w hide_words -> Py.contains w low = true ->
  any_in hide_words (Py.strip low) = true.
Proof.
  intros Hw Hc. destruct (hide_words_edges w Hw) as [H1 H2].
  apply any_in_true with (w := w); [assumption|]. now apply contains_strip.
Qed.

Lemma in_classify_layer (message : string) (it : intent) :
  it <> clear_all ->
  In it (_classify_intents message) ->
  In it (layer_intents (Py.strip (Py.lower message))).
Proof.
  intros Hne H. rewrite classify_unfold in H. cbv zeta in H.
  apply in_app_or in H as [H|H]; [|assumption].
  destruct (Re.matches clear_pattern _); simpl in H;
    [destruct H as [E|[]]; now symmetry in E | contradiction].
Qed.

Lemma layer_intents_map (text : string) :
  layer_intents text
  = map (fun entry => if any_in hide_words text
                      then hide_layer (fst entry) else show_layer (fst entry) None)
        (filter (mentions text) get_layer_registry).
Proof.
  unfold layer_intents.
  induction get_layer_registry as [|entry registry IH]; [reflexivity|].
  cbn [flat_map filter]. rewrite IH.
  destruct (mentions text entry); reflexivity.
Qed.

End ClassifyMore.

(** X1.  Hiding wins over everything else: when the lower-cased message
    contains one of the hide words anywhere (also inside a longer word,
    and also next to a show word) every layer it mentions gets a
    [hide_layer] intent and none gets a [show_layer]. *)
Theorem X1_hide_polarity (message key s w : string) (meta : layer_meta) :
  In (key, meta) get_layer_registry ->
  In s (key :: synonyms meta) ->
  Py.contains s (Py.lower message) = true ->
  In w hide_words ->
  Py.contains w (Py.lower message) = true ->
  In (hide_layer key) (_classify_intents message)
  /\ forall l fit, ~ In (show_layer l fit) (_classify_intents message).
Proof.
  intros Hin Hs Hc Hw Hcw.
  pose proof (wants_hide_stripped _ _ Hw Hcw) as Hh.
  split.
  - rewrite classify_unfold. cbv zeta. apply in_or_app. right.
    pose proof (layer_intent_In _ (key, meta) Hin
                  (mentions_stripped _ _ _ _ Hin Hs Hc)) as H.
    now rewrite Hh in H.
  - intros l fit H. apply in_classify_layer in H; [|discriminate].
    apply layer_intents_polarity in H. rewrite Hh in H.
    destruct H as [k E]. discriminate E.
Qed.

Lemma X1_hide_polarity_witness :
  In (hide_layer "dengue") (_classify_intents "Show me the office hotspots")
  /\ forall l fit,
       ~ In (show_layer l fit) (_classify_intents "Show me the office hotspots").
Proof.
  apply (X1_hide_polarity "Show me the office hotspots" "dengue" "hotspot" "off"
           {| title := "Dengue Hotspots";
              synonyms := ["dengue"; "hotspot"; "cluster"; "clusters"];
              context_builder := fun u max_items => _build_dengue_context u max_items;
              total_regex := total_pattern "unique" |}).
  - simpl. left. reflexivity.
  - simpl. right. right. left. reflexivity.
  - vm_compute. reflexivity.
  - simpl. right. left. reflexivity.
  - vm_compute. reflexivity.
Defined.

(** X2.  The shape of a result of the extractor: at most one [clear_all],
    in front; then one intent for each layer the text mentions, in the
    order of the registry and with no layer twice; every layer is a key of
    the registry and no intent carries [fit]; three intents at most. *)
Theorem X2_classify_shape (message : string) :
  let text := Py.strip (Py.lower message) in
  let result := _classify_intents message in
  result
  = ((if Re.matches clear_pattern text then [clear_all] else [])
     ++ map (fun key => if any_in hide_words text
                        then hide_layer key else show_layer key None)
            (map fst (filter (mentions text) get_layer_registry)))%list
  /\ NoDup result
  /\ Forall (layer_known (registry_keys get_layer_registry)) result
  /\ List.length result <= 3.
Proof.
  intros text result. subst result.
  rewrite classify_unfold. cbv zeta. fold text.
  rewrite layer_intents_map, map_map.
  split; [reflexivity|].
  cbn [get_layer_registry filter].
  assert (Hneq : "dengue" <> "planning") by discriminate.
  destruct (Re.matches clear_pattern text), (any_in hide_words text),
    (mentions text _), (mentions text _); cbn [map app fst List.length];
    (split; [repeat (constructor; [simpl; intuition (discriminate || congruence)|]);
             constructor|]);
    (split; [repeat (constructor; [simpl; auto|]); constructor | lia]).
Qed.

(** X3.  "remove all" clears and hides: a message that holds "remove all"
    as whole words, between ASCII characters that are no word characters
    or at an end of the text, gets a [clear_all] intent, and since
    "remove" is also a hide word every other intent of the result is a
    [hide_layer]. *)
Theorem X3_remove_all_hides (message : string) :
  whole_word "remove all" (Py.lower message) ->
  In clear_all (_classify_intents message)
  /\ forall it, In it (_classify_intents message) ->
       it = clear_all \/ exists key, it = hide_layer key.
Proof.
  intro Hword.
  assert (Hh : any_in hide_words (Py.strip (Py.lower message)) = true).
  { apply (wants_hide_stripped _ "remove"); [simpl; auto|].
    destruct Hword as (pre & post & -> & _).
    change "remove all" with ("remove" ++ " all").
    rewrite app_assoc. apply contains_intro. }
  split.
  - rewrite classify_unfold. cbv zeta. apply in_or_app. left.
    rewrite (clear_pattern_finds "remove all");
      [now left | simpl; auto | now apply whole_word_strip].
  - intros it H.
    destruct it as [l f|l|]; [right|right|now left];
      apply in_classify_layer in H; try discriminate;
      apply layer_intents_polarity in H; rewrite Hh in H; exact H.
Qed.

Lemma X3_remove_all_hides_witness :
  _classify_intents "Please remove all, then show planning"
  = [clear_all; hide_layer "planning"]
  /\ In clear_all (_classify_intents "Please remove all, then show planning").
Proof.
  split; [vm_compute; reflexivity|].
  apply (X3_remove_all_hides "Please remove all, then show planning").
  exists "please ", ", then show planning". repeat split.
Defined.

(** ** More on the context builders *)

Section BuildersMore.

Lemma render_no_bullet (pre w tail : string) (unique : list string) (k : Z) :
  no_break pre = true -> no_break w = true -> no_break tail = true ->
  (forall x, Py.startswith "- " (pre ++ x) = false) ->
  Py.slice_to k unique = [] ->
  bullet_lines (render pre w tail unique k) = [].
Proof.
  intros Hp Hw Ht Hb Hs. unfold bullet_lines, render, Py.splitlines. cbv zeta.
  rewrite Hs.
  rewrite splitlines_line by now apply summary_no_break.
  rewrite splitlines_line by reflexivity.
  cbn [append map Py.join String.concat Py.splitlines_from filter].
  now rewrite Hb.
Qed.

Lemma render_bullets_empty_iff (pre w tail : string) (unique : list string) (k : Z) :
  no_break pre = true -> no_break w = true -> no_break tail = true ->
  (forall x, Py.startswith "- " (pre ++ x) = false) ->
  bullet_lines (render pre w tail unique k) = [] <-> Py.slice_to k unique = [].
Proof.
  intros Hp Hw Ht Hb. split.
  - intro H. destruct (Py.slice_to k unique) as [|n l] eqn:E; [reflexivity|].
    exfalso. apply (render_has_bullet pre w tail unique k); try assumption.
    now rewrite E.
  - now apply render_no_bullet.
Qed.

Lemma dedup_length (names : list string) :
  List.length (dedup names) <= List.length names.
Proof.
  induction names as [|n names IH]; [apply Nat.le_refl|].
  rewrite dedup_cons. cbn [List.length].
  pose proof (filter_length_le (differs n) (dedup names)). lia.
Qed.

Lemma dengue_names_length (feats : list feature) :
  List.length (dengue_names feats) <= List.length feats.
Proof.
  unfold dengue_names. induction feats as [|f feats IH]; [apply Nat.le_refl|].
  cbn [flat_map]. rewrite List.length_app. cbn [List.length].
  destruct (truthy _); cbn [List.length]; lia.
Qed.

Lemma planning_names_length (feats : list feature) :
  List.length (planning_names feats) <= List.length feats.
Proof.
  unfold planning_names. induction feats as [|f feats IH]; [apply Nat.le_refl|].
  cbn [flat_map]. rewrite List.length_app. cbn [List.length].
  destruct (truthy _); cbn [List.length]; lia.
Qed.

Lemma drop_bullets (sample : list string) :
  map (Py.drop 2) (map bullet sample) = sample.
Proof.
  induction sample as [|x l IH]; [reflexivity|]. cbn [map]. now rewrite IH.
Qed.

End BuildersMore.

(** X4.  The layout of a context, for every [max_items], negative ones
    included, when the names hold no line boundary of [str.splitlines]
    (U+0085, U+2028 and U+2029 included): the summary line, a
    line [List (first k):] whose [k] is the number of bulleted lines that
    follow, and nothing else; cutting the two-character marker off the
    bulleted lines gives back the sampled names, in order. *)
Theorem X4_context_layout (u : upstream) (max_items : Z) :
  (Forall (fun n => one_line n = true) (dengue_unique u) ->
   let ctx := _build_dengue_context u max_items in
   Py.splitlines ctx
   = ("Latest dengue clusters: "
      ++ Py.str_of_nat (List.length (dengue_unique u)) ++ " unique clusters.")
     :: ("List (first " ++ Py.str_of_nat (List.length (bullet_lines ctx)) ++ "):")
     :: bullet_lines ctx
   /\ map (Py.drop 2) (bullet_lines ctx) = Py.slice_to max_items (dengue_unique u))
  /\
  (Forall (fun n => one_line n = true) (planning_unique u) ->
   let ctx := _planning_context_builder u max_items in
   Py.splitlines ctx
   = ("Planning areas (year=2019): "
      ++ Py.str_of_nat (List.length (planning_unique u)) ++ " total.")
     :: ("List (first " ++ Py.str_of_nat (List.length (bullet_lines ctx)) ++ "):")
     :: bullet_lines ctx
   /\ map (Py.drop 2) (bullet_lines ctx) = Py.slice_to max_items (planning_unique u)).
Proof.
  split; intros Hn ctx; subst ctx; apply one_line_no_break in Hn.
  - rewrite dengue_bullet_lines by assumption.
    rewrite dengue_context_render, render_lines by (assumption || reflexivity).
    rewrite length_map, drop_bullets. split; reflexivity.
  - rewrite planning_bullet_lines by assumption.
    rewrite planning_context_render, render_lines by (assumption || reflexivity).
    rewrite length_map, drop_bullets. split; reflexivity.
Qed.

Lemma X4_context_layout_witness :
  Py.splitlines (_build_dengue_context some_data (-1))
  = ["Latest dengue clusters: 3 unique clusters."; "List (first 2):"; "- A"; "- B"]
  /\ map (Py.drop 2) (bullet_lines (_build_dengue_context some_data (-1))) = ["A"; "B"].
Proof.
  destruct (X4_context_layout some_data (-1)) as [H _].
  destruct H as [H1 H2].
  - repeat constructor.
  - split; [rewrite H1 | rewrite H2]; vm_compute; reflexivity.
Defined.

(** X5.  A context has no bulleted line exactly when the sample is empty,
    whatever characters the names hold; so with a positive [max_items] a
    builder lists nothing exactly when no fetched feature has a name that
    resolves (a failed fetch included). *)
Theorem X5_empty_listing (u : upstream) (max_items : Z) :
  (bullet_lines (_build_dengue_context u max_items) = []
   <-> Py.slice_to max_items (dengue_unique u) = [])
  /\ (bullet_lines (_planning_context_builder u max_items) = []
      <-> Py.slice_to max_items (planning_unique u) = [])
  /\ ((0 < max_items)%Z ->
      (bullet_lines (_build_dengue_context u max_items) = []
       <-> dengue_names (_get_dengue_features u) = [])
      /\ (bullet_lines (_planning_context_builder u max_items) = []
          <-> planning_names (_get_planning_features u (Some "2019")) = [])).
Proof.
  assert (Hd : bullet_lines (_build_dengue_context u max_items) = []
               <-> Py.slice_to max_items (dengue_unique u) = []).
  { rewrite dengue_context_render. now apply render_bullets_empty_iff. }
  assert (Hp : bullet_lines (_planning_context_builder u max_items) = []
               <-> Py.slice_to max_items (planning_unique u) = []).
  { rewrite planning_context_render. now apply render_bullets_empty_iff. }
  split; [exact Hd|]. split; [exact Hp|].
  intro Hk.
  assert (Hs : forall l : list string, Py.slice_to max_items l = [] <-> l = []).
  { intro l. rewrite slice_to_nonneg by lia. split; [|intros ->; apply firstn_nil].
    destruct l; [reflexivity|]. destruct (Z.to_nat max_items) eqn:E; [lia|discriminate]. }
  split.
  - rewrite Hd, Hs. apply dedup_nil_iff.
  - rewrite Hp, Hs. apply dedup_nil_iff.
Qed.

Lemma X5_empty_listing_witness :
  bullet_lines (_build_dengue_context no_data 50) = []
  /\ bullet_lines (_planning_context_builder planning_only 50) <> [].
Proof.
  destruct (X5_empty_listing no_data 50) as (_ & _ & H).
  destruct (X5_empty_listing planning_only 50) as (_ & _ & H').
  split.
  - apply (proj1 (H eq_refl)). reflexivity.
  - intro E. apply (proj2 (H' eq_refl)) in E. discriminate E.
Defined.

(** X6.  The total a builder reports never exceeds the number of fetched
    features: every feature gives at most one name and de-duplication
    only removes names. *)
Theorem X6_total_bound (u : upstream) (max_items : Z) :
  extract_total (total_pattern "unique") (_build_dengue_context u max_items)
  <= List.length (_get_dengue_features u)
  /\ extract_total (total_pattern "total") (_planning_context_builder u max_items)
     <= List.length (_get_planning_features u (Some "2019")).
Proof.
  rewrite dengue_total, planning_total. unfold dengue_unique, planning_unique.
  split; (eapply Nat.le_trans; [apply dedup_length|]).
  - apply dengue_names_length.
  - apply planning_names_length.
Qed.

(** ** More on the parsing of tool calls *)

Section ToolsMore.

Variable layer_names : list string.

Lemma raises_step (call : fn_call) (intents : list intent) :
  raises call = true -> tool_call_step layer_names call intents = None.
Proof.
  unfold raises, tool_call_step. intro H.
  apply andb_true_iff in H as [Hn Ha].
  destruct (arguments call); try discriminate. cbn [args_get].
  destruct (is_name (name call) "show_layer"); [reflexivity|].
  cbn [orb] in Hn. now rewrite Hn.
Qed.

Lemma raises_loop (calls : list fn_call) (intents : list intent) :
  existsb raises calls = true -> tool_calls_loop layer_names calls intents = None.
Proof.
  revert intents. induction calls as [|call calls IH]; intros intents H;
    [discriminate|].
  cbn [existsb] in H. cbn [tool_calls_loop].
  destruct (raises call) eqn:E.
  - now rewrite raises_step.
  - cbn [orb] in H.
    destruct (tool_call_step layer_names call intents); [now apply IH | reflexivity].
Qed.

Lemma rstrip_ends (t : string) :
  Py.rstrip t <> "" -> ends_nonspace (Py.rstrip t) = true.
Proof.
  induction t as [|c t IH]; [intro H; now contradiction H|].
  cbn [Py.rstrip]. destruct (Py.rstrip t) as [|d r] eqn:E.
  - destruct (Py.is_space c) eqn:Ec; [intro H; now contradiction H|].
    intros _. cbn [ends_nonspace]. now rewrite Ec.
  - intros _. cbn [ends_nonspace]. apply IH. discriminate.
Qed.

Lemma lstrip_starts (s : string) :
  Py.lstrip s <> "" -> starts_nonspace (Py.lstrip s) = true.
Proof.
  induction s as [|c s IH]; [intro H; now contradiction H|].
  cbn [Py.lstrip]. destruct (Py.is_space c) eqn:Ec; [exact IH|].
  intros _. cbn [starts_nonspace]. now rewrite Ec.
Qed.

Lemma rstrip_keeps_start (t : string) :
  starts_nonspace t = true -> starts_nonspace (Py.rstrip t) = true.
Proof.
  destruct t as [|c t]; [discriminate|]. cbn [starts_nonspace Py.rstrip].
  intro H. destruct (Py.rstrip t).
  - apply negb_true_iff in H. rewrite H. cbn [starts_nonspace]. now rewrite H.
  - exact H.
Qed.

Lemma lstrip_fixed (t : string) : starts_nonspace t = true -> Py.lstrip t = t.
Proof.
  destruct t as [|c t]; [discriminate|]. cbn [starts_nonspace Py.lstrip].
  intro H. apply negb_true_iff in H. now rewrite H.
Qed.

Lemma rstrip_fixed (t : string) : ends_nonspace t = true -> Py.rstrip t = t.
Proof.
  intro H. pose proof (rstrip_app t "" H) as E.
  now rewrite !app_nil_r in E.
Qed.

(** Stripping twice is stripping once. *)
Lemma strip_strip (s : string) : Py.strip (Py.strip s) = Py.strip s.
Proof.
  unfold Py.strip.
  destruct (Py.lstrip s) as [|c t] eqn:E; [reflexivity|].
  assert (Hs : starts_nonspace (String c t) = true).
  { rewrite <- E. apply lstrip_starts. rewrite E. discriminate. }
  pose proof (rstrip_keeps_start _ Hs) as Hs'.
  rewrite (lstrip_fixed _ Hs').
  apply rstrip_fixed, rstrip_ends.
  intro H. rewrite H in Hs'. discriminate Hs'.
Qed.

Lemma reply_text_trimmed (m : message) (r : string) :
  reply_text m = Some r -> r <> "" /\ Py.strip r = r.
Proof.
  unfold reply_text. cbv zeta.
  destruct (Py.nonempty (Py.strip _)) eqn:E; [|discriminate].
  intro H. inversion H; subst r. split.
  - intro H0. now rewrite H0 in E.
  - apply strip_strip.
Qed.

Lemma loop_legacy_ignored (m : message) (it : intent) (its : list intent) :
  tool_calls_loop layer_names (tool_calls m) [] = Some (it :: its) ->
  parse_message layer_names m
  = Some {| out_reply := reply_text m; out_intents := it :: its |}.
Proof. intro H. unfold parse_message, reply_text. now rewrite H. Qed.

Lemma legacy_shape (fn : fn_call) (its : list intent) :
  legacy_call layer_names fn = Some its ->
  List.length its <= 1 /\ forall l f, In (show_layer l f) its -> f = None.
Proof.
  unfold legacy_call. intro H.
  destruct (legacy_test layer_names fn "show_layer") as [[l|]|]; [| |discriminate].
  - inversion H; subst. split; [apply Nat.le_refl|].
    intros l' f [E|[]]. now inversion E.
  - destruct (legacy_test layer_names fn "hide_layer") as [[l|]|]; [| |discriminate].
    + inversion H; subst. split; [apply Nat.le_refl|].
      intros l' f [E|[]]. discriminate E.
    + destruct (is_name (name fn) "clear_all"); inversion H; subst;
        (split; [cbn; lia|]); intros l' f Hin; simpl in Hin;
        intuition discriminate.
Qed.

End ToolsMore.

Section ToolsChat.

Lemma tools_known (b : backend) (e : string) (t : tool_out) :
  _azure_openai_chat_with_tools b e = Some t ->
  Forall (layer_known (registry_keys get_layer_registry)) (out_intents t).
Proof.
  unfold _azure_openai_chat_with_tools.
  destruct (configured b); [|discriminate]. cbn [negb].
  destruct (post_with_tools b e) as [| |m]; [discriminate| |].
  - intro H. inversion H; subst. constructor.
  - apply parse_known.
Qed.

Lemma classify_known (message : string) :
  Forall (layer_known (registry_keys get_layer_registry)) (_classify_intents message).
Proof.
  rewrite classify_unfold. cbv zeta. rewrite layer_intents_map.
  apply Forall_app. split.
  - destruct (Re.matches clear_pattern _); repeat constructor.
  - apply Forall_map, Forall_forall. intros entry Hin.
    apply filter_In in Hin as [Hin _].
    assert (Hk : In (fst entry) (registry_keys get_layer_registry))
      by (unfold registry_keys; now apply in_map).
    destruct (any_in hide_words _); exact Hk.
Qed.

(** The rule-based branch, when the tool-calling call gave nothing. *)
Lemma chat_rule_branch (u : upstream) (b : backend) (message : string) :
  message <> "" ->
  _azure_openai_chat_with_tools b (enrich u message) = None ->
  intents (chat_api u b message) = _classify_intents message
  /\ reply (chat_api u b message) <> "".
Proof.
  intros Hm Ht. unfold chat_api.
  destruct message; [contradiction|]. cbn [Py.nonempty negb].
  rewrite Ht. cbn [intents reply]. split; [reflexivity|].
  apply static_reply_nonempty.
Qed.

End ToolsChat.

(** X7.  One invocation can lose the whole answer of the model: when a
    [show_layer] or [hide_layer] invocation among the tool calls has
    arguments that decode to JSON other than an object (a list, a string,
    a number, null), reading its layer raises, the handler around the
    whole call returns nothing, and the chat endpoint answers as if the
    model had failed, with the rule-based intents and a non-empty reply. *)
Theorem X7_non_object_arguments (u : upstream) (b : backend) (msg : string)
    (m : message) :
  msg <> "" ->
  configured b = true ->
  post_with_tools b (enrich u msg) = FirstChoice m ->
  existsb raises (tool_calls m) = true ->
  _azure_openai_chat_with_tools b (enrich u msg) = None
  /\ intents (chat_api u b msg) = _classify_intents msg
  /\ reply (chat_api u b msg) <> "".
Proof.
  intros Hm Hb Hp Hr.
  assert (E : _azure_openai_chat_with_tools b (enrich u msg) = None).
  { unfold _azure_openai_chat_with_tools. rewrite Hb, Hp. cbn [negb].
    unfold parse_message. now rewrite raises_loop. }
  split; [exact E|]. now apply chat_rule_branch.
Qed.

Lemma X7_non_object_arguments_witness :
  _azure_openai_chat_with_tools list_arguments (enrich no_data "planning please") = None
  /\ intents (chat_api no_data list_arguments "planning please")
     = _classify_intents "planning please"
  /\ reply (chat_api no_data list_arguments "planning please") <> "".
Proof.
  apply (X7_non_object_arguments no_data list_arguments "planning please"
           list_arguments_message);
    [discriminate | reflexivity | reflexivity | reflexivity].
Defined.

(** X8.  The text the model calls hand back is trimmed.  The tool-calling
    call returns its text stripped and never the empty string (blank
    content counts as no text).  The plain call returns its content
    stripped too, but for blank content it returns the empty string
    rather than nothing. *)
Theorem X8_reply_trimmed (b : backend) (user_message : string) :
  (forall t r,
     _azure_openai_chat_with_tools b user_message = Some t ->
     out_reply t = Some r -> r <> "" /\ Py.strip r = r)
  /\ (forall r, _azure_openai_reply b user_message = Some r -> Py.strip r = r)
  /\ (_azure_openai_reply b user_message = Some ""
      <-> configured b = true
          /\ exists c, post_plain b user_message = Some c
                       /\ c <> "" /\ Py.strip c = "").
Proof.
  split; [|split].
  - intros t r Ht Hr. unfold _azure_openai_chat_with_tools in Ht.
    destruct (configured b); [|discriminate]. cbn [negb] in Ht.
    destruct (post_with_tools b user_message) as [| |m]; [discriminate| |].
    + inversion Ht; subst. discriminate Hr.
    + apply parse_reply in Ht. rewrite Hr in Ht. symmetry in Ht.
      now apply reply_text_trimmed in Ht.
  - intros r. unfold _azure_openai_reply.
    destruct (configured b); [|discriminate]. cbn [negb].
    destruct (post_plain b user_message) as [c|]; [|discriminate].
    destruct (Py.nonempty c); [|discriminate].
    intro H. inversion H; subst. apply strip_strip.
  - unfold _azure_openai_reply. split.
    + destruct (configured b); [|discriminate]. cbn [negb].
      destruct (post_plain b user_message) as [c|]; [|discriminate].
      destruct c as [|x c]; [discriminate|]. cbn [Py.nonempty].
      intro H. assert (E : Py.strip (String x c) = "") by congruence.
      split; [reflexivity|].
      exists (String x c). split; [reflexivity|]. split; [discriminate | exact E].
    + intros (-> & c & -> & Hc & Hs). cbn [negb].
      destruct c; [contradiction|]. cbn [Py.nonempty]. now rewrite Hs.
Qed.

(** X9.  The older [function_call] shape is read only when the tool calls
    gave no intent: as soon as they give one, the result is theirs and the
    [function_call] is not looked at, whatever it holds.  When it is
    read, it gives one intent at most, and never a [fit]. *)
Theorem X9_legacy_call (layer_names : list string) (m : message) :
  (forall it its,
     tool_calls_loop layer_names (tool_calls m) [] = Some (it :: its) ->
     parse_message layer_names m
     = Some {| out_reply := reply_text m; out_intents := it :: its |})
  /\ (forall out,
        tool_calls_loop layer_names (tool_calls m) [] = Some [] ->
        parse_message layer_names m = Some out ->
        List.length (out_intents out) <= 1
        /\ forall l f, In (show_layer l f) (out_intents out) -> f = None).
Proof.
  split; [apply loop_legacy_ignored|].
  intros out Hl H. unfold parse_message in H. rewrite Hl in H.
  destruct (function_call m) as [fn|].
  - destruct (legacy_call layer_names fn) as [its|] eqn:E; [|discriminate].
    inversion H; subst. cbn [out_intents]. now apply legacy_shape in E.
  - inversion H; subst. cbn [out_intents]. split; [cbn; lia|].
    intros l f [].
Qed.

Lemma X9_legacy_call_witness :
  parse_message ["dengue"; "planning"] legacy_unread_message
  = Some {| out_reply := None; out_intents := [clear_all] |}.
Proof.
  exact (proj1 (X9_legacy_call ["dengue"; "planning"] legacy_unread_message)
           clear_all [] eq_refl).
Defined.

(** ** More on the chat endpoint *)

Section ChatMore.

Lemma list_bucket_blocks (u : upstream) (targets : list string) :
  list_bucket u get_layer_registry targets = flat_map (list_block u) targets.
Proof. reflexivity. Qed.

(** A key is one of the two registered ones, or unknown to the registry. *)
Lemma key_cases (key : string) :
  key = "dengue" \/ key = "planning"
  \/ (String.eqb key "dengue" = false /\ String.eqb key "planning" = false).
Proof.
  destruct (String.eqb_spec key "dengue"); [now left|].
  destruct (String.eqb_spec key "planning"); [now right; left|].
  right. right. now split.
Qed.

Lemma list_block_nonempty (u : upstream) (key x : string) :
  In x (list_block u key) -> x <> "".
Proof.
  unfold list_block. destruct (registry_get get_layer_registry key) as [meta|];
    [|contradiction].
  cbv zeta. destruct (bullet_lines _); [contradiction|]. intros [<-|[]].
  unfold title_of. intro E.
  destruct (Py.nonempty (title meta)) eqn:Et.
  - apply app_eq_nil in E as [E _]. now rewrite E in Et.
  - apply app_eq_nil in E as [_ E]. discriminate E.
Qed.

Lemma bucket_join_truthy (u : upstream) (targets : list string) (x : string)
    (xs : list string) :
  list_bucket u get_layer_registry targets = x :: xs ->
  truthy_opt (Some (Py.join (LF ++ LF) (x :: xs))) = true.
Proof.
  intro E.
  assert (Hx : x <> "").
  { assert (Hin : In x (flat_map (list_block u) targets))
      by (rewrite <- list_bucket_blocks, E; now left).
    apply in_flat_map in Hin as (key & _ & Hin).
    now apply list_block_nonempty in Hin. }
  pose proof (join_nonempty (LF ++ LF) x xs Hx) as Hj.
  cbn [truthy_opt]. destruct (Py.join _ _); [contradiction | reflexivity].
Qed.

(** When the list flow gives an answer, the fallback of the tool branch
    stops at it as the rule-based branch does. *)
Lemma tool_fallback_list (u : upstream) (msg r : string) :
  Re.matches list_pattern (Py.lower msg) = true ->
  rule_branch_answer u msg = Some r ->
  tool_branch_fallback u msg = Some r.
Proof.
  unfold tool_branch_fallback, rule_branch_answer. cbv zeta. intros ->.
  destruct (list_bucket u get_layer_registry _) as [|x xs] eqn:E; [discriminate|].
  intro H. now rewrite (bucket_join_truthy u _ x xs E).
Qed.

Lemma rule_answer_truthy (u : upstream) (msg : string) :
  rule_branch_answer u msg = None
  \/ exists r, rule_branch_answer u msg = Some r /\ r <> "".
Proof.
  unfold rule_branch_answer. cbv zeta.
  destruct (Re.matches list_pattern _).
  - destruct (list_bucket u get_layer_registry _) as [|x xs] eqn:E; [now left|].
    right. eexists. split; [reflexivity|].
    pose proof (bucket_join_truthy u _ x xs E) as H. cbn [truthy_opt] in H.
    intro H0. now rewrite H0 in H.
  - destruct (Re.matches summarize_pattern _); [|now left].
    rewrite summary_pieces_sentences.
    destruct (flat_map _ _) as [|x xs] eqn:E; [now left|].
    right. eexists. split; [reflexivity|].
    apply join_nonempty.
    assert (Hx : In x (flat_map (summary_sentence u)
                   (_detect_layers get_layer_registry (Py.lower msg))))
      by (rewrite E; now left).
    apply in_flat_map in Hx as (key & _ & Hx).
    now apply summary_sentence_nonempty in Hx.
Qed.

(** Every intent over the registry's layers has its phrase. *)
Lemma phrase_of_known (it : intent) :
  layer_known (registry_keys get_layer_registry) it ->
  exists p, phrase_of it = [p] /\ p <> "".
Proof.
  destruct it as [l f|l|]; cbn [layer_known registry_keys get_layer_registry map fst In].
  - intros [<-|[<-|[]]]; eexists; (split; [reflexivity | discriminate]).
  - intros [<-|[<-|[]]]; eexists; (split; [reflexivity | discriminate]).
  - intros _. eexists; (split; [reflexivity | discriminate]).
Qed.

Lemma phrases_length (its : list intent) :
  Forall (layer_known (registry_keys get_layer_registry)) its ->
  List.length (flat_map phrase_of its) = List.length its
  /\ Forall (fun p => p <> "") (flat_map phrase_of its).
Proof.
  induction 1 as [|it its Hit _ [IH1 IH2]]; [split; [reflexivity | constructor]|].
  destruct (phrase_of_known it Hit) as (p & E & Hp).
  cbn [flat_map]. rewrite E. cbn [app List.length]. split; [now rewrite IH1|].
  now constructor.
Qed.

Lemma truthy_opt_false (r : option string) :
  truthy_opt r = false -> r = None \/ r = Some "".
Proof. destruct r as [[|c s]|]; cbn; intro H; auto. discriminate H. Qed.

End ChatMore.

Section ChatReplies.

Lemma phrases_nonempty (its : list intent) :
  Forall (fun p => p <> "") (flat_map phrase_of its).
Proof.
  induction its as [|it its IH]; [constructor|].
  cbn [flat_map]. apply Forall_app. split; [|assumption].
  destruct it as [l f|l|]; cbn [phrase_of];
    repeat (match goal with |- context [if ?c then _ else _] => destruct c end);
    repeat constructor; discriminate.
Qed.

Lemma join_truthy (sep x : string) (xs : list string) :
  x <> "" -> truthy_opt (Some (Py.join sep (x :: xs))) = true.
Proof.
  intro H. pose proof (join_nonempty sep x xs H) as Hj.
  cbn [truthy_opt]. destruct (Py.join _ _); [contradiction | reflexivity].
Qed.

(** The reply of the rule-based branch, step by step. *)
Lemma chat_rule_reply (u : upstream) (b : backend) (msg : string) :
  msg <> "" ->
  _azure_openai_chat_with_tools b (enrich u msg) = None ->
  reply (chat_api u b msg) =
  match rule_branch_answer u msg with
  | Some r => r
  | None =>
      match flat_map phrase_of (_classify_intents msg) with
      | [] =>
          match _azure_openai_reply b (enrich u msg) with
          | Some a => if Py.nonempty a then a else static_reply
          | None => static_reply
          end
      | phrases => Py.join " " phrases
      end
  end.
Proof.
  intros Hm Ht. unfold chat_api.
  destruct msg as [|c0 msg0] eqn:Em; [contradiction|]. rewrite <- Em in *.
  replace (Py.nonempty msg) with true by now rewrite Em.
  cbn [negb]. rewrite Ht. cbn [reply].
  destruct (rule_answer_truthy u msg) as [E|(r & E & Hr)]; rewrite E.
  - cbn [truthy_opt negb andb].
    destruct (_classify_intents msg) as [|it its] eqn:Ec.
    + cbn [List.length Nat.eqb negb flat_map truthy_opt andb].
      rewrite andb_true_r.
      destruct (_azure_openai_reply b (enrich u msg)) as [[|a0 a]|];
        reflexivity.
    + cbn [List.length Nat.eqb negb].
      destruct (flat_map phrase_of (it :: its)) as [|p ps] eqn:Ep.
      * cbn [truthy_opt negb andb]. rewrite andb_true_r.
        destruct (_azure_openai_reply b (enrich u msg)) as [[|a0 a]|];
          reflexivity.
      * assert (Hp : p <> "").
        { pose proof (phrases_nonempty (it :: its)) as H. rewrite Ep in H.
          now inversion H. }
        rewrite (join_truthy " " p ps Hp). cbn [negb]. rewrite andb_false_r.
        rewrite (join_truthy " " p ps Hp). reflexivity.
  - destruct r as [|c r]; [contradiction|].
    cbn [truthy_opt Py.nonempty negb andb]. rewrite andb_false_r. reflexivity.
Qed.

Lemma chat_tool_branch (u : upstream) (b : backend) (msg : string) (t : tool_out) :
  msg <> "" ->
  _azure_openai_chat_with_tools b (enrich u msg) = Some t ->
  intents (chat_api u b msg)
  = match out_intents t with
    | [] => _classify_intents msg
    | its => its
    end
  /\ (forall r, out_reply t = Some r -> r <> "" -> reply (chat_api u b msg) = r).
Proof.
  intros Hm Ht. unfold chat_api.
  destruct msg as [|c0 msg0] eqn:Em; [contradiction|]. rewrite <- Em in *.
  replace (Py.nonempty msg) with true by now rewrite Em.
  cbn [negb]. rewrite Ht. cbn [reply intents]. split; [reflexivity|].
  intros r Hr Hne. rewrite Hr. destruct r as [|c r]; [contradiction|].
  reflexivity.
Qed.

End ChatReplies.

(** X10.  Whatever the model answers and whatever the message is, the
    chat endpoint never returns an intent for a layer that is not a key of
    the registry. *)
Theorem X10_chat_intents_known (u : upstream) (b : backend) (msg : string) :
  Forall (layer_known (registry_keys get_layer_registry)) (intents (chat_api u b msg)).
Proof.
  destruct msg as [|c0 msg0] eqn:Em; [constructor|]. rewrite <- Em.
  assert (Hm : msg <> "") by (rewrite Em; discriminate).
  destruct (_azure_openai_chat_with_tools b (enrich u msg)) as [t|] eqn:Et.
  - destruct (chat_tool_branch u b msg t Hm Et) as [-> _].
    pose proof (tools_known _ _ _ Et) as Hk.
    destruct (out_intents t); [apply classify_known | exact Hk].
  - destruct (chat_rule_branch u b msg Hm Et) as [-> _]. apply classify_known.
Qed.

(** X11.  A backend whose calls fail is the same as no backend: when the
    tool-calling call fails and the plain call gives no content, the chat
    endpoint returns exactly what it returns with no model configured. *)
Theorem X11_failing_backend (u : upstream) (b : backend) (msg : string) :
  post_with_tools b (enrich u msg) = CallFailed ->
  post_plain b (enrich u msg) = None ->
  chat_api u b msg = chat_api u unconfigured msg.
Proof.
  intros Ht Hp. unfold chat_api, _azure_openai_chat_with_tools, _azure_openai_reply.
  rewrite Ht, Hp. cbn [configured unconfigured negb].
  now destruct (configured b).
Qed.

Lemma X11_failing_backend_witness :
  chat_api some_data always_failing "clear"
  = {| reply := "Clearing map overlays."; intents := [clear_all] |}.
Proof.
  rewrite (X11_failing_backend some_data always_failing "clear" eq_refl eq_refl).
  vm_compute. reflexivity.
Defined.

(** X12.  The text of the model wins: when the tool-calling call returns
    text, the reply is that text, whatever the message says and whatever
    the data is; the intents are those of the model when it gave any, and
    the rule-based ones otherwise. *)
Theorem X12_model_text_wins (u : upstream) (b : backend) (msg : string)
    (t : tool_out) (r : string) :
  msg <> "" ->
  _azure_openai_chat_with_tools b (enrich u msg) = Some t ->
  out_reply t = Some r ->
  reply (chat_api u b msg) = r
  /\ intents (chat_api u b msg)
     = match out_intents t with
       | [] => _classify_intents msg
       | its => its
       end.
Proof.
  intros Hm Ht Hr.
  destruct (chat_tool_branch u b msg t Hm Ht) as [Hi Hrep].
  split; [|exact Hi]. apply Hrep; [assumption|].
  assert (H : forall t' r', _azure_openai_chat_with_tools b (enrich u msg) = Some t' ->
              out_reply t' = Some r' -> r' <> "").
  { intros t' r' Ht' Hr'. unfold _azure_openai_chat_with_tools in Ht'.
    destruct (configured b); [|discriminate]. cbn [negb] in Ht'.
    destruct (post_with_tools b (enrich u msg)) as [| |m]; [discriminate| |].
    - inversion Ht'; subst. discriminate Hr'.
    - apply parse_reply in Ht'. rewrite Hr' in Ht'. symmetry in Ht'.
      now apply reply_text_trimmed in Ht'. }
  now apply (H t r).
Qed.

Lemma X12_model_text_wins_witness :
  reply (chat_api some_data text_only "show clusters") = "There are 3 clusters."
  /\ intents (chat_api some_data text_only "show clusters")
     = [show_layer "dengue" None].
Proof.
  destruct (X12_model_text_wins some_data text_only "show clusters"
              {| out_reply := Some "There are 3 clusters."; out_intents := [] |}
              "There are 3 clusters.") as [H1 H2];
    [discriminate | vm_compute; reflexivity | reflexivity |].
  split; [exact H1|]. rewrite H2. vm_compute. reflexivity.
Defined.

(** X14.  The order of the rule-based branch.  When the tool-calling call
    gives nothing, the reply is the list or summary answer when there is
    one; else the fixed phrases of the rule-based intents, one for each
    intent, joined by spaces, whatever the plain model call says; else the
    reply of the plain model call when it is not empty; else the static
    message. *)
Theorem X14_rule_branch_order (u : upstream) (b : backend) (msg : string) :
  msg <> "" ->
  _azure_openai_chat_with_tools b (enrich u msg) = None ->
  (forall r, rule_branch_answer u msg = Some r -> reply (chat_api u b msg) = r)
  /\ (rule_branch_answer u msg = None ->
      _classify_intents msg <> [] ->
      reply (chat_api u b msg) = Py.join " " (flat_map phrase_of (_classify_intents msg))
      /\ List.length (flat_map phrase_of (_classify_intents msg))
         = List.length (_classify_intents msg))
  /\ (rule_branch_answer u msg = None ->
      _classify_intents msg = [] ->
      reply (chat_api u b msg)
      = match _azure_openai_reply b (enrich u msg) with
        | Some a => if Py.nonempty a then a else static_reply
        | None => static_reply
        end).
Proof.
  intros Hm Ht. pose proof (chat_rule_reply u b msg Hm Ht) as H.
  split; [|split].
  - intros r Hr. now rewrite Hr in H.
  - intros Hr Hi. rewrite Hr in H.
    destruct (phrases_length _ (classify_known msg)) as [Hlen _].
    split; [|exact Hlen].
    destruct (flat_map phrase_of (_classify_intents msg)) as [|p ps] eqn:Ep;
      [|exact H].
    destruct (_classify_intents msg); [contradiction | discriminate Hlen].
  - intros Hr Hi. rewrite Hr, Hi in H. exact H.
Qed.

Lemma X14_rule_branch_order_witness :
  reply (chat_api some_data unconfigured "reset and hide the boundaries")
  = "Clearing map overlays. Hiding planning area boundaries.".
Proof.
  destruct (X14_rule_branch_order some_data unconfigured
              "reset and hide the boundaries") as (_ & H & _);
    [discriminate | reflexivity |].
  destruct H as [-> _]; [vm_compute; reflexivity | vm_compute; discriminate |].
  vm_compute. reflexivity.
Defined.

Section ListFlow.

Lemma first_hundred (l : list string) :
  firstn 100 (map bullet (Py.slice_to 300 l)) = map bullet (firstn 100 l).
Proof.
  rewrite slice_to_nonneg by lia.
  rewrite firstn_map, firstn_firstn. reflexivity.
Qed.

Lemma bullets_match_nil (l : list string) :
  map bullet (Py.slice_to 300 l) = [] <-> l = [].
Proof.
  split; [|now intros ->].
  destruct l; [reflexivity | discriminate].
Qed.

Lemma list_block_section (u : upstream) (key : string) :
  Forall (fun n => no_break n = true) (layer_unique u key) ->
  list_block u key = list_section u key.
Proof.
  unfold list_block, list_section, layer_title, layer_unique.
  destruct (key_cases key) as [->|[->|[H1 H2]]].
  - cbn [registry_get get_layer_registry String.eqb Ascii.eqb Bool.eqb
         context_builder]. cbv zeta. intro H.
    rewrite dengue_bullet_lines by assumption.
    rewrite first_hundred.
    destruct (dengue_unique u) as [|x l]; reflexivity.
  - cbn [registry_get get_layer_registry String.eqb Ascii.eqb Bool.eqb
         context_builder]. cbv zeta. intro H.
    rewrite planning_bullet_lines by assumption.
    rewrite first_hundred.
    destruct (planning_unique u) as [|x l]; reflexivity.
  - intros _. cbn [registry_get get_layer_registry]. 
    rewrite (String.eqb_sym "dengue" key), (String.eqb_sym "planning" key).
    now rewrite H1, H2.
Qed.

Lemma rule_answer_list (u : upstream) (msg : string) :
  Re.matches list_pattern (Py.lower msg) = true ->
  Forall (fun n => no_break n = true) (dengue_unique u) ->
  Forall (fun n => no_break n = true) (planning_unique u) ->
  rule_branch_answer u msg = list_reply u msg.
Proof.
  intros Hl Hd Hp. unfold rule_branch_answer, list_reply. cbv zeta.
  rewrite Hl, list_bucket_blocks.
  rewrite (flat_map_ext (list_block u) (list_section u)); [reflexivity|].
  intro key. apply list_block_section. now apply layer_unique_no_break.
Qed.

End ListFlow.

(** X15.  The list rule.  For a message that matches the list pattern, and
    names that hold no line boundary of [str.splitlines] (U+0085, U+2028
    and U+2029 included), the list flow gives one section for each target
    layer that has a name: the title of the layer and a colon, then its
    distinct names in first-seen order, bulleted, one hundred at most;
    the sections are separated by an empty line.  In the rule-based
    branch this is the deterministic answer, none when no target layer
    has a name, and when there is one it is the reply; the fallback of
    the tool branch gives the same answer when there is one. *)
Theorem X15_list_reply (u : upstream) (b : backend) (msg : string) :
  Re.matches list_pattern (Py.lower msg) = true ->
  Forall (fun n => one_line n = true) (dengue_unique u) ->
  Forall (fun n => one_line n = true) (planning_unique u) ->
  rule_branch_answer u msg = list_reply u msg
  /\ (forall r, list_reply u msg = Some r -> tool_branch_fallback u msg = Some r)
  /\ (forall r, list_reply u msg = Some r ->
      _azure_openai_chat_with_tools b (enrich u msg) = None ->
      reply (chat_api u b msg) = r).
Proof.
  intros Hl Hd Hp.
  apply one_line_no_break in Hd, Hp.
  pose proof (rule_answer_list u msg Hl Hd Hp) as H.
  split; [exact H|].
  split; [intros r Hr; apply tool_fallback_list; [exact Hl | now rewrite H]|].
  intros r Hr Ht.
  assert (Hm : msg <> "").
  { intros ->. vm_compute in Hl. discriminate Hl. }
  rewrite (chat_rule_reply u b msg Hm Ht), H, Hr. reflexivity.
Qed.

Lemma X15_list_reply_witness :
  reply (chat_api some_data unconfigured "list planning areas")
  = "Planning Areas (2019):" ++ LF ++ "- Bedok" ++ LF ++ "- Tampines" ++ LF
    ++ "- Woodlands".
Proof.
  destruct (X15_list_reply some_data unconfigured "list planning areas")
    as (_ & _ & H).
  - vm_compute. reflexivity.
  - repeat constructor.
  - repeat constructor.
  - apply H; vm_compute; reflexivity.
Defined.

(** ** The health endpoint *)

(** X16.  The health report is coherent: a probe passes only when the
    backend is configured, and a probe has an empty detail exactly when it
    passes.  The tool-calling probe passes exactly when the call returned
    a result with an intent or with text, the plain probe exactly when the
    plain call returned a non-empty reply. *)
Theorem X16_health_coherent (b : backend) :
  let h := azure_health b in
  is_configured h = configured b
  /\ (tool_calling_ok h = true -> configured b = true)
  /\ (basic_chat_ok h = true -> configured b = true)
  /\ (tool_calling_ok h = true <-> tool_detail h = "")
  /\ (basic_chat_ok h = true <-> basic_detail h = "")
  /\ (tool_calling_ok h = true <->
      exists t,
        _azure_openai_chat_with_tools b "show dengue layer and hide planning" = Some t
        /\ (out_intents t <> [] \/ truthy_opt (out_reply t) = true))
  /\ (basic_chat_ok h = true <->
      truthy_opt (_azure_openai_reply b "Say in one short sentence") = true).
Proof.
  unfold azure_health. cbv zeta.
  destruct (configured b) eqn:Hb.
  - cbn [is_configured tool_calling_ok tool_detail basic_chat_ok basic_detail].
    split; [reflexivity|]. split; [reflexivity|]. split; [reflexivity|].
    split; [|split; [|split]].
    + destruct (match _azure_openai_chat_with_tools b _ with
                | Some _ => _ | None => _ end);
        split; intro H; (reflexivity || discriminate H).
    + destruct (truthy_opt (_azure_openai_reply b _));
        split; intro H; (reflexivity || discriminate H).
    + destruct (_azure_openai_chat_with_tools b _) as [t|].
      * split.
        -- intro H. exists t. split; [reflexivity|].
           apply orb_true_iff in H as [H|H]; [left | now right].
           intro E. rewrite E in H. discriminate H.
        -- intros (t' & E & H). inversion E; subst t'.
           apply orb_true_iff. destruct H as [H|H]; [left | now right].
           destruct (out_intents t); [contradiction | reflexivity].
      * split; [discriminate|]. intros (t' & E & _). discriminate E.
    + reflexivity.
  - cbn [is_configured tool_calling_ok tool_detail basic_chat_ok basic_detail].
    rewrite unconfigured_tools, unconfigured_reply by assumption.
    repeat split; try discriminate.
    intros (t & E & _). discriminate E.
Qed.

(** ** The data endpoints and the fetch helpers *)

Section FetchFacts.

Variable loads : string -> option jv.

Lemma collect_in_raise {I A : Type} (pass : I -> step A) (items : list I) (item : I) :
  In item items -> pass item = Raise -> collect pass items = None.
Proof.
  induction items as [|x items IH]; [contradiction|].
  intros [->|Hin] Hr; cbn [collect].
  - now rewrite Hr.
  - destruct (pass x); [now apply IH | now rewrite IH | reflexivity].
Qed.

Lemma collect_no_raise {I A : Type} (pass : I -> step A) (items : list I) :
  (forall item, In item items -> pass item <> Raise) ->
  collect pass items
  = Some (flat_map (fun item => match pass item with Emit a => [a] | _ => [] end) items).
Proof.
  induction items as [|x items IH]; intro H; [reflexivity|].
  cbn [collect flat_map].
  rewrite IH by (intros item Hin; apply H; now right).
  pose proof (H x (or_introl eq_refl)) as Hx.
  destruct (pass x); [reflexivity | reflexivity | contradiction].
Qed.

Lemma planning_pass_geometry (item : planning_item) :
  planning_pass loads item
  = match parsed_geometry loads item with
    | Some geom => Emit {| planning_name := pln_area_n item; planning_geometry := geom |}
    | None => Skip
    end.
Proof.
  unfold planning_pass, parsed_geometry. cbv zeta.
  destruct (geojson item) as [|b|t s|s|l|d]; cbn [jv_truthy];
    try (match goal with |- (if ?c then _ else _) = _ => now destruct c end);
    try reflexivity.
  destruct (Py.nonempty s); reflexivity.
Qed.

Lemma planning_collect (items : list planning_item) :
  collect (planning_pass loads) items
  = Some (flat_map (fun item =>
            match parsed_geometry loads item with
            | Some geom =>
                [{| planning_name := pln_area_n item; planning_geometry := geom |}]
            | None => []
            end) items).
Proof.
  rewrite collect_no_raise.
  - f_equal. apply flat_map_ext. intro item. rewrite planning_pass_geometry.
    now destruct (parsed_geometry loads item).
  - intros item _. rewrite planning_pass_geometry.
    destruct (parsed_geometry loads item); discriminate.
Qed.

Lemma planning_names_of_items (items : list planning_item) :
  planning_names
    (map planning_as_feature
       (flat_map (fun item =>
          match parsed_geometry loads item with
          | Some geom =>
              [{| planning_name := pln_area_n item; planning_geometry := geom |}]
          | None => []
          end) items))
  = planning_item_names loads items.
Proof.
  unfold planning_item_names, planning_names.
  induction items as [|item items IH]; [reflexivity|].
  cbn [flat_map]. rewrite map_app, flat_map_app, IH. f_equal.
  destruct (parsed_geometry loads item); [|reflexivity].
  cbn [map flat_map planning_as_feature properties planning_name dict_get
       String.eqb Ascii.eqb Bool.eqb].
  now rewrite List.app_nil_r.
Qed.

End FetchFacts.

Section FetchTheorems.

Variable loads : string -> option jv.
Variable repr : jv -> string.

Lemma empty_dengue_context (u : upstream) (k : Z) :
  dengue_names (_get_dengue_features u) = [] ->
  _build_dengue_context u k = no_dengue_context.
Proof.
  intro H. unfold _build_dengue_context. rewrite H.
  change (dedup []) with (@nil string). unfold Py.slice_to.
  destruct (k <? 0)%Z; rewrite firstn_nil; reflexivity.
Qed.

Lemma empty_planning_context (u : upstream) (k : Z) :
  planning_names (_get_planning_features u (Some "2019")) = [] ->
  _planning_context_builder u k = no_planning_context.
Proof.
  intro H. unfold _planning_context_builder, _build_planning_context. rewrite H.
  change (dedup []) with (@nil string). unfold Py.slice_to.
  destruct (k <? 0)%Z; rewrite firstn_nil; reflexivity.
Qed.

Lemma obj_get_set_same (d : list (string * jv)) (k : string) (v : jv) :
  obj_get (obj_set d k v) k = v.
Proof.
  induction d as [|[k' v'] d IH]; cbn [obj_set obj_get].
  - now rewrite String.eqb_refl.
  - destruct (String.eqb k' k) eqn:E; cbn [obj_get]; now rewrite E.
Qed.

Lemma obj_get_set_other (d : list (string * jv)) (k k' : string) (v : jv) :
  String.eqb k k' = false -> obj_get (obj_set d k v) k' = obj_get d k'.
Proof.
  intro Hne. induction d as [|[k0 v0] d IH]; cbn [obj_set obj_get].
  - now rewrite Hne.
  - destruct (String.eqb k0 k) eqn:E; cbn [obj_get].
    + apply String.eqb_eq in E. subst k0. now rewrite Hne.
    + now rewrite IH.
Qed.

Lemma obj_set_truthy (d : list (string * jv)) (k : string) (v : jv) :
  jv_truthy (VObj (obj_set d k v)) = true.
Proof.
  destruct d as [|[k' v'] d]; cbn [obj_set]; [reflexivity|].
  now destruct (String.eqb k' k).
Qed.

End FetchTheorems.

(** X17.  The helpers return what the routes serve.  For the same token
    and the same answer of OneMap, a fetch helper returns exactly the
    features of the feature collection its route answers with, and the
    empty list whenever the route answers with an error or lets an
    exception through. *)
Theorem X17_helpers_match_routes (loads : string -> option jv)
    (ONEMAP_TOKEN : option string)
    (get_planning : option string -> fetched planning_item) (year : option string)
    (get_dengue : fetched (list (string * jv))) :
  match planning_areas loads ONEMAP_TOKEN get_planning year with
  | FeatureCollection features =>
      get_planning_features loads ONEMAP_TOKEN get_planning year = features
  | _ => get_planning_features loads ONEMAP_TOKEN get_planning year = []
  end
  /\
  match dengue_clusters loads ONEMAP_TOKEN get_dengue with
  | FeatureCollection features =>
      get_dengue_features loads ONEMAP_TOKEN get_dengue = features
  | _ => get_dengue_features loads ONEMAP_TOKEN get_dengue = []
  end.
Proof.
  unfold planning_areas, get_planning_features, dengue_clusters, get_dengue_features.
  destruct (_get_token ONEMAP_TOKEN); [|split; reflexivity].
  split.
  - destruct (get_planning (year_param year)) as [e|items]; [reflexivity|].
    now rewrite planning_collect.
  - destruct get_dengue as [e|items]; [reflexivity|].
    now destruct (collect (dengue_pass loads) items).
Qed.

(** X18.  What the planning context counts.  With a token and an answer
    of OneMap for the year 2019, the total of the planning context is the
    number of distinct names among the items that have a geometry: an item
    whose [geojson] is missing, empty, not a string or not JSON is left
    out, name and all.  Without a token, or when the request fails, the
    context is the one of an empty layer. *)
Theorem X18_planning_grounding (loads : string -> option jv) (repr : jv -> string)
    (ONEMAP_TOKEN : option string)
    (get_planning : option string -> fetched planning_item)
    (get_dengue : fetched (list (string * jv))) (max_items : Z) :
  let u := live_upstream loads repr ONEMAP_TOKEN get_planning get_dengue in
  (forall items,
     _get_token ONEMAP_TOKEN <> None ->
     get_planning (Some "2019") = Results items ->
     planning_unique u = dedup (planning_item_names loads items)
     /\ extract_total (total_pattern "total") (_planning_context_builder u max_items)
        = List.length (dedup (planning_item_names loads items)))
  /\ (_get_token ONEMAP_TOKEN = None
      \/ (exists e, get_planning (Some "2019") = RequestFailed e) ->
      _planning_context_builder u max_items = no_planning_context).
Proof.
  intro u. split.
  - intros items Ht Hg.
    assert (E : planning_unique u = dedup (planning_item_names loads items)).
    { unfold planning_unique, u, live_upstream. cbn [_get_planning_features].
      unfold get_planning_features.
      destruct (_get_token ONEMAP_TOKEN); [|contradiction].
      cbn [year_param Py.nonempty]. rewrite Hg, planning_collect.
      now rewrite planning_names_of_items. }
    split; [exact E|]. now rewrite planning_total, E.
  - intro H. apply empty_planning_context.
    unfold u, live_upstream. cbn [_get_planning_features].
    unfold get_planning_features.
    destruct H as [->|[e He]]; [reflexivity|].
    destruct (_get_token ONEMAP_TOKEN); [|reflexivity].
    cbn [year_param Py.nonempty]. now rewrite He.
Qed.

Lemma X18_planning_grounding_witness :
  Py.splitlines
    (_planning_context_builder
       (live_upstream loads_ring no_repr (Some "token")
          (fun _ => Results three_areas) (Results [])) 100)
  = ["Planning areas (year=2019): 1 total."; "List (first 1):"; "- BEDOK"]
  /\ extract_total (total_pattern "total")
       (_planning_context_builder
          (live_upstream loads_ring no_repr (Some "token")
             (fun _ => Results three_areas) (Results [])) 100)
     = 1.
Proof.
  split; [vm_compute; reflexivity|].
  destruct (X18_planning_grounding loads_ring no_repr (Some "token")
              (fun _ => Results three_areas) (Results []) 100) as [H _].
  destruct (H three_areas) as [_ ->]; [discriminate | reflexivity |].
  vm_compute. reflexivity.
Defined.

(** X19.  One bad item empties the dengue layer.  When a pass of the
    dengue loop raises (the geometry of an item is not an object, or the
    coordinates of a polygon do not start with a position), the exception
    leaves the loop: the route lets it through, the helper returns no
    feature at all, and the dengue context is the one of an empty layer,
    whatever the other items hold. *)
Theorem X19_bad_item_empties_dengue (loads : string -> option jv)
    (repr : jv -> string) (ONEMAP_TOKEN : option string)
    (get_planning : option string -> fetched planning_item)
    (items : list (list (string * jv))) (item : list (string * jv))
    (max_items : Z) :
  _get_token ONEMAP_TOKEN <> None ->
  In item items ->
  dengue_pass loads item = Raise ->
  dengue_clusters loads ONEMAP_TOKEN (Results items) = Uncaught
  /\ get_dengue_features loads ONEMAP_TOKEN (Results items) = []
  /\ _build_dengue_context
       (live_upstream loads repr ONEMAP_TOKEN get_planning (Results items)) max_items
     = no_dengue_context.
Proof.
  intros Ht Hin Hr.
  pose proof (collect_in_raise (dengue_pass loads) items item Hin Hr) as Hc.
  assert (E : get_dengue_features loads ONEMAP_TOKEN (Results items) = []).
  { unfold get_dengue_features. destruct (_get_token ONEMAP_TOKEN); [|reflexivity].
    now rewrite Hc. }
  split; [|split; [exact E|]].
  - unfold dengue_clusters. destruct (_get_token ONEMAP_TOKEN); [|contradiction].
    now rewrite Hc.
  - apply empty_dengue_context. unfold live_upstream. cbn [_get_dengue_features].
    now rewrite E.
Qed.

Lemma X19_bad_item_empties_dengue_witness :
  List.length (get_dengue_features loads_ring (Some "token") (Results [good_cluster])) = 1
  /\ get_dengue_features loads_ring (Some "token") (Results [good_cluster; empty_ring]) = []
  /\ _build_dengue_context
       (live_upstream loads_ring no_repr (Some "token") (fun _ => Results [])
          (Results [good_cluster; empty_ring])) 100
     = no_dengue_context.
Proof.
  split; [vm_compute; reflexivity|].
  apply (X19_bad_item_empties_dengue loads_ring no_repr (Some "token")
           (fun _ => Results []) [good_cluster; empty_ring] empty_ring 100).
  - discriminate.
  - right. left. reflexivity.
  - vm_compute. reflexivity.
Defined.

Section Normalise.

Variable loads : string -> option jv.

(** A pass that emits, in two stages: the coordinates are read (and parsed
    when they are text), then the polygon rule applies. *)
Lemma dengue_pass_emit (item : list (string * jv)) (f : dengue_feature) :
  dengue_pass loads item = Emit f ->
  exists g0 g1,
    geometry_of item = VObj g0
    /\ g0 <> []
    /\ match obj_get g0 "coordinates" with
       | VStr s => exists c, loads s = Some c /\ g1 = obj_set g0 "coordinates" c
       | _ => g1 = g0
       end
    /\ polygon_rule g1 = Some (dengue_geometry f)
    /\ dengue_properties f = filter not_geojson item.
Proof.
  unfold dengue_pass, geometry_of. cbv zeta.
  destruct (obj_has item "GeoJSON"); [|discriminate].
  set (geom := match obj_get item "GeoJSON" with VObj d => obj_get d "geometry" | _ => VNull end).
  destruct geom as [|b|t s|s|l|g0] eqn:Eg; cbn [jv_truthy negb];
    try discriminate;
    try (match goal with |- (if ?c then _ else _) = _ -> _ => destruct c; discriminate end).
  destruct g0 as [|kv g0']; [discriminate|].
  cbn [List.length Nat.eqb negb].
  set (g0 := kv :: g0') in *.
  intro H. exists g0.
  assert (Hfin : forall g1 coords,
            coords = obj_get g1 "coordinates" ->
            match obj_get g1 "type", coords with
            | VStr t, VArr (c :: cs) =>
                if String.eqb t "Polygon" then
                  match first_of_first (c :: cs) with
                  | None => Raise
                  | Some x =>
                      if is_number x
                      then Emit {| dengue_properties := filter not_geojson item;
                                   dengue_geometry :=
                                     obj_set g1 "coordinates" (VArr [VArr (c :: cs)]) |}
                      else Emit {| dengue_properties := filter not_geojson item;
                                   dengue_geometry := g1 |}
                  end
                else Emit {| dengue_properties := filter not_geojson item;
                             dengue_geometry := g1 |}
            | _, _ => Emit {| dengue_properties := filter not_geojson item;
                              dengue_geometry := g1 |}
            end = Emit f ->
            polygon_rule g1 = Some (dengue_geometry f)
            /\ dengue_properties f = filter not_geojson item).
  { intros g1 coords -> Hf. unfold polygon_rule.
    destruct (obj_get g1 "type") as [|b|t s|t|l|d];
      try (inversion Hf; subst; split; reflexivity).
    destruct (obj_get g1 "coordinates") as [|b|t' s|s|[|c cs]|d];
      try (inversion Hf; subst; split; reflexivity).
    destruct (String.eqb t "Polygon");
      [|inversion Hf; subst; split; reflexivity].
    destruct (first_of_first (c :: cs)) as [x|]; [|discriminate].
    destruct (is_number x); inversion Hf; subst; split; reflexivity. }
  destruct (obj_get g0 "coordinates") as [|b|t s|s|l|d] eqn:Ec;
    try (exists g0; split; [reflexivity|]; split; [discriminate|];
         split; [reflexivity|]; apply (Hfin g0 _ (eq_sym Ec) H)).
  destruct (loads s) as [c|] eqn:El; [|discriminate].
  exists (obj_set g0 "coordinates" c).
  split; [reflexivity|]. split; [discriminate|].
  split; [exists c; now split|].
  apply (Hfin _ c); [now rewrite obj_get_set_same | exact H].
Qed.

End Normalise.

Section Normalise2.

Variable loads : string -> option jv.

(** A pass on an item whose coordinates are not text. *)
Lemma dengue_pass_plain (item g : list (string * jv)) :
  obj_has item "GeoJSON" = true ->
  geometry_of item = VObj g -> g <> [] ->
  is_text (obj_get g "coordinates") = false ->
  dengue_pass loads item
  = match polygon_rule g with
    | Some g' => Emit {| dengue_properties := filter not_geojson item;
                         dengue_geometry := g' |}
    | None => Raise
    end.
Proof.
  intros Hh Hg Hne Ht. unfold dengue_pass, geometry_of in *. cbv zeta.
  rewrite Hh, Hg. destruct g as [|kv g']; [contradiction|].
  cbn [jv_truthy List.length Nat.eqb negb].
  set (g := kv :: g') in *. unfold polygon_rule.
  destruct (obj_get g "coordinates") as [|b|t s|s|[|c cs]|d];
    try discriminate Ht;
    destruct (obj_get g "type") as [|b'|t' s'|t'|l'|d']; try reflexivity.
  destruct (String.eqb t' "Polygon"); [|reflexivity].
  destruct (first_of_first (c :: cs)) as [x|]; [|reflexivity].
  now destruct (is_number x).
Qed.

Lemma first_not_number (c x : jv) (cs : list jv) :
  first_of_first (c :: cs) = Some x -> is_number c = false.
Proof. destruct c as [|b|t s|s|l|d]; try discriminate; reflexivity. Qed.

(** The polygon rule changes nothing the second time. *)
Lemma polygon_rule_idempotent (g g' : list (string * jv)) :
  polygon_rule g = Some g' -> polygon_rule g' = Some g'.
Proof.
  unfold polygon_rule at 1.
  destruct (obj_get g "type") as [|b|t s|t|l|d] eqn:Et;
    try (intro H; inversion H; subst; unfold polygon_rule; now rewrite Et).
  destruct (obj_get g "coordinates") as [|b|t' s|s|[|c cs]|d] eqn:Ec;
    try (intro H; inversion H; subst; unfold polygon_rule; now rewrite Et, Ec).
  destruct (String.eqb t "Polygon") eqn:Ep;
    [|intro H; inversion H; subst; unfold polygon_rule; now rewrite Et, Ec, Ep].
  destruct (first_of_first (c :: cs)) as [x|] eqn:Ef; [|discriminate].
  destruct (is_number x) eqn:En; intro H; inversion H; subst.
  - unfold polygon_rule.
    rewrite obj_get_set_other by reflexivity.
    rewrite obj_get_set_same, Et, Ep. cbn [first_of_first].
    now rewrite (first_not_number c x cs Ef).
  - unfold polygon_rule. now rewrite Et, Ec, Ep, Ef, En.
Qed.

Lemma polygon_rule_nonempty (g g' : list (string * jv)) :
  g <> [] -> polygon_rule g = Some g' -> g' <> [].
Proof.
  intro Hne. unfold polygon_rule.
  destruct (obj_get g "type"); try (intro H; inversion H; now subst).
  destruct (obj_get g "coordinates") as [| | | |[|c cs]|];
    try (intro H; inversion H; now subst).
  destruct (String.eqb _ _); [|intro H; inversion H; now subst].
  destruct (first_of_first _) as [x|]; [|discriminate].
  destruct (is_number x); intro H; inversion H; subst; [|assumption].
  intro E. pose proof (obj_set_truthy g "coordinates" (VArr [VArr (c :: cs)])) as T.
  rewrite E in T. discriminate T.
Qed.

Lemma filter_not_geojson_twice (item : list (string * jv)) :
  filter not_geojson (filter not_geojson item) = filter not_geojson item.
Proof.
  induction item as [|kv item IH]; [reflexivity|].
  cbn [filter]. destruct (not_geojson kv) eqn:E; [|assumption].
  cbn [filter]. now rewrite E, IH.
Qed.

Lemma filtered_has_no_geojson (item : list (string * jv)) :
  obj_has (filter not_geojson item) "GeoJSON" = false.
Proof.
  unfold obj_has. induction item as [|kv item IH]; [reflexivity|].
  cbn [filter]. destruct (not_geojson kv) eqn:E; [|assumption].
  cbn [existsb]. rewrite IH. unfold not_geojson in E.
  apply negb_true_iff in E. now rewrite E.
Qed.

Lemma filtered_get (item : list (string * jv)) (k : string) :
  String.eqb k "GeoJSON" = false ->
  obj_get (filter not_geojson item) k = obj_get item k.
Proof.
  intro Hk. induction item as [|[k' v] item IH]; [reflexivity|].
  cbn [filter]. unfold not_geojson at 1. cbn [fst].
  destruct (String.eqb k' "GeoJSON") eqn:E; cbn [negb obj_get].
  - apply String.eqb_eq in E. subst k'. rewrite (String.eqb_sym "GeoJSON" k), Hk.
    exact IH.
  - now rewrite IH.
Qed.

End Normalise2.

(** X20.  What a pass of the dengue loop emits.  The properties of a
    feature are the fields of its item other than [GeoJSON], unchanged and
    in order.  A polygon whose coordinates start with a position (one flat
    ring) comes out with its coordinates wrapped in a list.  The rule is
    idempotent: a feature put back in the shape of an item comes out
    unchanged, as long as its coordinates are not text. *)
Theorem X20_dengue_pass_emits (loads : string -> option jv)
    (item : list (string * jv)) (f : dengue_feature) :
  dengue_pass loads item = Emit f ->
  (dengue_properties f = filter not_geojson item
   /\ obj_has (dengue_properties f) "GeoJSON" = false
   /\ forall k, String.eqb k "GeoJSON" = false ->
        obj_get (dengue_properties f) k = obj_get item k)
  /\ (forall g x position ring,
        geometry_of item = VObj g ->
        obj_get g "type" = VStr "Polygon" ->
        obj_get g "coordinates" = VArr (VArr (x :: position) :: ring) ->
        is_number x = true ->
        obj_get (dengue_geometry f) "coordinates"
        = VArr [VArr (VArr (x :: position) :: ring)])
  /\ (is_text (obj_get (dengue_geometry f) "coordinates") = false ->
      dengue_pass loads (as_item f) = Emit f).
Proof.
  intro H.
  destruct (dengue_pass_emit loads item f H) as (g0 & g1 & Hg & Hne & Hc & Hp & Hprops).
  split; [|split].
  - rewrite Hprops. split; [reflexivity|].
    split; [apply filtered_has_no_geojson | apply filtered_get].
  - intros g x position ring Hg' Ht Hco Hx.
    rewrite Hg in Hg'. inversion Hg'; subst g. rewrite Hco in Hc. subst g1.
    unfold polygon_rule in Hp. rewrite Ht, Hco in Hp.
    cbn [String.eqb Ascii.eqb Bool.eqb first_of_first] in Hp. rewrite Hx in Hp.
    inversion Hp as [E]. now rewrite obj_get_set_same.
  - intro Htext.
    assert (Hne1 : g1 <> []).
    { destruct (obj_get g0 "coordinates"); try (now subst g1).
      destruct Hc as (c & _ & ->). intro E.
      pose proof (obj_set_truthy g0 "coordinates" c) as T. rewrite E in T.
      discriminate T. }
    pose proof (polygon_rule_nonempty _ _ Hne1 Hp) as Hne'.
    rewrite (dengue_pass_plain loads (as_item f) (dengue_geometry f));
      [|reflexivity|reflexivity|assumption|assumption].
    rewrite (polygon_rule_idempotent _ _ Hp).
    unfold as_item. cbn [filter not_geojson fst String.eqb Ascii.eqb Bool.eqb negb].
    rewrite Hprops, filter_not_geojson_twice, <- Hprops.
    now destruct f.
Qed.

Lemma X20_dengue_pass_emits_witness :
  exists f,
    dengue_pass loads_ring good_cluster = Emit f
    /\ dengue_properties f = [("DESCRIPTION", VStr "Bedok North Ave 1")]
    /\ dengue_pass loads_ring (as_item f) = Emit f.
Proof.
  eexists. split; [vm_compute; reflexivity|]. split; [reflexivity|].
  apply (X20_dengue_pass_emits loads_ring good_cluster); reflexivity.
Defined.

(** ** The [.env] file of the token fetcher *)

Section EnvFile.

Lemma strip_edges (s : string) :
  Py.strip s = "" \/
  (starts_nonspace (Py.strip s) = true /\ ends_nonspace (Py.strip s) = true).
Proof.
  unfold Py.strip. destruct (Py.lstrip s) as [|c t] eqn:E; [now left|].
  right.
  assert (Hs : starts_nonspace (String c t) = true).
  { rewrite <- E. apply lstrip_starts. rewrite E. discriminate. }
  pose proof (rstrip_keeps_start _ Hs) as Hs'. split; [exact Hs'|].
  apply rstrip_ends. intro H. rewrite H in Hs'. discriminate Hs'.
Qed.

Lemma trimmed_edges (s : string) :
  trimmed s = true ->
  s = "" \/ (starts_nonspace s = true /\ ends_nonspace s = true).
Proof.
  unfold trimmed. intro H. apply String.eqb_eq in H.
  rewrite <- H. apply strip_edges.
Qed.

Lemma trimmed_strip (s : string) : trimmed s = true -> Py.strip s = s.
Proof. unfold trimmed. apply String.eqb_eq. Qed.

Lemma trimmed_of_strip (s : string) : trimmed (Py.strip s) = true.
Proof. unfold trimmed. apply String.eqb_eq, strip_strip. Qed.

Lemma no_equals_app (a b : string) :
  no_equals (a ++ b) = no_equals a && no_equals b.
Proof.
  induction a as [|c a IH]; [reflexivity|].
  cbn [append no_equals]. now rewrite IH, andb_assoc.
Qed.

Lemma split_eq_app (k v : string) :
  no_equals k = true -> split_eq (k ++ "=" ++ v) = Some (k, v).
Proof.
  induction k as [|c k IH]; intro H; [reflexivity|].
  cbn [no_equals] in H. apply andb_true_iff in H as [Hc Hk].
  apply negb_true_iff in Hc.
  cbn [append split_eq]. cbn [append] in IH. now rewrite Hc, IH.
Qed.

Lemma split_eq_inv (line k v : string) :
  split_eq line = Some (k, v) ->
  line = k ++ "=" ++ v /\ no_equals k = true.
Proof.
  revert k. induction line as [|c line IH]; intros k H; [discriminate|].
  cbn [split_eq] in H. destruct (Ascii.eqb c "=") eqn:Ec.
  - apply Ascii.eqb_eq in Ec. subst c. inversion H; subst. now split.
  - destruct (split_eq line) as [[k' v']|]; [|discriminate].
    inversion H; subst. destruct (IH k' eq_refl) as [-> Hk].
    split; [reflexivity|]. cbn [no_equals]. now rewrite Ec, Hk.
Qed.

(** The first character of a text that starts with no blank survives
    [rstrip]. *)
Lemma rstrip_head (c : ascii) (t : string) :
  Py.is_space c = false -> exists r, Py.rstrip (String c t) = String c r.
Proof.
  intro Hc. cbn [Py.rstrip]. destruct (Py.rstrip t) as [|d r].
  - rewrite Hc. now exists "".
  - now exists (String d r).
Qed.

Lemma lstrip_app_nonempty (k rest : string) :
  Py.lstrip k <> "" -> Py.lstrip (k ++ rest) = Py.lstrip k ++ rest.
Proof.
  induction k as [|c k IH]; intro H; [now contradiction H|].
  cbn [append Py.lstrip] in *. destruct (Py.is_space c); [now apply IH | reflexivity].
Qed.

(** A line written for a clean entry is neither blank nor a comment. *)
Lemma line_kept (k v : string) :
  clean_key k = true ->
  negb (Py.nonempty (Py.strip (env_line (k, v)))) ||
  Py.startswith "#" (Py.strip (env_line (k, v))) = false.
Proof.
  unfold clean_key. intro H.
  apply andb_true_iff in H as [H Hh]. apply andb_true_iff in H as [H _].
  apply andb_true_iff in H as [Ht _]. apply negb_true_iff in Hh.
  unfold env_line. cbn [fst snd].
  destruct k as [|c k].
  - cbn [append]. unfold Py.strip.
    destruct (rstrip_head "=" v eq_refl) as [r E].
    change (Py.lstrip (String "=" v)) with (String "=" v).
    rewrite E. reflexivity.
  - destruct (trimmed_edges _ Ht) as [E | [Hs _]]; [discriminate|].
    cbn [starts_nonspace] in Hs. apply negb_true_iff in Hs.
    cbn [append]. unfold Py.strip. cbn [Py.lstrip]. rewrite Hs.
    match goal with
    | |- context [Py.rstrip (String c ?t)] =>
        destruct (rstrip_head c t Hs) as [r E]
    end.
    rewrite E. cbn [Py.nonempty negb orb Py.startswith] in *.
    destruct (Ascii.eqb "#" c); [discriminate Hh | reflexivity].
Qed.

Lemma env_set_fresh (d : list (string * string)) (k v : string) :
  ~ In k (keys d) -> env_set d k v = (d ++ [(k, v)])%list.
Proof.
  induction d as [|[k' v'] d IH]; intro H; [reflexivity|].
  cbn [env_set]. destruct (String.eqb k' k) eqn:E.
  - apply String.eqb_eq in E. subst. exfalso. apply H. now left.
  - cbn [List.app]. rewrite IH; [reflexivity|]. intro Hin. apply H. now right.
Qed.

Lemma env_line_no_break (k v : string) :
  no_break k = true -> no_break v = true -> no_break (env_line (k, v)) = true.
Proof.
  intros Hk Hv. unfold env_line. cbn [fst snd].
  now rewrite !no_break_app, Hk, Hv.
Qed.

Lemma clean_entry_parts (kv : string * string) :
  clean_entry kv = true ->
  clean_key (fst kv) = true /\ trimmed (fst kv) = true /\
  no_break (fst kv) = true /\ no_equals (fst kv) = true /\
  trimmed (snd kv) = true /\ no_break (snd kv) = true.
Proof.
  unfold clean_entry, clean_key, clean_value. intro H.
  apply andb_true_iff in H as [Hk Hv]. split; [exact Hk|].
  apply andb_true_iff in Hk as [Hk _]. apply andb_true_iff in Hk as [Hk He].
  apply andb_true_iff in Hk as [Ht Hb]. apply andb_true_iff in Hv as [Hvt Hvb].
  auto 6.
Qed.

(** Reading back the lines written for clean entries with new keys adds the
    entries in order. *)
Lemma read_written_lines (entries acc : list (string * string)) :
  Forall (fun kv => clean_entry kv = true) entries ->
  NoDup (keys (acc ++ entries)) ->
  read_lines (map env_line entries) acc = (acc ++ entries)%list.
Proof.
  revert acc. induction entries as [|[k v] entries IH]; intros acc Hc Hn.
  - now rewrite List.app_nil_r.
  - inversion Hc as [|? ? Hkv Hrest]; subst.
    destruct (clean_entry_parts _ Hkv) as (Hk & Hkt & Hkb & Hke & Hvt & Hvb).
    cbn [fst snd] in *.
    cbn [map read_lines]. rewrite (line_kept k v Hk).
    unfold env_line at 1. cbn [fst snd]. rewrite (split_eq_app k v Hke).
    rewrite (trimmed_strip _ Hkt), (trimmed_strip _ Hvt).
    assert (Hfresh : ~ In k (keys acc)).
    { unfold keys in Hn. rewrite map_app in Hn. cbn [map fst] in Hn.
      apply NoDup_remove_2 in Hn. intro Hin. apply Hn.
      apply in_or_app. now left. }
    rewrite (env_set_fresh _ _ _ Hfresh).
    rewrite IH; [now rewrite <- List.app_assoc | assumption |].
    now rewrite <- List.app_assoc.
Qed.

(** The written text splits into one line for each entry. *)
Lemma splitlines_closed (lines : list string) :
  lines <> [] ->
  Forall (fun l => no_break l = true) lines ->
  Py.splitlines (Py.join LF lines ++ LF) = lines.
Proof.
  unfold Py.splitlines.
  induction lines as [|l lines IH]; intros Hne H; [now contradiction Hne|].
  inversion H as [|? ? Hl Hrest]; subst.
  destruct lines as [|l2 lines].
  - cbn [Py.join String.concat].
    pose proof (splitlines_line "" l "" Hl) as E.
    rewrite app_nil_r in E. rewrite E. reflexivity.
  - change (Py.join LF (l :: l2 :: lines))
      with (l ++ LF ++ Py.join LF (l2 :: lines)).
    rewrite !app_assoc. rewrite splitlines_line by assumption.
    cbn [append]. rewrite IH; [reflexivity | discriminate | assumption].
Qed.

Lemma read_env_text (d : list (string * string)) :
  Forall (fun kv => clean_entry kv = true) d ->
  NoDup (keys d) ->
  read_env (env_text d) = d.
Proof.
  intros Hc Hn. destruct d as [|kv d]; [reflexivity|].
  unfold read_env, env_text. rewrite splitlines_closed.
  - now apply (read_written_lines (kv :: d) []).
  - discriminate.
  - apply Forall_map. eapply Forall_impl; [|exact Hc].
    intros [k v] H. destruct (clean_entry_parts _ H) as (_ & _ & Hkb & _ & _ & Hvb).
    now apply env_line_no_break.
Qed.

End EnvFile.

Section EnvRead.

Lemma splitlines_no_break_len (n : nat) :
  forall s cur, String.length s <= n -> no_break cur = true ->
  Forall (fun l => no_break l = true) (Py.splitlines_from cur s).
Proof.
  induction n as [|n IH]; intros s cur Hlen Hcur.
  - destruct s; [|cbn in Hlen; lia].
    cbn [Py.splitlines_from]. destruct cur; auto.
  - destruct s as [|c r].
    + cbn [Py.splitlines_from]. destruct cur; auto.
    + cbn [String.length] in Hlen. cbn [Py.splitlines_from].
      destruct (Py.code c =? 13)%nat.
      * destruct r as [|d r']; [auto|].
        cbn [String.length] in Hlen.
        destruct (Py.code d =? 10)%nat; constructor; try assumption.
        -- apply IH; [lia | reflexivity].
        -- apply IH; [cbn [String.length]; lia | reflexivity].
      * destruct (Py.is_linebreak c) eqn:Ec.
        -- constructor; [assumption|]. apply IH; [lia | reflexivity].
        -- apply IH; [lia|]. rewrite no_break_app, Hcur.
           cbn [no_break]. now rewrite Ec.
Qed.

Lemma splitlines_no_break (text : string) :
  Forall (fun l => no_break l = true) (Py.splitlines text).
Proof. now apply (splitlines_no_break_len (String.length text)). Qed.

Lemma no_break_strip (s : string) : no_break s = true -> no_break (Py.strip s) = true.
Proof.
  intro H. destruct (strip_inside s) as (a & b & E). rewrite E in H.
  rewrite !no_break_app in H.
  apply andb_true_iff in H as [_ H]. now apply andb_true_iff in H as [H _].
Qed.

Lemma no_equals_strip (s : string) : no_equals s = true -> no_equals (Py.strip s) = true.
Proof.
  intro H. destruct (strip_inside s) as (a & b & E). rewrite E in H.
  rewrite !no_equals_app in H.
  apply andb_true_iff in H as [_ H]. now apply andb_true_iff in H as [H _].
Qed.

(** The key of a line that is not a comment does not start one. *)
Lemma key_not_comment (k rest : string) :
  Py.startswith "#" (Py.strip (k ++ rest)) = false ->
  Py.startswith "#" (Py.strip k) = false.
Proof.
  unfold Py.strip. intro H.
  destruct (Py.lstrip k) as [|c t] eqn:E; [reflexivity|].
  assert (Hc : Py.is_space c = false).
  { assert (Hs : starts_nonspace (Py.lstrip k) = true)
      by (apply lstrip_starts; rewrite E; discriminate).
    rewrite E in Hs. now apply negb_true_iff in Hs. }
  rewrite lstrip_app_nonempty in H by (rewrite E; discriminate).
  rewrite E in H. cbn [append] in H.
  destruct (rstrip_head c (t ++ rest) Hc) as [r1 E1].
  destruct (rstrip_head c t Hc) as [r2 E2].
  rewrite E1 in H. rewrite E2. exact H.
Qed.

(** What the loop stores for a line is a clean entry. *)
Lemma read_entry_clean (line k v : string) :
  no_break line = true ->
  Py.startswith "#" (Py.strip line) = false ->
  split_eq line = Some (k, v) ->
  clean_entry (Py.strip k, Py.strip v) = true.
Proof.
  intros Hb Hc Hs. destruct (split_eq_inv _ _ _ Hs) as [-> Hk].
  rewrite !no_break_app in Hb.
  apply andb_true_iff in Hb as [Hkb Hb]. apply andb_true_iff in Hb as [_ Hvb].
  unfold clean_entry, clean_key, clean_value. cbn [fst snd].
  rewrite !trimmed_of_strip, (no_break_strip _ Hkb), (no_break_strip _ Hvb),
    (no_equals_strip _ Hk), (key_not_comment _ _ Hc).
  reflexivity.
Qed.

Lemma env_set_clean (d : list (string * string)) (k v : string) :
  Forall (fun kv => clean_entry kv = true) d ->
  clean_entry (k, v) = true ->
  Forall (fun kv => clean_entry kv = true) (env_set d k v).
Proof.
  intros Hd Hkv. induction d as [|[k' v'] d IH]; [now constructor|].
  inversion Hd as [|? ? H1 H2]; subst. cbn [env_set].
  destruct (String.eqb k' k) eqn:E.
  - apply String.eqb_eq in E. subst. now constructor.
  - constructor; [assumption | now apply IH].
Qed.

Lemma env_set_keys (d : list (string * string)) (k v : string) :
  keys (env_set d k v) = keys d \/
  (~ In k (keys d) /\ keys (env_set d k v) = (keys d ++ [k])%list).
Proof.
  induction d as [|[k' v'] d IH]; [right; now split|].
  cbn [env_set]. destruct (String.eqb k' k) eqn:E; [now left|].
  apply String.eqb_neq in E.
  destruct IH as [IH | [Hn IH]]; unfold keys in *; cbn [map fst].
  - left. now rewrite IH.
  - right. split; [|now rewrite IH].
    intros [H|H]; [now apply E | now apply Hn].
Qed.

Lemma env_set_nodup (d : list (string * string)) (k v : string) :
  NoDup (keys d) -> NoDup (keys (env_set d k v)).
Proof.
  intro H. destruct (env_set_keys d k v) as [-> | [Hn ->]]; [assumption|].
  apply NoDup_app; [assumption | repeat constructor; intros [] |].
  intros x Hx [<-|[]]. now apply Hn.
Qed.

Lemma read_lines_clean (lines : list string) :
  Forall (fun l => no_break l = true) lines ->
  forall acc,
  Forall (fun kv => clean_entry kv = true) acc -> NoDup (keys acc) ->
  Forall (fun kv => clean_entry kv = true) (read_lines lines acc) /\
  NoDup (keys (read_lines lines acc)).
Proof.
  induction 1 as [|line lines Hl _ IH]; intros acc Hc Hn; [now split|].
  cbn [read_lines].
  destruct (negb (Py.nonempty (Py.strip line)) ||
            Py.startswith "#" (Py.strip line)) eqn:E; [now apply IH|].
  apply orb_false_iff in E as [_ E].
  destruct (split_eq line) as [[k v]|] eqn:Es; [|now apply IH].
  apply IH.
  - apply env_set_clean; [assumption|]. now apply (read_entry_clean line).
  - now apply env_set_nodup.
Qed.

Lemma read_env_clean (text : string) :
  Forall (fun kv => clean_entry kv = true) (read_env text) /\
  NoDup (keys (read_env text)).
Proof.
  apply read_lines_clean; [apply splitlines_no_break | constructor | constructor].
Qed.





End EnvRead.

(** X21.  Reading a [.env] file, writing the dictionary back and reading
    again gives the same dictionary, whatever the file held: the keys and
    values the script stores are exactly those that survive its own file
    format.  In particular writing a second time changes nothing. *)
Theorem X21_env_round_trip (text : string) :
  read_env (env_text (read_env text)) = read_env text /\
  env_text (read_env (env_text (read_env text))) = env_text (read_env text).
Proof.
  destruct (read_env_clean text) as [Hc Hn].
  now rewrite (read_env_text _ Hc Hn).
Qed.


